(** * Campus Bus Tracker: the live-location and ETA engine

    A shallow embedding of the backend's location engine:
    - [ETACalculator]    src/backend/utils/etaCalculator.js
    - [BusStop]          models/BusStop.js (stop locator)
    - [LiveBusLocation]  src/backend/models/LiveBusLocation.js
    - [LocationController] controllers/locationController.js
    - [SocketService]    services/socketService.js (fan-out hub)
    - [TripLog], [LocationHistory]  models/TripLog.js, models/LocationHistory.js
    - [Route]            models/Route.js
    - [BusController]    controllers/busController.js (stops of a bus)

    JavaScript numbers are modelled as real numbers ([R]): every arithmetic
    step is the exact one, [NaN] and rounding of IEEE doubles are not
    represented.  A value that may be [null] or [undefined] is an [option].
    [Date.now()] is an explicit argument [now] (milliseconds). *)

From Stdlib Require Import Reals Lra Lia ZArith Ascii.
From stdpp Require Import base decidable option list strings gmap sets sorting
  pretty.

(** ** Numbers *)

#[global] Instance Rlt_decision (x y : R) : Decision (x < y)%R := Rlt_dec x y.
#[global] Instance Rle_decision (x y : R) : Decision (x <= y)%R := Rle_dec x y.
#[global] Instance Req_decision : EqDecision R := Req_dec_T.

Module JS.
Local Open Scope R_scope.

(** [!x] for a value that is a number, [null] or [undefined]. *)
Definition not (x : option R) : bool :=
  match x with
  | None => true
  | Some v => bool_decide (v = 0)
  end.

(** [x <= y] when [x] may be [undefined]: the comparison is then false.
    The callers compare only after [!x] has ruled [null] out. *)
Definition le (x : option R) (y : R) : bool :=
  match x with
  | None => false
  | Some v => bool_decide (v <= y)
  end.

(** [Math.round]: the nearest integer, halves going up. *)
Definition Math_round (x : R) : R := IZR (Int_part (x + / 2)).

(** [Math.atan2(y, x)]. *)
Definition Math_atan2 (y x : R) : R :=
  if decide (0 < x) then atan (y / x)
  else if decide (x < 0) then
    (if decide (0 <= y) then atan (y / x) + PI else atan (y / x) - PI)
  else if decide (0 < y) then PI / 2
  else if decide (y < 0) then - (PI / 2)
  else 0.

End JS.

(** ** ETA calculator (src/backend/utils/etaCalculator.js) *)

Module ETACalculator.
Local Open Scope R_scope.

Record Coord := { lat : R; lng : R }.

Inductive Confidence := high | medium | low.
Inductive Status := arriving.

(** The object the estimator returns; a field the code leaves out of the
    object literal is [None]. *)
Record ETAInfo := {
  eta : option R;
  durationMinutes : R;
  distanceKm : option R;
  speedKmh : option R;
  isRealtime : bool;
  confidence : Confidence;
  status : option Status
}.

Definition toRadians (degrees : R) : R := degrees * (PI / 180).

Definition calculateDistance (coord1 coord2 : Coord) : R :=
  let R_ := 6371 in
  let lat1Rad := toRadians (lat coord1) in
  let lat2Rad := toRadians (lat coord2) in
  let deltaLatRad := toRadians (lat coord2 - lat coord1) in
  let deltaLngRad := toRadians (lng coord2 - lng coord1) in
  let a := sin (deltaLatRad / 2) * sin (deltaLatRad / 2) +
           cos lat1Rad * cos lat2Rad *
           sin (deltaLngRad / 2) * sin (deltaLngRad / 2) in
  let c := 2 * JS.Math_atan2 (sqrt a) (sqrt (1 - a)) in
  R_ * c.

Definition calculateETA (now : R) (distanceKm speedKmh : option R)
    (bufferMinutes : R) : ETAInfo :=
  if JS.not distanceKm || JS.le distanceKm 0 then
    {| eta := None; durationMinutes := 0; distanceKm := None;
       speedKmh := None; isRealtime := false; confidence := low;
       status := None |}
  else
    let d := default 0 distanceKm in
    let speedKmh := if JS.not speedKmh || JS.le speedKmh 0
                    then 25 else default 0 speedKmh in
    let durationMinutes := (d / speedKmh) * 60 in
    let totalMinutes := durationMinutes + bufferMinutes in
    let eta := now + totalMinutes * 60 * 1000 in
    {| eta := Some eta;
       durationMinutes := JS.Math_round totalMinutes;
       distanceKm := Some (JS.Math_round (d * 100) / 100);
       speedKmh := Some (JS.Math_round (speedKmh * 100) / 100);
       isRealtime := bool_decide (0 < speedKmh);
       confidence := if bool_decide (5 < speedKmh) then high else medium;
       status := None |}.

(** The [forEach] of [calculateSmoothedETA]: one pass that carries
    [(weightedSum, totalWeight)], the sample at [index] weighing
    [index + 1]. *)
Definition weightedStep (acc : R * R) (entry : nat * R) : R * R :=
  let weight := INR (entry.1 + 1) in
  (acc.1 + entry.2 * weight, acc.2 + weight).

Definition weightedSums (validSpeeds : list R) : R * R :=
  foldl weightedStep (0, 0) (imap pair validSpeeds).

Definition averageSpeed (validSpeeds : list R) : R :=
  let sums := weightedSums validSpeeds in sums.1 / sums.2.

(** [speedSamples.filter(speed => speed > 0 && speed < 120)]; a [null]
    sample compares false and is dropped. *)
Definition validSpeed (speed : option R) : option R :=
  match speed with
  | Some v => if bool_decide (0 < v) && bool_decide (v < 120)
              then Some v else None
  | None => None
  end.

Definition calculateSmoothedETA (now : R) (speedSamples : list (option R))
    (distanceKm : option R) : ETAInfo :=
  if bool_decide (length speedSamples = 0%nat) || JS.not distanceKm then
    calculateETA now distanceKm (Some 0) 2
  else
    let validSpeeds := omap validSpeed speedSamples in
    if bool_decide (length validSpeeds = 0%nat) then
      calculateETA now distanceKm (Some 0) 2
    else
      calculateETA now distanceKm (Some (averageSpeed validSpeeds)) 2.

Definition estimateTimeToStop (now : R) (busLocation stopLocation : Coord)
    (currentSpeed : option R) (recentSpeeds : list (option R)) : ETAInfo :=
  let distanceKm := calculateDistance busLocation stopLocation in
  if bool_decide (distanceKm < 0.1) then
    {| eta := Some (now + 60 * 1000);
       durationMinutes := 1;
       distanceKm := Some distanceKm;
       speedKmh := None;
       isRealtime := true;
       confidence := high;
       status := Some arriving |}
  else
    let speedSamples :=
      if bool_decide (0 < length recentSpeeds)%nat
      then recentSpeeds else [currentSpeed] in
    calculateSmoothedETA now speedSamples (Some distanceKm).

(** The recency-weighted average as the specification words it:
    the i-th sample (1-indexed, oldest first) has weight i, and the
    average is the sum of speed times weight over the sum of weights. *)
Fixpoint sumR (l : list R) : R :=
  match l with
  | [] => 0
  | x :: l' => x + sumR l'
  end.

Definition spec_weightedAverage (samples : list R) : R :=
  sumR (imap (fun i speed => speed * INR (i + 1)) samples) /
  sumR (imap (fun i _ => INR (i + 1)) samples).

(** The estimate returned when the distance is unknown or not positive. *)
Definition noEstimate : ETAInfo :=
  {| eta := None; durationMinutes := 0; distanceKm := None;
     speedKmh := None; isRealtime := false; confidence := low;
     status := None |}.

(** [calculateAverageSpeed]: the mean speed of the locations recorded
    within the time window that carry a positive speed; 0 when there is
    none. *)
Record Sample := { s_speedKmh : option R; s_recordedAt : R }.

Definition recentMoving (cutoffTime : R) (loc : Sample) : Prop :=
  cutoffTime < s_recordedAt loc /\ JS.not (s_speedKmh loc) = false /\
  0 < default 0 (s_speedKmh loc).

#[global] Instance recentMoving_dec (cutoffTime : R) (loc : Sample) :
  Decision (recentMoving cutoffTime loc).
Proof. unfold recentMoving. apply _. Defined.


(** [formatETA]: the rounded number of minutes from [now] to the ETA, in
    words. *)
Definition formatETA (now : R) (eta : option R) : string :=
  match eta with
  | None => "N/A"
  | Some eta =>
      let diffMinutes := Int_part ((eta - now) / (1000 * 60) + / 2) in
      if bool_decide (diffMinutes < 1)%Z then "Arriving now"
      else if bool_decide (diffMinutes = 1)%Z then "1 minute"
      else if bool_decide (diffMinutes < 60)%Z then
        pretty diffMinutes +:+ " minutes"
      else
        let hours := (diffMinutes `div` 60)%Z in
        let minutes := (diffMinutes `mod` 60)%Z in
        if bool_decide (hours = 1)%Z && bool_decide (minutes = 0)%Z
        then "1 hour"
        else if bool_decide (hours = 1)%Z then
          "1 hour " +:+ pretty minutes +:+ " min"
        else if bool_decide (minutes = 0)%Z then
          pretty hours +:+ " hours"
        else pretty hours +:+ " hours " +:+ pretty minutes +:+ " min"
  end.

(** [getETAConfidence] reads three fields of its argument; [confidence] and
    [distanceKm] may be missing. *)
Record ETAData := {
  data_isRealtime : bool;
  data_confidence : option Confidence;
  data_distanceKm : option R
}.

Definition getETAConfidence (etaData : ETAData) : Confidence :=
  if negb (data_isRealtime etaData) then low
  else
    match data_confidence etaData with
    | Some c => c
    | None =>
        match data_distanceKm etaData with
        | Some d => if bool_decide (d < 1) then high
                    else if bool_decide (d < 5) then medium else low
        | None => low
        end
    end.

(** The three fields of an estimate, as [getETAConfidence] sees them. *)
Definition dataOf (info : ETAInfo) : ETAData :=
  {| data_isRealtime := isRealtime info;
     data_confidence := Some (confidence info);
     data_distanceKm := distanceKm info |}.

End ETACalculator.

(** ** Identifiers

    Primary keys are UUID strings.  [isUUID] is the check of
    express-validator's [isUUID()]: five groups of hexadecimal digits,
    8-4-4-4-12, joined by hyphens. *)

Abbreviation UUID := string.

Module Ids.
Definition isHex (c : ascii) : bool :=
  let n := nat_of_ascii c in
  ((48 <=? n) && (n <=? 57) || (65 <=? n) && (n <=? 70) ||
   (97 <=? n) && (n <=? 102))%nat.

Definition hyphen : ascii := ascii_of_nat 45.

Fixpoint matchGroups (groups : list nat) (s : list ascii) : bool :=
  match groups with
  | [] => false
  | [n] => bool_decide (length s = n) && forallb isHex s
  | n :: rest =>
      bool_decide (length (take n s) = n) && forallb isHex (take n s) &&
      match drop n s with
      | c :: s' => bool_decide (c = hyphen) && matchGroups rest s'
      | [] => false
      end
  end.

Definition isUUID (s : string) : bool :=
  matchGroups [8; 4; 4; 4; 12]%nat (String.list_ascii_of_string s).

(** [!id] for a string that may be [null]/[undefined]: the empty string is
    falsy too. *)
Definition not (x : option string) : bool :=
  match x with
  | None => true
  | Some s => bool_decide (s = EmptyString)
  end.
End Ids.

(** ** Sequelize results

    A query or a write either resolves or rejects; the rejections the
    engine meets are a model validation failure ([allowNull: false] on a
    [null] value), a unique-index violation and a failed query. *)

Inductive SequelizeError :=
  | SequelizeValidationError
  | SequelizeUniqueConstraintError
  | SequelizeForeignKeyConstraintError
  | SequelizeDatabaseError.

Inductive Result (A : Type) :=
  | Resolved (a : A)
  | Rejected (e : SequelizeError).
Arguments Resolved {A} a.
Arguments Rejected {A} e.

(** ** Bus stops and the stop locator (models/BusStop.js) *)

Module BusStop.
Local Open Scope R_scope.

Record t := {
  id : UUID;
  latitude : R;
  longitude : R;
  stopOrder : Z;
  routeId : UUID
}.

Definition toRadians (degrees : R) : R := degrees * (PI / 180).

(** [BusStop.prototype.calculateDistanceTo], in meters. *)
Definition calculateDistanceTo (this : t) (lat lng : R) : R :=
  let R_ := 6371 in
  let dLat := toRadians (lat - latitude this) in
  let dLng := toRadians (lng - longitude this) in
  let a := sin (dLat / 2) * sin (dLat / 2) +
           cos (toRadians (latitude this)) * cos (toRadians lat) *
           sin (dLng / 2) * sin (dLng / 2) in
  let c := 2 * JS.Math_atan2 (sqrt a) (sqrt (1 - a)) in
  R_ * c * 1000.

(** The [bus_stops] table.  [online = false] stands for a database that
    rejects the queries on it. *)
Record Table := { rows : list t; online : bool }.

Definition byStopOrder (s1 s2 : t) : Prop := (stopOrder s1 <= stopOrder s2)%Z.

#[global] Instance byStopOrder_dec (s1 s2 : t) : Decision (byStopOrder s1 s2).
Proof. unfold byStopOrder. apply _. Defined.

(** [findAll({ where: { routeId }, order: [['stopOrder', 'ASC']] })]. *)
Definition findAll (table : Table) (rid : UUID) : Result (list t) :=
  if online table then
    Resolved (merge_sort byStopOrder
                (filter (fun s => routeId s = rid) (rows table)))
  else Rejected SequelizeDatabaseError.

Definition findByPk (table : Table) (sid : UUID) : Result (option t) :=
  if online table then
    Resolved (head (filter (fun s => id s = sid) (rows table)))
  else Rejected SequelizeDatabaseError.

(** The body of the [forEach] in [findNextStop]: the accumulator is
    [(nextStop, minDistance)]; [minDistance = None] is [Infinity]. *)
Definition nextStopStep (currentLat currentLng : R)
    (acc : option t * option R) (stop : t) : option t * option R :=
  let distance := calculateDistanceTo stop currentLat currentLng in
  let belowMin := match acc.2 with
                  | None => true
                  | Some minDistance => bool_decide (distance < minDistance)
                  end in
  if belowMin && bool_decide (100 < distance)
  then (Some stop, Some distance)
  else acc.

Definition scanStops (currentLat currentLng : R) (stops : list t)
    : option t * option R :=
  foldl (nextStopStep currentLat currentLng) (None, None) stops.

Definition findNextStop (table : Table) (rid : UUID)
    (currentLat currentLng : R) : Result (option t) :=
  match findAll table rid with
  | Rejected e => Rejected e
  | Resolved stops =>
      if bool_decide (length stops = 0%nat) then Resolved None
      else Resolved (scanStops currentLat currentLng stops).1
  end.

Definition set_stopOrder (v : Z) (this : t) : t :=
  {| id := id this; latitude := latitude this; longitude := longitude this;
     stopOrder := v; routeId := routeId this |}.

(** The validator [notEmpty] refuses a string of white space only. *)
Definition isSpace (c : ascii) : bool :=
  let n := nat_of_ascii c in
  ((n =? 32) || (n =? 9) || (n =? 10) || (n =? 13))%nat.

Definition blank (name : string) : bool :=
  forallb isSpace (String.list_ascii_of_string name).

(** The validations of the model: [name] not empty and at most 255
    characters (the name is checked, the rows here do not keep it),
    latitude and longitude in range, [stopOrder] at least 1. *)
Definition valid (name : string) (this : t) : bool :=
  negb (blank name) &&
  bool_decide (1 <= String.length name <= 255)%nat &&
  bool_decide (-90 <= latitude this <= 90) &&
  bool_decide (-180 <= longitude this <= 180) &&
  bool_decide (1 <= stopOrder this)%Z.

(** The primary key and the unique index on [(route_id, stop_order)]. *)
Definition clashes (this s : t) : Prop :=
  id s = id this \/
  (routeId s = routeId this /\ stopOrder s = stopOrder this).

#[global] Instance clashes_dec (this s : t) : Decision (clashes this s).
Proof. unfold clashes. apply _. Defined.

(** [BusStop.create]: the model validates, then the insert meets the
    unique indexes. *)
Definition create (table : Table) (name : string) (this : t)
    : Result (Table * t) :=
  if negb (valid name this) then Rejected SequelizeValidationError
  else if negb (online table) then Rejected SequelizeDatabaseError
  else if bool_decide (Exists (clashes this) (rows table))
  then Rejected SequelizeUniqueConstraintError
  else Resolved ({| rows := rows table ++ [this]; online := online table |},
                 this).

(** [instance.destroy()]. *)
Definition destroy (table : Table) (this : t) : Result Table :=
  if online table then
    Resolved {| rows := filter (fun s => id s <> id this) (rows table);
                online := online table |}
  else Rejected SequelizeDatabaseError.

(** [instance.save()] after [stopOrder] was assigned: the changed field is
    validated, then the update meets the unique index. *)
Definition save (table : Table) (this : t) : Result Table :=
  if negb (bool_decide (1 <= stopOrder this)%Z)
  then Rejected SequelizeValidationError
  else if negb (online table) then Rejected SequelizeDatabaseError
  else if bool_decide
            (Exists (fun s => id s <> id this /\ routeId s = routeId this /\
                              stopOrder s = stopOrder this) (rows table))
  then Rejected SequelizeUniqueConstraintError
  else Resolved {| rows := (fun s => if bool_decide (id s = id this)
                                     then this else s) <$> rows table;
                   online := online table |}.

(** The loop of [removeBusStop] seen from one row: a stop of route [rid]
    whose order is after [removedOrder], and before [bound] while the loop
    is under way, has moved one place up. *)
Definition movedUp (rid : UUID) (removedOrder : Z) (bound : option Z)
    (s : t) : t :=
  if bool_decide (routeId s = rid) &&
     bool_decide (removedOrder < stopOrder s)%Z &&
     match bound with
     | Some j => bool_decide (stopOrder s < j)%Z
     | None => true
     end
  then set_stopOrder (stopOrder s - 1) s else s.

(** The stop orders in use on a route. *)
Definition ordersOf (rid : UUID) (stops : list t) : list Z :=
  stopOrder <$> filter (fun s => routeId s = rid) stops.

(** The stops are told apart by their ids, and on every route they are
    numbered 1, 2, ..., n: no order is used twice and none is beyond the
    number of stops of the route. *)
Definition dense (stops : list t) : Prop :=
  NoDup (id <$> stops) /\
  forall rid,
    NoDup (ordersOf rid stops) /\
    Forall (fun k => 1 <= k <= Z.of_nat (length (ordersOf rid stops)))%Z
      (ordersOf rid stops).
End BusStop.

(** ** Live position store (src/backend/models/LiveBusLocation.js) *)

Module LiveBusLocation.
Local Open Scope R_scope.

Record t := {
  busId : UUID;
  driverId : UUID;
  latitude : R;
  longitude : R;
  speedKmh : option R;
  heading : option R;
  accuracyMeters : option R;
  isLocationSharing : bool;
  currentRouteId : option UUID;
  nextStopId : option UUID;
  distanceToNextStop : option R;
  etaToNextStop : option R;
  tripStartedAt : option R;
  lastUpdated : R
}.

(** The [live_bus_locations] table: the unique index on [bus_id] makes it
    a map from bus to row. *)
Abbreviation Table := (gmap UUID t).

Definition toRadians (degrees : R) : R := degrees * (PI / 180).

(** [LiveBusLocation.prototype.calculateDistanceTo], in meters. *)
Definition calculateDistanceTo (this : t) (lat lng : R) : R :=
  let R_ := 6371 in
  let dLat := toRadians (lat - latitude this) in
  let dLng := toRadians (lng - longitude this) in
  let a := sin (dLat / 2) * sin (dLat / 2) +
           cos (toRadians (latitude this)) * cos (toRadians lat) *
           sin (dLng / 2) * sin (dLng / 2) in
  let c := 2 * JS.Math_atan2 (sqrt a) (sqrt (1 - a)) in
  R_ * c * 1000.

Definition set_etaToNextStop (v : option R) (this : t) : t :=
  {| busId := busId this; driverId := driverId this;
     latitude := latitude this; longitude := longitude this;
     speedKmh := speedKmh this; heading := heading this;
     accuracyMeters := accuracyMeters this;
     isLocationSharing := isLocationSharing this;
     currentRouteId := currentRouteId this;
     nextStopId := nextStopId this;
     distanceToNextStop := distanceToNextStop this;
     etaToNextStop := v;
     tripStartedAt := tripStartedAt this;
     lastUpdated := lastUpdated this |}.

Definition set_distanceToNextStop (v : option R) (this : t) : t :=
  {| busId := busId this; driverId := driverId this;
     latitude := latitude this; longitude := longitude this;
     speedKmh := speedKmh this; heading := heading this;
     accuracyMeters := accuracyMeters this;
     isLocationSharing := isLocationSharing this;
     currentRouteId := currentRouteId this;
     nextStopId := nextStopId this;
     distanceToNextStop := v;
     etaToNextStop := etaToNextStop this;
     tripStartedAt := tripStartedAt this;
     lastUpdated := lastUpdated this |}.

Definition set_nextStopId (v : option UUID) (this : t) : t :=
  {| busId := busId this; driverId := driverId this;
     latitude := latitude this; longitude := longitude this;
     speedKmh := speedKmh this; heading := heading this;
     accuracyMeters := accuracyMeters this;
     isLocationSharing := isLocationSharing this;
     currentRouteId := currentRouteId this;
     nextStopId := v;
     distanceToNextStop := distanceToNextStop this;
     etaToNextStop := etaToNextStop this;
     tripStartedAt := tripStartedAt this;
     lastUpdated := lastUpdated this |}.

Definition set_isLocationSharing (v : bool) (this : t) : t :=
  {| busId := busId this; driverId := driverId this;
     latitude := latitude this; longitude := longitude this;
     speedKmh := speedKmh this; heading := heading this;
     accuracyMeters := accuracyMeters this;
     isLocationSharing := v;
     currentRouteId := currentRouteId this;
     nextStopId := nextStopId this;
     distanceToNextStop := distanceToNextStop this;
     etaToNextStop := etaToNextStop this;
     tripStartedAt := tripStartedAt this;
     lastUpdated := lastUpdated this |}.

Definition set_lastUpdated (v : R) (this : t) : t :=
  {| busId := busId this; driverId := driverId this;
     latitude := latitude this; longitude := longitude this;
     speedKmh := speedKmh this; heading := heading this;
     accuracyMeters := accuracyMeters this;
     isLocationSharing := isLocationSharing this;
     currentRouteId := currentRouteId this;
     nextStopId := nextStopId this;
     distanceToNextStop := distanceToNextStop this;
     etaToNextStop := etaToNextStop this;
     tripStartedAt := tripStartedAt this;
     lastUpdated := v |}.

(** [updateETA]: the guard, then the lookup of the next stop inside
    [try]; a rejected lookup lands in [catch]. *)
Definition updateETA (now : R) (stops : BusStop.Table) (this : t) : t :=
  if Ids.not (nextStopId this) || JS.not (speedKmh this)
     || JS.le (speedKmh this) 0
  then set_etaToNextStop None this
  else
    match BusStop.findByPk stops (default EmptyString (nextStopId this)) with
    | Rejected _ => set_etaToNextStop None this
    | Resolved None => set_etaToNextStop None this
    | Resolved (Some nextStop) =>
        let d := calculateDistanceTo this (BusStop.latitude nextStop)
                   (BusStop.longitude nextStop) in
        let this := set_distanceToNextStop (Some d) this in
        let distanceKm := d / 1000 in
        let speed := default 0 (speedKmh this) in
        if bool_decide (0 < speed) then
          let etaMinutes := (distanceKm / speed) * 60 in
          set_etaToNextStop (Some (now + etaMinutes * 60 * 1000)) this
        else set_etaToNextStop None this
    end.

(** [updateNextStop]: nothing without a route; a rejected lookup is
    caught and logged; only a found stop reaches [updateETA]. *)
Definition updateNextStop (now : R) (stops : BusStop.Table) (this : t) : t :=
  if Ids.not (currentRouteId this) then this
  else
    match BusStop.findNextStop stops
            (default EmptyString (currentRouteId this))
            (latitude this) (longitude this) with
    | Rejected _ => this
    | Resolved None => this
    | Resolved (Some nextStop) =>
        updateETA now stops (set_nextStopId (Some (BusStop.id nextStop)) this)
    end.

(** [findByBusId]: [findOne({ where: { busId, isLocationSharing: true } })]. *)
Definition findByBusId (table : Table) (bus : UUID) : option t :=
  match table !! bus with
  | Some row => if isLocationSharing row then Some row else None
  | None => None
  end.

(** [create]: the insert is refused when the bus already has a row. *)
Definition create (table : Table) (row : t) : Result (Table * t) :=
  match table !! busId row with
  | Some _ => Rejected SequelizeUniqueConstraintError
  | None => Resolved (<[busId row := row]> table, row)
  end.

(** [instance.save()]. *)
Definition save (now : R) (table : Table) (this : t) : Table * t :=
  let this := set_lastUpdated now this in
  (<[busId this := this]> table, this).

(** The values [updateLocation] is given by the controller. *)
Record LocationData := {
  d_latitude : R;
  d_longitude : R;
  d_speedKmh : option R;
  d_heading : option R;
  d_accuracyMeters : option R;
  d_driverId : UUID;
  d_currentRouteId : option UUID;
  d_isLocationSharing : bool
}.

(** The row an upsert writes: the given columns, the others as the old
    row has them, or at their defaults when the bus has no row. *)
Definition written (now : R) (bus : UUID) (data : LocationData)
    (old : option t) : t :=
  {| busId := bus; driverId := d_driverId data;
     latitude := d_latitude data; longitude := d_longitude data;
     speedKmh := d_speedKmh data; heading := d_heading data;
     accuracyMeters := d_accuracyMeters data;
     isLocationSharing := d_isLocationSharing data;
     currentRouteId := d_currentRouteId data;
     nextStopId := old ≫= nextStopId;
     distanceToNextStop := old ≫= distanceToNextStop;
     etaToNextStop := old ≫= etaToNextStop;
     tripStartedAt := old ≫= tripStartedAt;
     lastUpdated := now |}.

(** [upsert({ busId, ...locationData }, { returning: true })]; the second
    component is [created], true when the bus had no row. *)
Definition upsert (now : R) (table : Table) (bus : UUID)
    (data : LocationData) : Table * t * bool :=
  let row := written now bus data (table !! bus) in
  (<[bus := row]> table, row, bool_decide (table !! bus = None)).

(** [LiveBusLocation.updateLocation]. *)
Definition updateLocation (now : R) (stops : BusStop.Table) (table : Table)
    (bus : UUID) (locationData : LocationData) : Table * t :=
  let '(table, location, created) := upsert now table bus locationData in
  if negb created then
    let location := updateNextStop now stops location in
    save now table location
  else (table, location).
End LiveBusLocation.

(** ** Buses, trips and the position log *)

Module Bus.
Record t := {
  isActive : bool;
  driverId : option UUID;
  currentRouteId : option UUID
}.

(** The [buses] table by primary key. *)
Abbreviation Table := (gmap UUID t).

Definition set_currentRouteId (v : option UUID) (this : t) : t :=
  {| isActive := isActive this; driverId := driverId this;
     currentRouteId := v |}.
End Bus.

Module TripLog.
Local Open Scope R_scope.

Inductive Status := active | completed | cancelled.

#[global] Instance Status_eq_dec : EqDecision Status.
Proof. solve_decision. Defined.

(** A row of [trip_logs]; its primary key is its position in the table
    (the code draws a fresh UUID). *)
Record t := {
  busId : UUID;
  driverId : UUID;
  routeId : UUID;
  startedAt : R;
  endedAt : option R;
  totalDistanceKm : option R;
  totalDurationMinutes : option R;
  averageSpeedKmh : option R;
  status : Status
}.

Abbreviation Table := (list t).

(** [TripLog.create({ busId, driverId, routeId, startedAt, status })]:
    [routeId] is declared [allowNull: false], so a missing route fails the
    model validation. *)
Definition create (table : Table) (bus driver : UUID)
    (route : option UUID) (now : R) : Result (Table * nat) :=
  match route with
  | None => Rejected SequelizeValidationError
  | Some r =>
      Resolved (table ++ [{| busId := bus; driverId := driver; routeId := r;
                             startedAt := now; endedAt := None;
                             totalDistanceKm := None;
                             totalDurationMinutes := None;
                             averageSpeedKmh := None;
                             status := active |}],
                length table)
  end.

Definition isActiveFor (bus driver : UUID) (trip : t) : bool :=
  bool_decide (busId trip = bus) && bool_decide (driverId trip = driver)
  && bool_decide (status trip = active).

(** [findOne({ where: { busId, driverId, status: 'active' } })]. *)
Fixpoint findOneFrom (i : nat) (table : Table) (bus driver : UUID)
    : option (nat * t) :=
  match table with
  | [] => None
  | trip :: rest =>
      if isActiveFor bus driver trip then Some (i, trip)
      else findOneFrom (S i) rest bus driver
  end.

Definition findOne (table : Table) (bus driver : UUID) : option (nat * t) :=
  findOneFrom 0 table bus driver.

(** [endTrip()] with no [endData], on a trip found active; the branch that
    derives the average speed needs a total distance, which nothing
    sets. *)
Definition endTrip (now : R) (this : t) : t :=
  {| busId := busId this; driverId := driverId this;
     routeId := routeId this; startedAt := startedAt this;
     endedAt := Some now;
     totalDistanceKm := totalDistanceKm this;
     totalDurationMinutes :=
       Some (JS.Math_round ((now - startedAt this) / (1000 * 60)));
     averageSpeedKmh := averageSpeedKmh this;
     status := completed |}.





End TripLog.

Module LocationHistory.
Record t := {
  tripLogId : nat;
  busId : UUID;
  latitude : R;
  longitude : R;
  speedKmh : option R;
  heading : option R;
  accuracyMeters : option R;
  recordedAt : R
}.

Abbreviation Table := (list t).

(** [LocationHistory.create]: [tripLogId] is declared [allowNull: false]
    (and [trip_log_id] is [NOT NULL] in the schema), so a [null] trip
    fails the model validation and nothing is inserted. *)
Definition create (table : Table) (trip : option nat) (bus : UUID)
    (lat lng : R) (speed hdg acc : option R) (now : R) : Result Table :=
  match trip with
  | None => Rejected SequelizeValidationError
  | Some tid =>
      Resolved (table ++ [{| tripLogId := tid; busId := bus;
                             latitude := lat; longitude := lng;
                             speedKmh := speed; heading := hdg;
                             accuracyMeters := acc; recordedAt := now |}])
  end.

Local Open Scope R_scope.

Definition byRecordedAt (l1 l2 : t) : Prop := recordedAt l1 <= recordedAt l2.

#[global] Instance byRecordedAt_dec (l1 l2 : t) : Decision (byRecordedAt l1 l2).
Proof. unfold byRecordedAt. apply _. Defined.




End LocationHistory.

(** The database the controller works on. *)
(** ** Routes (models/Route.js) *)

Module Route.
Local Open Scope R_scope.
Import ETACalculator.

Definition toRadians (degrees : R) : R := degrees * (PI / 180).

(** [Route.prototype.calculateHaversineDistance], in kilometers. *)
Definition calculateHaversineDistance (coord1 coord2 : Coord) : R :=
  let R_ := 6371 in
  let dLat := toRadians (lat coord2 - lat coord1) in
  let dLon := toRadians (lng coord2 - lng coord1) in
  let a := sin (dLat / 2) * sin (dLat / 2) +
           cos (toRadians (lat coord1)) * cos (toRadians (lat coord2)) *
           sin (dLon / 2) * sin (dLon / 2) in
  let c := 2 * JS.Math_atan2 (sqrt a) (sqrt (1 - a)) in
  R_ * c.

(** [Route.prototype.calculateDistance]: the length of the polyline in
    the [coordinates] column, which may be [null].  The loop adds the
    segments from each point to the next. *)
Definition calculateDistance (coordinates : option (list Coord)) : R :=
  match coordinates with
  | None => 0
  | Some coordinates =>
      if bool_decide (length coordinates < 2)%nat then 0
      else foldl (fun totalDistance segment =>
                    totalDistance +
                    calculateHaversineDistance segment.1 segment.2)
             0 (zip coordinates (tail coordinates))
  end.


(** The body of the [forEach] in [getNextStop]: the accumulator is
    [(nearestStop, minDistance)]; [minDistance = None] is [Infinity]. *)
Definition nearestStep (currentLat currentLng : R)
    (acc : option BusStop.t * option R) (stop : BusStop.t)
    : option BusStop.t * option R :=
  let distance :=
    calculateHaversineDistance
      {| lat := currentLat; lng := currentLng |}
      {| lat := BusStop.latitude stop; lng := BusStop.longitude stop |} in
  let belowMin := match acc.2 with
                  | None => true
                  | Some minDistance => bool_decide (distance < minDistance)
                  end in
  if belowMin then (Some stop, Some distance) else acc.

(** [Route.prototype.getNextStop] of the route with id [this]. *)
Definition getNextStop (table : BusStop.Table) (this : UUID)
    (currentLat currentLng : R) : Result (option BusStop.t) :=
  match BusStop.findAll table this with
  | Rejected e => Rejected e
  | Resolved stops =>
      if bool_decide (length stops = 0%nat) then Resolved None
      else Resolved
             (foldl (nearestStep currentLat currentLng) (None, None) stops).1
  end.
End Route.

Record Db := {
  buses : Bus.Table;
  routes : gset UUID;
  busStops : BusStop.Table;
  liveLocations : LiveBusLocation.Table;
  tripLogs : TripLog.Table;
  locationHistory : LocationHistory.Table
}.

Definition set_buses (v : Bus.Table) (db : Db) : Db :=
  {| buses := v; routes := routes db; busStops := busStops db;
     liveLocations := liveLocations db; tripLogs := tripLogs db;
     locationHistory := locationHistory db |}.

Definition set_liveLocations (v : LiveBusLocation.Table) (db : Db) : Db :=
  {| buses := buses db; routes := routes db; busStops := busStops db;
     liveLocations := v; tripLogs := tripLogs db;
     locationHistory := locationHistory db |}.

Definition set_tripLogs (v : TripLog.Table) (db : Db) : Db :=
  {| buses := buses db; routes := routes db; busStops := busStops db;
     liveLocations := liveLocations db; tripLogs := v;
     locationHistory := locationHistory db |}.

Definition set_locationHistory (v : LocationHistory.Table) (db : Db) : Db :=
  {| buses := buses db; routes := routes db; busStops := busStops db;
     liveLocations := liveLocations db; tripLogs := tripLogs db;
     locationHistory := v |}.

Definition set_busStops (v : BusStop.Table) (db : Db) : Db :=
  {| buses := buses db; routes := routes db; busStops := v;
     liveLocations := liveLocations db; tripLogs := tripLogs db;
     locationHistory := locationHistory db |}.

(** ** Stops of a bus (controllers/busController.js) *)

Module BusController.
Local Open Scope R_scope.

Record AddRequest := {
  add_busId : string;
  add_name : string;
  add_latitude : R;
  add_longitude : R;
  add_routeId : option string
}.

Inductive Response :=
  | Created (busStop : BusStop.t)
  | Removed
  | Failure (code : nat) (error : string).

(** [addBusStop]; [newId] is the UUID the model draws for the row.  The
    route runs [busStopValidation] before the handler, but the handler
    never reads its result. *)
Definition addBusStop (newId : UUID) (req : AddRequest) (db : Db)
    : Db * Response :=
  match buses db !! add_busId req with
  | None => (db, Failure 404 "Bus not found")
  | Some bus =>
      let targetRouteId :=
        if Ids.not (Bus.currentRouteId bus) then add_routeId req
        else Bus.currentRouteId bus in
      if Ids.not targetRouteId then (db, Failure 400 "Route required")
      else
        let targetRouteId := default EmptyString targetRouteId in
        if bool_decide (targetRouteId ∉ routes db)
        then (db, Failure 404 "Route not found")
        else
          match BusStop.findAll (busStops db) targetRouteId with
          | Rejected _ => (db, Failure 500 "Internal server error")
          | Resolved existingStops =>
              let nextStopOrder := (Z.of_nat (length existingStops) + 1)%Z in
              match BusStop.create (busStops db) (add_name req)
                      {| BusStop.id := newId;
                         BusStop.latitude := add_latitude req;
                         BusStop.longitude := add_longitude req;
                         BusStop.stopOrder := nextStopOrder;
                         BusStop.routeId := targetRouteId |} with
              | Resolved (table, busStop) =>
                  (set_busStops table db, Created busStop)
              | Rejected SequelizeUniqueConstraintError =>
                  (db, Failure 400 "Duplicate stop order")
              | Rejected _ => (db, Failure 500 "Internal server error")
              end
          end
  end.

(** The loop of [removeBusStop] over the stops that remain: every stop
    after the removed one moves one place up, saved one by one.  A save
    that rejects ends the loop; what was saved before stays. *)
Fixpoint reorder (removedOrder : Z) (remainingStops : list BusStop.t)
    (table : BusStop.Table) : BusStop.Table * option SequelizeError :=
  match remainingStops with
  | [] => (table, None)
  | stop :: rest =>
      if bool_decide (removedOrder < BusStop.stopOrder stop)%Z then
        match BusStop.save table
                (BusStop.set_stopOrder (BusStop.stopOrder stop - 1) stop) with
        | Resolved table => reorder removedOrder rest table
        | Rejected e => (table, Some e)
        end
      else reorder removedOrder rest table
  end.

(** The delete in the database: [live_bus_locations.next_stop_id]
    references the stop without an [ON DELETE] rule, so a stop that is
    some bus's next stop cannot be deleted. *)
Definition destroy (db : Db) (busStop : BusStop.t) : Result BusStop.Table :=
  if bool_decide
       (map_Exists (fun _ row =>
                      LiveBusLocation.nextStopId row = Some (BusStop.id busStop))
          (liveLocations db))
  then Rejected SequelizeForeignKeyConstraintError
  else BusStop.destroy (busStops db) busStop.

(** [removeBusStop]. *)
Definition removeBusStop (busId stopId : string) (db : Db) : Db * Response :=
  match buses db !! busId with
  | None => (db, Failure 404 "Bus not found")
  | Some bus =>
      match BusStop.findByPk (busStops db) stopId with
      | Rejected _ => (db, Failure 500 "Internal server error")
      | Resolved None => (db, Failure 404 "Bus stop not found")
      | Resolved (Some busStop) =>
          if negb (Ids.not (Bus.currentRouteId bus)) &&
             negb (bool_decide (Some (BusStop.routeId busStop)
                                = Bus.currentRouteId bus))
          then (db, Failure 400 "Invalid operation")
          else
            match destroy db busStop with
            | Rejected _ => (db, Failure 500 "Internal server error")
            | Resolved table =>
                match BusStop.findAll table (BusStop.routeId busStop) with
                | Rejected _ =>
                    (set_busStops table db,
                     Failure 500 "Internal server error")
                | Resolved remainingStops =>
                    match reorder (BusStop.stopOrder busStop)
                            remainingStops table with
                    | (table, None) => (set_busStops table db, Removed)
                    | (table, Some _) =>
                        (set_busStops table db,
                         Failure 500 "Internal server error")
                    end
                end
            end
      end
  end.

(** What an administrator does to the stops of the buses. *)
Inductive Op :=
  | add (newId : UUID) (req : AddRequest)
  | remove (busId stopId : string).

Definition step (db : Db) (op : Op) : Db :=
  match op with
  | add newId req => (addBusStop newId req db).1
  | remove busId stopId => (removeBusStop busId stopId db).1
  end.

Definition run (db : Db) (ops : list Op) : Db := foldl step db ops.
End BusController.

(** ** Fan-out hub (services/socketService.js) *)

Module SocketService.
Abbreviation SocketId := string.

Record Socket := { id : SocketId; userId : UUID }.

(** What travels to an observer. *)
Inductive Event :=
  | locationUpdate (busId : UUID) (latitude longitude : R)
      (speedKmh heading : option R) (lastUpdated : R)
      (etaToNextStop : option R)
  | locationSharingStarted (busId driverId : UUID) (tripId : nat)
  | locationSharingStopped (busId driverId : UUID)
  | busStatus (busId : UUID) (isActive : bool)
      (lastLocation : option (R * R * option R * R))
  | subscribedToBus (busId : UUID)
  | unsubscribedFromBus (busId : UUID).

Definition Delivery : Type := SocketId * Event.

(** The service object: [io] is [null] until [init]; once set it stands
    for the sockets the server holds open.  [busSubscribers] maps a bus to
    the set of interested socket ids. *)
Record t := {
  io : option (gset SocketId);
  connectedUsers : gmap SocketId UUID;
  busSubscribers : gmap UUID (gset SocketId)
}.

Definition set_busSubscribers (v : gmap UUID (gset SocketId)) (this : t) : t :=
  {| io := io this; connectedUsers := connectedUsers this;
     busSubscribers := v |}.

(** [sendBusStatus]: a read-through of the live position store.  It is
    asynchronous and not awaited, so its message follows the confirmation
    of the subscription. *)
Definition sendBusStatus (db : Db) (socket : Socket) (bus : UUID)
    : list Delivery :=
  match LiveBusLocation.findByBusId (liveLocations db) bus with
  | Some location =>
      [(id socket,
        busStatus bus (LiveBusLocation.isLocationSharing location)
          (Some (LiveBusLocation.latitude location,
                 LiveBusLocation.longitude location,
                 LiveBusLocation.speedKmh location,
                 LiveBusLocation.lastUpdated location)))]
  | None => [(id socket, busStatus bus false None)]
  end.

Definition subscribeToBus (db : Db) (this : t) (socket : Socket)
    (bus : string) : t * list Delivery :=
  if bool_decide (bus = EmptyString) then (this, [])
  else
    let subs := default ∅ (busSubscribers this !! bus) in
    (set_busSubscribers (<[bus := subs ∪ {[id socket]}]> (busSubscribers this))
       this,
     (id socket, subscribedToBus bus) :: sendBusStatus db socket bus).

Definition unsubscribeFromBus (this : t) (socket : Socket) (bus : string)
    : t * list Delivery :=
  if bool_decide (bus = EmptyString) then (this, [])
  else
    match busSubscribers this !! bus with
    | None => (this, [])
    | Some subs =>
        let subs := subs ∖ {[id socket]} in
        let m := if bool_decide (size subs = 0)
                 then delete bus (busSubscribers this)
                 else <[bus := subs]> (busSubscribers this) in
        (set_busSubscribers m this, [(id socket, unsubscribedFromBus bus)])
    end.

(** One turn of the loop of [handleDisconnect] over the map's entries. *)
Definition disconnectStep (sid : SocketId) (m : gmap UUID (gset SocketId))
    (entry : UUID * gset SocketId) : gmap UUID (gset SocketId) :=
  let '(bus, subscribers) := entry in
  if bool_decide (sid ∈ subscribers) then
    let subscribers := subscribers ∖ {[sid]} in
    if bool_decide (size subscribers = 0) then delete bus m
    else <[bus := subscribers]> m
  else m.

Definition handleDisconnect (this : t) (socket : Socket) : t :=
  {| io := io this;
     connectedUsers := delete (id socket) (connectedUsers this);
     busSubscribers :=
       foldl (disconnectStep (id socket)) (busSubscribers this)
         (map_to_list (busSubscribers this)) |}.

(** [emitToAll]: [io.emit] reaches every open socket. *)
Definition emitToAll (this : t) (event : Event) : list Delivery :=
  match io this with
  | None => []
  | Some sockets => (fun sid => (sid, event)) <$> elements sockets
  end.

(** [emitToBusSubscribers]: only the bus's interest set, and of it only
    the sockets still open. *)
Definition emitToBusSubscribers (this : t) (bus : UUID) (event : Event)
    : list Delivery :=
  match io this, busSubscribers this !! bus with
  | Some sockets, Some subscribers =>
      (fun sid => (sid, event)) <$>
        filter (fun sid => sid ∈ sockets) (elements subscribers)
  | _, _ => []
  end.

(** The messages a socket sends after it connected. *)
Inductive Message :=
  | subscribe (bus : string)
  | unsubscribe (bus : string).

Definition handle (db : Db) (socket : Socket) (this : t) (m : Message) : t :=
  match m with
  | subscribe bus => (subscribeToBus db this socket bus).1
  | unsubscribe bus => (unsubscribeFromBus this socket bus).1
  end.

(** The hub after a run of subscribe/unsubscribe messages, each sent by
    some socket. *)
Definition afterMessages (db : Db) (this : t)
    (messages : list (Socket * Message)) : t :=
  foldl (fun h m => handle db m.1 h m.2) this messages.

(** The service as its constructor leaves it. *)
Definition new : t :=
  {| io := None; connectedUsers := ∅; busSubscribers := ∅ |}.

(** The authentication middleware, once the token is verified, records the
    socket's user. *)
Definition connect (this : t) (socket : Socket) : t :=
  {| io := io this;
     connectedUsers := <[id socket := userId socket]> (connectedUsers this);
     busSubscribers := busSubscribers this |}.

(** [getStats]. *)
Record Stats := {
  stat_connectedUsers : nat;
  stat_activeSubscriptions : nat;
  stat_totalSubscriptions : nat
}.

Definition getStats (this : t) : Stats :=
  {| stat_connectedUsers := size (connectedUsers this);
     stat_activeSubscriptions := size (busSubscribers this);
     stat_totalSubscriptions :=
       foldl (fun total subscribers => total + size subscribers)%nat 0%nat
         (map_to_list (busSubscribers this)).*2 |}.

(** What happens to the service over its life: a socket is authenticated,
    sends a message, or disconnects. *)
Inductive Step :=
  | connected (socket : Socket)
  | message (socket : Socket) (m : Message)
  | disconnected (socket : Socket).

Definition step (db : Db) (this : t) (e : Step) : t :=
  match e with
  | connected socket => connect this socket
  | message socket m => handle db socket this m
  | disconnected socket => handleDisconnect this socket
  end.

Definition run (db : Db) (this : t) (steps : list Step) : t :=
  foldl (step db) this steps.

(** What the loop of [handleDisconnect] does to one interest set. *)
Definition pruned (sid : SocketId) (subs : gset SocketId)
    : option (gset SocketId) :=
  if bool_decide (sid ∈ subs) then
    if bool_decide (size (subs ∖ {[sid]}) = 0) then None
    else Some (subs ∖ {[sid]})
  else Some subs.

(** No bus is mapped to an empty interest set. *)
Definition tidy (this : t) : Prop :=
  map_Forall (fun _ subs => subs <> (∅ : gset SocketId))
    (busSubscribers this).

(** Socket [sid] is in the interest set of [bus]. *)
Definition interested (this : t) (bus : UUID) (sid : SocketId) : Prop :=
  exists subscribers,
    busSubscribers this !! bus = Some subscribers /\ sid ∈ subscribers.
End SocketService.

(** ** Location controller (controllers/locationController.js) *)

Module LocationController.
Local Open Scope R_scope.
Import SocketService.

Inductive Body :=
  | started (tripId : nat) (busId : UUID) (isLocationSharing : bool)
  | stopped
  | updated (latitude longitude : R) (speedKmh : option R) (lastUpdated : R).

(** [res.json(body)] or [res.status(code).json({ error })]. *)
Inductive Response :=
  | Json (body : Body)
  | Failure (code : nat) (error : string).

(** A handler runs over the database and the messages pushed so far; it
    ends with a value, with an early [return res...], or with a thrown
    error that the handler's [catch] turns into a response.  What was
    written before a throw stays written: no handler opens a
    transaction. *)
Record State := { db : Db; sent : list Delivery }.

Inductive Outcome (A : Type) :=
  | Value (a : A)
  | Return (res : Response)
  | Throw (e : SequelizeError).
Arguments Value {A} a.
Arguments Return {A} res.
Arguments Throw {A} e.

Definition M (A : Type) : Type := State -> State * Outcome A.

#[global] Instance M_ret : MRet M := fun A a s => (s, Value a).
#[global] Instance M_bind : MBind M := fun A B f m s =>
  match m s with
  | (s', Value a) => f a s'
  | (s', Return res) => (s', Return res)
  | (s', Throw e) => (s', Throw e)
  end.

Definition reply {A} (res : Response) : M A := fun s => (s, Return res).
Definition throw {A} (e : SequelizeError) : M A := fun s => (s, Throw e).
Definition getDb : M Db := fun s => (s, Value (db s)).
Definition putDb (d : Db) : M unit :=
  fun s => ({| db := d; sent := sent s |}, Value tt).
Definition push (ds : list Delivery) : M unit :=
  fun s => ({| db := db s; sent := sent s ++ ds |}, Value tt).
Definition await {A} (r : Result A) : M A :=
  match r with
  | Resolved a => mret a
  | Rejected e => throw e
  end.
Definition replyIf (c : bool) (res : Response) : M unit :=
  if c then reply res else mret tt.
Definition when (c : bool) (m : M unit) : M unit :=
  if c then m else mret tt.

(** [try { ... } catch (error) { ... }] around a whole handler. *)
Definition handler (body : M Response) (onError : SequelizeError -> Response)
    (s : State) : State * Response :=
  match body s with
  | (s', Value res) => (s', res)
  | (s', Return res) => (s', res)
  | (s', Throw e) => (s', onError e)
  end.

Record StartRequest := {
  start_user : UUID;
  start_busId : string;
  start_routeId : option string
}.

Record StopRequest := {
  stop_user : UUID;
  stop_busId : string
}.

Record UpdateRequest := {
  update_user : UUID;
  update_busId : string;
  update_latitude : R;
  update_longitude : R;
  update_speedKmh : option R;
  update_heading : option R;
  update_accuracyMeters : option R
}.

(** [startLocationSharingValidation]. *)
Definition startValid (req : StartRequest) : bool :=
  Ids.isUUID (start_busId req) &&
  match start_routeId req with
  | None => true
  | Some r => Ids.isUUID r
  end.

Definition optional (check : R -> bool) (x : option R) : bool :=
  match x with
  | None => true
  | Some v => check v
  end.

(** [locationUpdateValidation]. *)
Definition updateValid (req : UpdateRequest) : bool :=
  bool_decide (-90 <= update_latitude req) &&
  bool_decide (update_latitude req <= 90) &&
  bool_decide (-180 <= update_longitude req) &&
  bool_decide (update_longitude req <= 180) &&
  optional (fun v => bool_decide (0 <= v)) (update_speedKmh req) &&
  optional (fun v => bool_decide (0 <= v) && bool_decide (v <= 360))
    (update_heading req) &&
  optional (fun v => bool_decide (0 <= v)) (update_accuracyMeters req).

Definition startLocationSharing_body (hub : SocketService.t) (now : R)
    (req : StartRequest) : M Response :=
  let busId := start_busId req in
  let routeId := start_routeId req in
  replyIf (negb (startValid req)) (Failure 400 "Validation failed");;
  replyIf (bool_decide (busId = EmptyString)) (Failure 400 "Invalid bus ID");;
  d ← getDb;
  match buses d !! busId with
  | None => reply (Failure 404 "Bus not found")
  | Some bus =>
      replyIf (negb (bool_decide (Bus.driverId bus = Some (start_user req))))
        (Failure 403 "Access denied");;
      replyIf (negb (Bus.isActive bus)) (Failure 400 "Bus inactive");;
      replyIf
        match LiveBusLocation.findByBusId (liveLocations d) busId with
        | Some existingLocation =>
            LiveBusLocation.isLocationSharing existingLocation
        | None => false
        end
        (Failure 400 "Already sharing");;
      let finalRouteId :=
        if Ids.not routeId then Bus.currentRouteId bus else routeId in
      replyIf
        (negb (Ids.not finalRouteId) &&
         negb (bool_decide (default EmptyString finalRouteId ∈ routes d)))
        (Failure 404 "Route not found");;
      '(trips, tripId) ←
        await (TripLog.create (tripLogs d) busId (start_user req)
                 finalRouteId now);
      putDb (set_tripLogs trips d);;
      d ← getDb;
      '(live, location) ←
        await (LiveBusLocation.create (liveLocations d)
          {| LiveBusLocation.busId := busId;
             LiveBusLocation.driverId := start_user req;
             LiveBusLocation.latitude := 0;
             LiveBusLocation.longitude := 0;
             LiveBusLocation.speedKmh := None;
             LiveBusLocation.heading := None;
             LiveBusLocation.accuracyMeters := None;
             LiveBusLocation.isLocationSharing := true;
             LiveBusLocation.currentRouteId := finalRouteId;
             LiveBusLocation.nextStopId := None;
             LiveBusLocation.distanceToNextStop := None;
             LiveBusLocation.etaToNextStop := None;
             LiveBusLocation.tripStartedAt := Some now;
             LiveBusLocation.lastUpdated := now |});
      putDb (set_liveLocations live d);;
      d ← getDb;
      when (negb (Ids.not routeId) &&
            negb (bool_decide (routeId = Bus.currentRouteId bus)))
        (putDb (set_buses
                  (<[busId := Bus.set_currentRouteId routeId bus]> (buses d))
                  d));;
      push (emitToAll hub
              (locationSharingStarted busId (start_user req) tripId));;
      mret (Json (started tripId (LiveBusLocation.busId location)
                    (LiveBusLocation.isLocationSharing location)))
  end.

Definition startLocationSharing_catch (e : SequelizeError) : Response :=
  match e with
  | SequelizeForeignKeyConstraintError => Failure 400 "Invalid reference"
  | SequelizeUniqueConstraintError => Failure 400 "Duplicate entry"
  | _ => Failure 500 "Internal server error"
  end.

Definition startLocationSharing (hub : SocketService.t) (now : R)
    (req : StartRequest) : State -> State * Response :=
  handler (startLocationSharing_body hub now req) startLocationSharing_catch.

Definition stopLocationSharing_body (hub : SocketService.t) (now : R)
    (req : StopRequest) : M Response :=
  let busId := stop_busId req in
  replyIf (bool_decide (busId = EmptyString)) (Failure 400 "Validation failed");;
  d ← getDb;
  replyIf
    match buses d !! busId with
    | None => true
    | Some bus => negb (bool_decide (Bus.driverId bus = Some (stop_user req)))
    end
    (Failure 403 "Access denied");;
  let activeTrip := TripLog.findOne (tripLogs d) busId (stop_user req) in
  match LiveBusLocation.findByBusId (liveLocations d) busId with
  | None => reply (Failure 400 "Not sharing location")
  | Some location =>
      replyIf (negb (LiveBusLocation.isLocationSharing location))
        (Failure 400 "Not sharing location");;
      let location := LiveBusLocation.set_isLocationSharing false location in
      putDb (set_liveLocations
               (LiveBusLocation.save now (liveLocations d) location).1 d);;
      d ← getDb;
      match activeTrip with
      | Some (i, trip) =>
          putDb (set_tripLogs (<[i := TripLog.endTrip now trip]> (tripLogs d)) d)
      | None => mret tt
      end;;
      push (emitToAll hub (locationSharingStopped busId (stop_user req)));;
      mret (Json stopped)
  end.

Definition stopLocationSharing (hub : SocketService.t) (now : R)
    (req : StopRequest) : State -> State * Response :=
  handler (stopLocationSharing_body hub now req)
    (fun _ => Failure 500 "Internal server error").

(** The values a position report writes: the coordinates and readings of
    the request ([speedKmh || 0]), the caller as driver, the route of the
    running session. *)
Definition locationData (req : UpdateRequest) (location : LiveBusLocation.t)
    : LiveBusLocation.LocationData :=
  {| LiveBusLocation.d_latitude := update_latitude req;
     LiveBusLocation.d_longitude := update_longitude req;
     LiveBusLocation.d_speedKmh :=
       Some (if JS.not (update_speedKmh req) then 0
             else default 0 (update_speedKmh req));
     LiveBusLocation.d_heading := update_heading req;
     LiveBusLocation.d_accuracyMeters := update_accuracyMeters req;
     LiveBusLocation.d_driverId := update_user req;
     LiveBusLocation.d_currentRouteId :=
       LiveBusLocation.currentRouteId location;
     LiveBusLocation.d_isLocationSharing := true |}.

Definition updateLocation_body (hub : SocketService.t) (now : R)
    (req : UpdateRequest) : M Response :=
  let busId := update_busId req in
  let speedKmh := Some (if JS.not (update_speedKmh req) then 0
                        else default 0 (update_speedKmh req)) in
  replyIf (negb (updateValid req)) (Failure 400 "Validation failed");;
  d ← getDb;
  match LiveBusLocation.findByBusId (liveLocations d) busId with
  | None => reply (Failure 400 "Location sharing not active")
  | Some location =>
      replyIf (negb (LiveBusLocation.isLocationSharing location))
        (Failure 400 "Location sharing not active");;
      replyIf
        (negb (bool_decide (LiveBusLocation.driverId location = update_user req)))
        (Failure 403 "Access denied");;
      let '(live, updatedLocation) :=
        LiveBusLocation.updateLocation now (busStops d) (liveLocations d) busId
          (locationData req location) in
      putDb (set_liveLocations live d);;
      d ← getDb;
      history ←
        await (LocationHistory.create (locationHistory d) None busId
                 (update_latitude req) (update_longitude req) speedKmh
                 (update_heading req) (update_accuracyMeters req) now);
      putDb (set_locationHistory history d);;
      d ← getDb;
      let updatedLocation :=
        LiveBusLocation.updateNextStop now (busStops d) updatedLocation in
      push (emitToAll hub
              (locationUpdate busId
                 (LiveBusLocation.latitude updatedLocation)
                 (LiveBusLocation.longitude updatedLocation)
                 (LiveBusLocation.speedKmh updatedLocation)
                 (LiveBusLocation.heading updatedLocation)
                 (LiveBusLocation.lastUpdated updatedLocation)
                 (LiveBusLocation.etaToNextStop updatedLocation)));;
      mret (Json (updated (LiveBusLocation.latitude updatedLocation)
                    (LiveBusLocation.longitude updatedLocation)
                    (LiveBusLocation.speedKmh updatedLocation)
                    (LiveBusLocation.lastUpdated updatedLocation)))
  end.

Definition updateLocation (hub : SocketService.t) (now : R)
    (req : UpdateRequest) : State -> State * Response :=
  handler (updateLocation_body hub now req)
    (fun _ => Failure 500 "Internal server error").

(** The events each handler may push. *)
Definition isStarted (req : StartRequest) (event : Event) : Prop :=
  exists tripId,
    event = locationSharingStarted (start_busId req) (start_user req) tripId.

Definition isStopped (req : StopRequest) (event : Event) : Prop :=
  event = locationSharingStopped (stop_busId req) (stop_user req).

Definition isUpdate (req : UpdateRequest) (event : Event) : Prop :=
  exists lat lng speed hdg updatedAt eta,
    event = locationUpdate (update_busId req) lat lng speed hdg updatedAt eta.

(** The row and the trip a start creates, as the object literals
    [startLocationSharing] passes to [LiveBusLocation.create] and
    [TripLog.create]. *)
Definition sessionRow (now : R) (req : StartRequest) (route : option UUID)
    : LiveBusLocation.t :=
  {| LiveBusLocation.busId := start_busId req;
     LiveBusLocation.driverId := start_user req;
     LiveBusLocation.latitude := 0;
     LiveBusLocation.longitude := 0;
     LiveBusLocation.speedKmh := None;
     LiveBusLocation.heading := None;
     LiveBusLocation.accuracyMeters := None;
     LiveBusLocation.isLocationSharing := true;
     LiveBusLocation.currentRouteId := route;
     LiveBusLocation.nextStopId := None;
     LiveBusLocation.distanceToNextStop := None;
     LiveBusLocation.etaToNextStop := None;
     LiveBusLocation.tripStartedAt := Some now;
     LiveBusLocation.lastUpdated := now |}.

Definition sessionTrip (now : R) (req : StartRequest) (route : UUID)
    : TripLog.t :=
  {| TripLog.busId := start_busId req;
     TripLog.driverId := start_user req;
     TripLog.routeId := route;
     TripLog.startedAt := now;
     TripLog.endedAt := None;
     TripLog.totalDistanceKm := None;
     TripLog.totalDurationMinutes := None;
     TripLog.averageSpeedKmh := None;
     TripLog.status := TripLog.active |}.

(** The route a start runs on: the one the request names, else the
    bus's current route. *)
Definition finalRouteId (req : StartRequest) (bus : Bus.t) : option UUID :=
  if Ids.not (start_routeId req) then Bus.currentRouteId bus
  else start_routeId req.

(** The state a start that goes through leaves: the trip appended, the
    row inserted, the bus moved to the named route when that differs from
    its current one, the start broadcast. *)
Definition afterStarted (hub : SocketService.t) (now : R)
    (req : StartRequest) (bus : Bus.t) (route : UUID) (s : State) : State :=
  let d :=
    set_liveLocations
      (<[start_busId req := sessionRow now req (Some route)]>
         (liveLocations (db s)))
      (set_tripLogs (tripLogs (db s) ++ [sessionTrip now req route]) (db s)) in
  {| db :=
       if negb (Ids.not (start_routeId req)) &&
          negb (bool_decide (start_routeId req = Bus.currentRouteId bus))
       then set_buses
              (<[start_busId req :=
                   Bus.set_currentRouteId (start_routeId req) bus]> (buses d))
              d
       else d;
     sent := sent s ++
             emitToAll hub
               (locationSharingStarted (start_busId req) (start_user req)
                  (length (tripLogs (db s)))) |}.

(** [Pushes hub P m]: whatever [m] adds to the messages sent is a run of
    broadcasts through [emitToAll], each of an event satisfying [P]. *)
Definition Pushes (hub : SocketService.t) (P : Event -> Prop) {A}
    (m : M A) : Prop :=
  forall s, exists events,
    sent (m s).1 = sent s ++ mjoin (emitToAll hub <$> events) /\
    Forall P events.
End LocationController.

(** ** A day on a one-stop route

    One driver, one active bus assigned to that driver, one route with a
    single stop on the equator at longitude 0.01 degrees (about 1.11 km east of
    the origin), nothing shared yet, one observer connected. *)

Module Scenario.
Local Open Scope R_scope.
Import LocationController.

Definition driverA : UUID := "11111111-1111-4111-8111-111111111111".
Definition busA : UUID := "22222222-2222-4222-8222-222222222222".
Definition routeA : UUID := "33333333-3333-4333-8333-333333333333".
Definition stopA : UUID := "44444444-4444-4444-8444-444444444444".

Definition gate : BusStop.t :=
  {| BusStop.id := stopA; BusStop.latitude := 0; BusStop.longitude := 0.01;
     BusStop.stopOrder := 1; BusStop.routeId := routeA |}.

Definition db0 : Db :=
  {| buses := {[ busA := {| Bus.isActive := true;
                            Bus.driverId := Some driverA;
                            Bus.currentRouteId := Some routeA |} ]};
     routes := {[ routeA ]};
     busStops := {| BusStop.rows := [gate]; BusStop.online := true |};
     liveLocations := ∅;
     tripLogs := [];
     locationHistory := [] |}.

Definition hub0 : SocketService.t :=
  {| SocketService.io := Some {[ "observer-1" ]};
     SocketService.connectedUsers := ∅;
     SocketService.busSubscribers := ∅ |}.

Definition s0 : State := {| db := db0; sent := [] |}.

Definition startReq : StartRequest :=
  {| start_user := driverA; start_busId := busA; start_routeId := None |}.

Definition stopReq : StopRequest :=
  {| stop_user := driverA; stop_busId := busA |}.

(** The bus at the origin, moving at 20 km/h. *)
Definition report1 : UpdateRequest :=
  {| update_user := driverA; update_busId := busA;
     update_latitude := 0; update_longitude := 0;
     update_speedKmh := Some 20; update_heading := Some 90;
     update_accuracyMeters := Some 5 |}.

(** The bus halted at the stop. *)
Definition report2 : UpdateRequest :=
  {| update_user := driverA; update_busId := busA;
     update_latitude := 0; update_longitude := 0.01;
     update_speedKmh := Some 0; update_heading := Some 90;
     update_accuracyMeters := Some 5 |}.

(** The row the first start creates. *)
Definition row0 : LiveBusLocation.t :=
  {| LiveBusLocation.busId := busA;
     LiveBusLocation.driverId := driverA;
     LiveBusLocation.latitude := 0;
     LiveBusLocation.longitude := 0;
     LiveBusLocation.speedKmh := None;
     LiveBusLocation.heading := None;
     LiveBusLocation.accuracyMeters := None;
     LiveBusLocation.isLocationSharing := true;
     LiveBusLocation.currentRouteId := Some routeA;
     LiveBusLocation.nextStopId := None;
     LiveBusLocation.distanceToNextStop := None;
     LiveBusLocation.etaToNextStop := None;
     LiveBusLocation.tripStartedAt := Some 0;
     LiveBusLocation.lastUpdated := 0 |}.

(** The row after the first report: the stop is the next stop, [dist]
    meters away, expected at [eta]. *)
Definition row1 (dist eta : R) : LiveBusLocation.t :=
  {| LiveBusLocation.busId := busA;
     LiveBusLocation.driverId := driverA;
     LiveBusLocation.latitude := 0;
     LiveBusLocation.longitude := 0;
     LiveBusLocation.speedKmh := Some 20;
     LiveBusLocation.heading := Some 90;
     LiveBusLocation.accuracyMeters := Some 5;
     LiveBusLocation.isLocationSharing := true;
     LiveBusLocation.currentRouteId := Some routeA;
     LiveBusLocation.nextStopId := Some stopA;
     LiveBusLocation.distanceToNextStop := Some dist;
     LiveBusLocation.etaToNextStop := Some eta;
     LiveBusLocation.tripStartedAt := Some 0;
     LiveBusLocation.lastUpdated := 1000 |}.

(** The row after the second report: the bus stands at the stop with
    speed 0, and the ETA of the first report is still there. *)
Definition row2 (dist eta : R) : LiveBusLocation.t :=
  {| LiveBusLocation.busId := busA;
     LiveBusLocation.driverId := driverA;
     LiveBusLocation.latitude := 0;
     LiveBusLocation.longitude := 0.01;
     LiveBusLocation.speedKmh := Some 0;
     LiveBusLocation.heading := Some 90;
     LiveBusLocation.accuracyMeters := Some 5;
     LiveBusLocation.isLocationSharing := true;
     LiveBusLocation.currentRouteId := Some routeA;
     LiveBusLocation.nextStopId := Some stopA;
     LiveBusLocation.distanceToNextStop := Some dist;
     LiveBusLocation.etaToNextStop := Some eta;
     LiveBusLocation.tripStartedAt := Some 0;
     LiveBusLocation.lastUpdated := 2000 |}.

(** Start at time 0, stop at 1000 ms, start again at 2000 ms. *)
Definition afterStart : State * Response :=
  startLocationSharing hub0 0 startReq s0.
Definition afterStop : State * Response :=
  stopLocationSharing hub0 1000 stopReq afterStart.1.
Definition afterRestart : State * Response :=
  startLocationSharing hub0 2000 startReq afterStop.1.

(** Start at time 0, then the two position reports. *)
Definition afterReport1 : State * Response :=
  updateLocation hub0 1000 report1 afterStart.1.
Definition afterReport2 : State * Response :=
  updateLocation hub0 2000 report2 afterReport1.1.

(** The same bus before it was given a route, and a start that names the
    route. *)
Definition unrouted : State :=
  {| db := set_buses
             {[ busA := {| Bus.isActive := true;
                           Bus.driverId := Some driverA;
                           Bus.currentRouteId := None |} ]} db0;
     sent := [] |}.

Definition namedStart : StartRequest :=
  {| start_user := driverA; start_busId := busA;
     start_routeId := Some routeA |}.
End Scenario.

(** * Properties *)

(** ** Numbers *)

Section Numbers.
Local Open Scope R_scope.

Lemma Math_round_IZR (z : Z) : JS.Math_round (IZR z) = IZR z.
Proof.
  unfold JS.Math_round. f_equal. symmetry. apply Int_part_spec. lra.
Qed.

Lemma Math_atan2_0_1 : JS.Math_atan2 0 1 = 0.
Proof.
  unfold JS.Math_atan2. rewrite decide_True by lra.
  replace (0 / 1) with 0 by lra. apply atan_0.
Qed.

(** The haversine term is the same in both directions. *)
Lemma haversine_term_sym (lat1 lat2 lng1 lng2 k : R) :
  sin ((lat2 - lat1) * k / 2) * sin ((lat2 - lat1) * k / 2) +
  cos (lat1 * k) * cos (lat2 * k) *
  sin ((lng2 - lng1) * k / 2) * sin ((lng2 - lng1) * k / 2) =
  sin ((lat1 - lat2) * k / 2) * sin ((lat1 - lat2) * k / 2) +
  cos (lat2 * k) * cos (lat1 * k) *
  sin ((lng1 - lng2) * k / 2) * sin ((lng1 - lng2) * k / 2).
Proof.
  replace ((lat1 - lat2) * k / 2) with (- ((lat2 - lat1) * k / 2)) by lra.
  replace ((lng1 - lng2) * k / 2) with (- ((lng2 - lng1) * k / 2)) by lra.
  rewrite !sin_neg. ring.
Qed.

(** At no displacement the haversine term vanishes. *)
Lemma haversine_term_diag (lat0 lng0 k : R) :
  sin ((lat0 - lat0) * k / 2) * sin ((lat0 - lat0) * k / 2) +
  cos (lat0 * k) * cos (lat0 * k) *
  sin ((lng0 - lng0) * k / 2) * sin ((lng0 - lng0) * k / 2) = 0.
Proof.
  replace ((lat0 - lat0) * k / 2) with 0 by lra.
  replace ((lng0 - lng0) * k / 2) with 0 by lra.
  rewrite sin_0. ring.
Qed.
(** For an angle within a quarter turn the haversine inversion gives the
    angle back. *)
Lemma haversine_angle (y : R) :
  - (PI / 2) < y < PI / 2 ->
  JS.Math_atan2 (sqrt (sin y * sin y)) (sqrt (1 - sin y * sin y)) = Rabs y.
Proof.
  intros [Hlo Hhi].
  assert (Hcos : 0 < cos y) by (apply cos_gt_0; lra).
  replace (1 - sin y * sin y) with (cos y * cos y)
    by (pose proof (sin2_cos2 y) as H; unfold Rsqr in H; lra).
  rewrite (sqrt_square (cos y)) by lra.
  fold (Rsqr (sin y)). rewrite sqrt_Rsqr_abs.
  unfold JS.Math_atan2. rewrite decide_True by done.
  destruct (Rle_dec 0 y) as [Hy|Hy].
  - rewrite (Rabs_right y) by lra.
    rewrite (Rabs_right (sin y)) by (apply Rle_ge, sin_ge_0; lra).
    fold (tan y). apply atan_tan. lra.
  - rewrite (Rabs_left y) by lra.
    assert (Hsin : sin y < 0).
    { replace y with (- - y) by lra. rewrite sin_neg.
      assert (0 < sin (- y)) by (apply sin_gt_0; lra). lra. }
    rewrite (Rabs_left (sin y)) by done.
    rewrite <- sin_neg, <- (cos_neg y). fold (tan (- y)).
    apply atan_tan. lra.
Qed.

End Numbers.

(** ** Geo math and the ETA estimator *)

Section Estimator.
Local Open Scope R_scope.
Import ETACalculator.

Lemma calculateDistance_sym (a b : Coord) :
  calculateDistance a b = calculateDistance b a.
Proof.
  unfold calculateDistance, toRadians. cbv zeta.
  rewrite (haversine_term_sym (lat a) (lat b) (lng a) (lng b)).
  reflexivity.
Qed.

Lemma calculateDistance_diag (a : Coord) : calculateDistance a a = 0.
Proof.
  unfold calculateDistance, toRadians. cbv zeta.
  rewrite haversine_term_diag.
  rewrite sqrt_0. replace (1 - 0) with 1 by lra. rewrite sqrt_1.
  rewrite Math_atan2_0_1. lra.
Qed.

(** Two points on the equator less than half a turn apart: the distance is
    the arc between their longitudes. *)
Lemma calculateDistance_equator (a b : Coord) :
  lat a = 0 -> lat b = 0 -> - 180 < lng b - lng a < 180 ->
  calculateDistance a b = 6371 * (Rabs (lng b - lng a) * (PI / 180)).
Proof.
  intros Ha Hb Hlng. unfold calculateDistance, toRadians. cbv zeta.
  rewrite Ha, Hb.
  replace ((0 - 0) * (PI / 180) / 2) with 0 by lra.
  replace (0 * (PI / 180)) with 0 by lra.
  rewrite sin_0, cos_0.
  set (y := (lng b - lng a) * (PI / 180) / 2).
  replace (0 * 0 + 1 * 1 * sin y * sin y) with (sin y * sin y) by lra.
  pose proof PI_RGT_0 as Hpi.
  rewrite haversine_angle by (unfold y; split; nra).
  unfold y.
  replace ((lng b - lng a) * (PI / 180) / 2)
    with ((lng b - lng a) * (PI / 360)) by lra.
  rewrite Rabs_mult, (Rabs_right (PI / 360)) by lra. lra.
Qed.

(** C10: the haversine distance is symmetric in its two points, and the
    distance from a point to itself is 0. *)
Theorem calculateDistance_symmetric_zero_on_diagonal (a b : Coord) :
  calculateDistance a b = calculateDistance b a /\ calculateDistance a a = 0.
Proof. split; [apply calculateDistance_sym | apply calculateDistance_diag]. Qed.

(** C7: when bus and stop are less than 100 m (0.1 km) apart,
    [estimateTimeToStop] answers the fixed one-minute, "arriving",
    high-confidence estimate whatever the current speed and the recent
    speed samples are. *)
Theorem estimateTimeToStop_arriving (now : R) (busLocation stopLocation : Coord)
    (currentSpeed : option R) (recentSpeeds : list (option R)) :
  calculateDistance busLocation stopLocation < 0.1 ->
  estimateTimeToStop now busLocation stopLocation currentSpeed recentSpeeds =
    {| eta := Some (now + 60 * 1000);
       durationMinutes := 1;
       distanceKm := Some (calculateDistance busLocation stopLocation);
       speedKmh := None;
       isRealtime := true;
       confidence := high;
       status := Some arriving |}.
Proof.
  intros Hnear. unfold estimateTimeToStop. cbv zeta.
  rewrite bool_decide_eq_true_2 by exact Hnear. reflexivity.
Qed.

Lemma estimateTimeToStop_arriving_witness :
  calculateDistance {| lat := 0; lng := 0 |} {| lat := 0; lng := 0.0005 |}
    < 0.1 /\
  estimateTimeToStop 0 {| lat := 0; lng := 0 |} {| lat := 0; lng := 0.0005 |}
      (Some 40) [Some 300; None; Some 35] =
    {| eta := Some (0 + 60 * 1000);
       durationMinutes := 1;
       distanceKm :=
         Some (calculateDistance {| lat := 0; lng := 0 |}
                 {| lat := 0; lng := 0.0005 |});
       speedKmh := None;
       isRealtime := true;
       confidence := high;
       status := Some arriving |}.
Proof.
  assert (H : calculateDistance {| lat := 0; lng := 0 |}
                {| lat := 0; lng := 0.0005 |} < 0.1).
  { rewrite calculateDistance_equator by (cbn; first [reflexivity|lra]).
    cbn [lng]. rewrite Rabs_right by lra.
    pose proof PI_4. pose proof PI_RGT_0. lra. }
  split; [exact H|].
  exact (estimateTimeToStop_arriving 0 _ _ (Some 40) [Some 300; None; Some 35] H).
Defined.
End Estimator.

(** ** The recency-weighted average *)

Section WeightedAverage.
Local Open Scope R_scope.
Import ETACalculator.

(** The loop from index [k] on, started with [(a, b)]. *)
Lemma weightedSums_from (l : list R) (k : nat) (acc : R * R) :
  foldl weightedStep acc (imap (fun i x => ((k + i)%nat, x)) l) =
  (acc.1 + sumR (imap (fun i speed => speed * INR (k + i + 1)) l),
   acc.2 + sumR (imap (fun i _ => INR (k + i + 1)) l)).
Proof.
  revert k acc. induction l as [|x l IH]; intros k [a b].
  - simpl. f_equal; lra.
  - rewrite !imap_cons. cbn [foldl sumR].
    rewrite (imap_ext _ (fun i x => ((S k + i)%nat, x)))
      by (intros; cbv [compose]; f_equal; lia).
    replace (k + 0 + 1)%nat with (k + 1)%nat by lia.
    replace (k + 0)%nat with k by lia.
    rewrite IH. unfold weightedStep. cbn [fst snd].
    rewrite (imap_ext (_ ∘ S) (fun i speed => speed * INR (S k + i + 1)) l)
      by (intros; cbv [compose]; do 2 f_equal; lia).
    rewrite (imap_ext (_ ∘ S) (fun i _ => INR (S k + i + 1)) l)
      by (intros; cbv [compose]; f_equal; lia).
    f_equal; lra.
Qed.

Lemma weightedSums_spec (l : list R) :
  weightedSums l =
  (sumR (imap (fun i speed => speed * INR (i + 1)) l),
   sumR (imap (fun i _ => INR (i + 1)) l)).
Proof.
  unfold weightedSums.
  rewrite (imap_ext pair (fun i x => ((0 + i)%nat, x))) by reflexivity.
  rewrite weightedSums_from. f_equal; simpl; lra.
Qed.

Lemma averageSpeed_spec (l : list R) :
  averageSpeed l = spec_weightedAverage l.
Proof.
  unfold averageSpeed, spec_weightedAverage. cbv zeta.
  rewrite weightedSums_spec. reflexivity.
Qed.

Lemma omap_validSpeed_valid (l : list R) :
  Forall (fun v => 0 < v < 120) l -> omap validSpeed (Some <$> l) = l.
Proof.
  induction 1 as [|v l [Hv1 Hv2] _ IH]; [reflexivity|].
  rewrite fmap_cons. cbn [omap list_omap validSpeed].
  rewrite !bool_decide_eq_true_2 by assumption. cbn.
  fold (omap validSpeed (Some <$> l)). by rewrite IH.
Qed.

Lemma sumR_imap_nonneg (g : nat -> R -> R) (l : list R) :
  (forall i x, x ∈ l -> 0 <= g i x) -> 0 <= sumR (imap g l).
Proof.
  revert g. induction l as [|y l IH]; intros g Hg; [simpl; lra|].
  rewrite imap_cons. cbn [sumR].
  pose proof (Hg 0%nat y ltac:(left)) as Hy.
  pose proof (IH (g ∘ S) (fun i x Hx => Hg (S i) x ltac:(by right))) as Hl.
  lra.
Qed.

Lemma sumR_imap_pos (g : nat -> R -> R) (l : list R) :
  l <> [] -> (forall i x, x ∈ l -> 0 < g i x) -> 0 < sumR (imap g l).
Proof.
  destruct l as [|y l]; [done|]. intros _ Hg.
  rewrite imap_cons. cbn [sumR].
  pose proof (Hg 0%nat y ltac:(left)) as Hy.
  pose proof (sumR_imap_nonneg (g ∘ S) l
    (fun i x Hx => Rlt_le _ _ (Hg (S i) x ltac:(by right)))) as Hl.
  lra.
Qed.

Lemma spec_weightedAverage_pos (l : list R) :
  l <> [] -> Forall (fun v => 0 < v) l -> 0 < spec_weightedAverage l.
Proof.
  intros Hne Hall. unfold spec_weightedAverage.
  rewrite Forall_forall in Hall.
  apply Rdiv_lt_0_compat; apply sumR_imap_pos; try done.
  - intros i x Hx. apply Rmult_lt_0_compat; [by apply Hall|].
    apply lt_0_INR; lia.
  - intros i x _. apply lt_0_INR; lia.
Qed.

Lemma spec_weightedAverage_10_20_30 :
  spec_weightedAverage [10; 20; 30] = 140 / 6.
Proof. unfold spec_weightedAverage. simpl. lra. Qed.

(** C5: on a non-empty list of valid samples (each strictly between 0 and
    120 km/h) the estimator's smoothed speed is the recency-weighted
    average, sample i (1-indexed, oldest first) weighing i; it is the
    speed the ETA is computed from; for [10; 20; 30] it is 140/6. *)
Theorem calculateSmoothedETA_weighted_average
    (now : R) (samples : list R) :
  samples <> [] ->
  Forall (fun v => 0 < v < 120) samples ->
  averageSpeed samples = spec_weightedAverage samples /\
  (forall distanceKm : option R,
     calculateSmoothedETA now (Some <$> samples) distanceKm =
     calculateETA now distanceKm (Some (spec_weightedAverage samples)) 2) /\
  (forall d : R, 0 < d ->
     eta (calculateSmoothedETA now (Some <$> samples) (Some d)) =
     Some (now + (d / spec_weightedAverage samples * 60 + 2) * 60 * 1000)) /\
  averageSpeed [10; 20; 30] = 140 / 6.
Proof.
  intros Hne Hvalid.
  assert (Hpos : 0 < spec_weightedAverage samples).
  { apply spec_weightedAverage_pos; [done|].
    eapply Forall_impl; [exact Hvalid|]. simpl. intros; lra. }
  assert (Hsm : forall distanceKm : option R,
     calculateSmoothedETA now (Some <$> samples) distanceKm =
     calculateETA now distanceKm (Some (spec_weightedAverage samples)) 2).
  { intros distanceKm. unfold calculateSmoothedETA.
    rewrite omap_validSpeed_valid by done. rewrite length_fmap.
    rewrite (bool_decide_eq_false_2 (length samples = 0%nat))
      by (destruct samples; simpl; [done|lia]).
    rewrite orb_false_l. destruct (JS.not distanceKm) eqn:Hd.
    - unfold calculateETA. rewrite Hd. reflexivity.
    - cbv zeta. rewrite averageSpeed_spec. reflexivity. }
  split; [apply averageSpeed_spec|]. split; [exact Hsm|].
  split; [|rewrite averageSpeed_spec; apply spec_weightedAverage_10_20_30].
  intros d Hd. rewrite Hsm. unfold calculateETA. simpl.
  rewrite (bool_decide_eq_false_2 (d = 0)) by lra.
  rewrite (bool_decide_eq_false_2 (d <= 0)) by lra.
  rewrite (bool_decide_eq_false_2 (spec_weightedAverage samples = 0)) by lra.
  rewrite (bool_decide_eq_false_2 (spec_weightedAverage samples <= 0)) by lra.
  reflexivity.
Qed.

Lemma calculateSmoothedETA_weighted_average_witness :
  [10; 20; 30] <> [] /\
  Forall (fun v => 0 < v < 120) [10; 20; 30] /\
  eta (calculateSmoothedETA 0 (Some <$> [10; 20; 30]) (Some 7)) =
  Some (0 + (7 / spec_weightedAverage [10; 20; 30] * 60 + 2) * 60 * 1000).
Proof.
  assert (Hne : [10; 20; 30] <> @nil R) by discriminate.
  assert (Hv : Forall (fun v => 0 < v < 120) [10; 20; 30])
    by (repeat constructor; lra).
  split; [exact Hne|]. split; [exact Hv|].
  apply (calculateSmoothedETA_weighted_average 0 [10; 20; 30] Hne Hv).
  lra.
Defined.
End WeightedAverage.

(** ** The fallback speed *)

Section Fallback.
Local Open Scope R_scope.
Import ETACalculator.

(** With a positive distance and no usable speed, [calculateETA] takes
    25 km/h; the overwritten [speedKmh] is then what [isRealtime] and
    [confidence] are computed from. *)
Lemma calculateETA_no_speed (now d buffer : R) :
  0 < d ->
  calculateETA now (Some d) (Some 0) buffer =
    {| eta := Some (now + (d / 25 * 60 + buffer) * 60 * 1000);
       durationMinutes := JS.Math_round (d / 25 * 60 + buffer);
       distanceKm := Some (JS.Math_round (d * 100) / 100);
       speedKmh := Some 25;
       isRealtime := true;
       confidence := high;
       status := None |}.
Proof.
  intros Hd. unfold calculateETA. simpl.
  rewrite (bool_decide_eq_false_2 (d = 0)) by lra.
  rewrite (bool_decide_eq_false_2 (d <= 0)) by lra.
  rewrite (bool_decide_eq_true_2 (0 = 0)) by lra. simpl.
  rewrite (bool_decide_eq_true_2 (0 < 25)) by lra.
  rewrite (bool_decide_eq_true_2 (5 < 25)) by lra.
  replace (25 * 100) with (IZR 2500) by (simpl; lra).
  rewrite Math_round_IZR.
  replace (IZR 2500 / 100) with 25 by lra.
  reflexivity.
Qed.

Lemma calculateSmoothedETA_no_valid_sample
    (now d : R) (samples : list (option R)) :
  0 < d -> omap validSpeed samples = [] ->
  calculateSmoothedETA now samples (Some d) =
  calculateETA now (Some d) (Some 0) 2.
Proof.
  intros Hd Hnone. unfold calculateSmoothedETA.
  destruct (bool_decide (length samples = 0%nat) || JS.not (Some d));
    [reflexivity|].
  cbv zeta. rewrite Hnone. reflexivity.
Qed.

(** C3: with positive distance and no sample left in (0, 120) km/h the
    estimator does assume 25 km/h, but it reports the estimate as
    real-time with confidence [high]: here on no sample at all and on
    samples that are all discarded. *)
Theorem calculateSmoothedETA_fallback_reports_high (now : R) :
  speedKmh (calculateSmoothedETA now [] (Some 1)) = Some 25 /\
  confidence (calculateSmoothedETA now [] (Some 1)) = high /\
  isRealtime (calculateSmoothedETA now [] (Some 1)) = true /\
  speedKmh (calculateSmoothedETA now [Some 0; Some 150; None] (Some 1))
    = Some 25 /\
  confidence (calculateSmoothedETA now [Some 0; Some 150; None] (Some 1))
    = high.
Proof.
  assert (H1 : (0:R) < 1) by lra.
  assert (Hdrop : omap validSpeed [Some 0; Some 150; None] = []).
  { cbn [omap list_omap validSpeed].
    rewrite (bool_decide_eq_false_2 (0 < 0)) by lra.
    rewrite (bool_decide_eq_false_2 (150 < 120)) by lra.
    rewrite andb_false_r. reflexivity. }
  rewrite (calculateSmoothedETA_no_valid_sample now 1 [] H1 eq_refl).
  rewrite (calculateSmoothedETA_no_valid_sample now 1 _ H1 Hdrop).
  rewrite (calculateETA_no_speed now 1 2 H1). repeat split.
Qed.
End Fallback.

(** ** The stop locator *)

Section StopLocator.
Local Open Scope R_scope.
Import BusStop.

Variables currentLat currentLng : R.

Let dist (s : BusStop.t) : R := calculateDistanceTo s currentLat currentLng.

#[local] Instance byStopOrder_trans : Transitive byStopOrder.
Proof. unfold byStopOrder. intros x y z. lia. Qed.

#[local] Instance byStopOrder_total : Total byStopOrder.
Proof. unfold byStopOrder. intros x y. lia. Qed.

(** What the scan holds after a list of stops: nothing when no stop lies
    beyond the floor, otherwise the first of the nearest stops beyond
    it. *)
Lemma scanStops_spec (stops : list BusStop.t) :
  (scanStops currentLat currentLng stops = (None, None) /\
   forall s, s ∈ stops -> dist s <= 100) \/
  (exists l1 s l2,
     stops = l1 ++ s :: l2 /\
     scanStops currentLat currentLng stops = (Some s, Some (dist s)) /\
     100 < dist s /\
     (forall s', s' ∈ l1 -> 100 < dist s' -> dist s < dist s') /\
     (forall s', s' ∈ l2 -> 100 < dist s' -> dist s <= dist s')).
Proof.
  induction stops as [|x l IH] using rev_ind.
  - left. split; [reflexivity|]. intros s Hs. by apply elem_of_nil in Hs.
  - unfold scanStops in *. rewrite foldl_snoc.
    destruct IH as [[-> Hall]|(l1 & s & l2 & -> & -> & Hs & Hl1 & Hl2)].
    + unfold nextStopStep. cbn [snd andb]. fold (dist x).
      destruct (decide (100 < dist x)) as [Hx|Hx].
      * right. exists l, x, []. rewrite bool_decide_eq_true_2 by done.
        repeat split; try done.
        -- intros s' Hs' Hfar. specialize (Hall s' Hs'). lra.
        -- intros s' Hs'. by apply elem_of_nil in Hs'.
      * left. rewrite bool_decide_eq_false_2 by done. split; [done|].
        intros s Hs. apply elem_of_app in Hs as [Hs|Hs]; [by apply Hall|].
        apply list_elem_of_singleton in Hs as ->. lra.
    + unfold nextStopStep. cbn [snd]. fold (dist x).
      destruct (decide (dist x < dist s /\ 100 < dist x)) as [[Hlt Hx]|Hno].
      * right. exists (l1 ++ s :: l2), x, [].
        rewrite !bool_decide_eq_true_2 by done. cbn [andb].
        repeat split; try done.
        -- intros s' Hs' Hfar.
           apply elem_of_app in Hs' as [Hs'|Hs'];
             [specialize (Hl1 s' Hs' Hfar); lra|].
           apply elem_of_cons in Hs' as [->|Hs']; [done|].
           specialize (Hl2 s' Hs' Hfar). lra.
        -- intros s' Hs'. by apply elem_of_nil in Hs'.
      * right. exists l1, s, (l2 ++ [x]).
        split; [by rewrite <- app_assoc|]. split.
        { destruct (decide (dist x < dist s)) as [Hlt|Hge].
          - rewrite (bool_decide_eq_true_2 _ Hlt). cbn [andb].
            rewrite bool_decide_eq_false_2; [done|]. intros ?. by apply Hno.
          - by rewrite (bool_decide_eq_false_2 _ Hge). }
        repeat split; try done.
        intros s' Hs' Hfar. apply elem_of_app in Hs' as [Hs'|Hs'];
          [by apply Hl2|].
        apply list_elem_of_singleton in Hs' as ->.
        destruct (decide (dist x < dist s)); [|lra].
        exfalso. by apply Hno.
Qed.

Lemma findAll_online (table : Table) (rid : UUID) :
  online table = true ->
  exists stops,
    findAll table rid = Resolved stops /\
    StronglySorted byStopOrder stops /\
    forall s, s ∈ stops <-> s ∈ rows table /\ routeId s = rid.
Proof.
  intros Hon. unfold findAll. rewrite Hon. eexists. split; [reflexivity|].
  split; [apply StronglySorted_merge_sort; apply _|].
  intros s. rewrite merge_sort_Permutation, list_elem_of_filter. tauto.
Qed.

(** C4: [findNextStop] answers the stop of the route that is nearest to
    the position among those strictly more than 100 m away; of two such
    stops at the same distance it answers the one with the lower stop
    order; it answers none exactly when the route has no stop beyond the
    floor (in particular, no stop at all).  It rejects only when the
    query on the stops does. *)
Theorem findNextStop_nearest_beyond_floor (table : Table) (rid : UUID) :
  match findNextStop table rid currentLat currentLng with
  | Resolved (Some s) =>
      s ∈ rows table /\ routeId s = rid /\ 100 < dist s /\
      forall s', s' ∈ rows table -> routeId s' = rid -> 100 < dist s' ->
        dist s <= dist s' /\
        (dist s' = dist s -> (stopOrder s <= stopOrder s')%Z)
  | Resolved None =>
      online table = true /\
      forall s', s' ∈ rows table -> routeId s' = rid -> dist s' <= 100
  | Rejected _ => online table = false
  end /\
  (online table = true ->
   (forall s', s' ∈ rows table -> routeId s' = rid -> dist s' <= 100) ->
   findNextStop table rid currentLat currentLng = Resolved None).
Proof.
  unfold findNextStop.
  destruct (online table) eqn:Hon;
    [|unfold findAll; rewrite Hon; split; [done|discriminate]].
  destruct (findAll_online table rid Hon) as (stops & -> & Hsorted & Hmem).
  destruct (decide (length stops = 0%nat)) as [Hlen|Hlen].
  { rewrite (bool_decide_eq_true_2 _ Hlen).
    apply nil_length_inv in Hlen.
    split; [split; [done|]|done].
    intros s' Hs' Hr. exfalso.
    assert (Hin : s' ∈ stops) by (by apply Hmem).
    rewrite Hlen in Hin. by apply elem_of_nil in Hin. }
  rewrite (bool_decide_eq_false_2 _ Hlen).
  destruct (scanStops_spec stops)
    as [[-> Hall]|(l1 & s & l2 & Hstops & -> & Hs & Hl1 & Hl2)]; cbn [fst].
  - split; [split; [done|]|done].
    intros s' Hs' Hr. apply Hall, Hmem. done.
  - assert (Hin : s ∈ stops) by (rewrite Hstops; apply elem_of_app; right; left).
    apply Hmem in Hin as [Hin Hrid]. split.
    + do 3 (split; [done|]). intros s' Hs' Hr Hfar.
      assert (Hs'in : s' ∈ stops) by (by apply Hmem).
      rewrite Hstops in Hs'in, Hsorted.
      apply StronglySorted_app_1_r, StronglySorted_cons in Hsorted
        as [Hafter _].
      apply elem_of_app in Hs'in as [Hs'in|Hs'in];
        [specialize (Hl1 s' Hs'in Hfar); lra|].
      apply elem_of_cons in Hs'in as [->|Hs'in]; [split; [lra|done]|].
      split; [by apply Hl2|]. intros _.
      rewrite Forall_forall in Hafter. by apply Hafter.
    + intros _ Hall. specialize (Hall s Hin Hrid). lra.
Qed.
End StopLocator.

(** ** The fan-out hub *)

Section Hub.
Import SocketService.

(** While the loop of [handleDisconnect] runs, every interest set that
    still holds the socket is among the entries left to visit. *)
Lemma disconnect_loop_clears (sid : SocketId)
    (entries : list (UUID * gset SocketId)) (m : gmap UUID (gset SocketId)) :
  (forall bus subs, m !! bus = Some subs -> sid ∈ subs ->
     (bus, subs) ∈ entries) ->
  forall bus subs,
    foldl (disconnectStep sid) m entries !! bus = Some subs -> sid ∉ subs.
Proof.
  revert m. induction entries as [|[k v] entries IH]; intros m Hpending.
  - intros bus subs Hbus Hin.
    specialize (Hpending bus subs Hbus Hin). by apply elem_of_nil in Hpending.
  - cbn [foldl]. apply IH. intros bus subs Hbus Hin.
    unfold disconnectStep in Hbus.
    destruct (decide (sid ∈ v)) as [Hv|Hv].
    + rewrite (bool_decide_eq_true_2 _ Hv) in Hbus.
      destruct (decide (bus = k)) as [->|Hne].
      * exfalso. destruct (bool_decide (size (v ∖ {[sid]}) = 0)).
        -- by rewrite lookup_delete_eq in Hbus.
        -- rewrite lookup_insert_eq in Hbus. injection Hbus as <-.
           apply elem_of_difference in Hin as [_ Hn].
           apply Hn. by apply elem_of_singleton.
      * assert (Hm : m !! bus = Some subs).
        { destruct (bool_decide (size (v ∖ {[sid]}) = 0)).
          - by rewrite lookup_delete_ne in Hbus.
          - by rewrite lookup_insert_ne in Hbus. }
        specialize (Hpending bus subs Hm Hin).
        apply elem_of_cons in Hpending as [Heq|Hrest]; [|done].
        congruence.
    + rewrite (bool_decide_eq_false_2 _ Hv) in Hbus.
      specialize (Hpending bus subs Hbus Hin).
      apply elem_of_cons in Hpending as [Heq|Hrest]; [|done].
      congruence.
Qed.

Lemma handleDisconnect_clears (this : SocketService.t) (socket : Socket)
    (bus : UUID) (subs : gset SocketId) :
  busSubscribers (handleDisconnect this socket) !! bus = Some subs ->
  id socket ∉ subs.
Proof.
  apply disconnect_loop_clears. intros b s Hb _.
  by apply elem_of_map_to_list.
Qed.

(** C9: after [handleDisconnect] no bus's interest set holds the departed
    socket, whatever hub the socket leaves and whatever subscribe and
    unsubscribe messages led to it; its entry among the connected users
    is gone as well. *)
Theorem handleDisconnect_forgets_observer (db : Db)
    (this : SocketService.t) (messages : list (Socket * Message))
    (socket : Socket) :
  map_Forall (fun _ subs => id socket ∉ subs)
    (busSubscribers (handleDisconnect (afterMessages db this messages) socket))
  /\ connectedUsers (handleDisconnect (afterMessages db this messages) socket)
       !! id socket = None.
Proof.
  split.
  - intros bus subs. apply handleDisconnect_clears.
  - cbn. apply lookup_delete_eq.
Qed.

(** A subscription does put the socket into the bus's interest set, so
    the cleanup above has something to remove. *)
Lemma subscribeToBus_registers (db : Db) (this : SocketService.t)
    (socket : Socket) (bus : string) :
  bus <> EmptyString ->
  exists subs,
    busSubscribers (subscribeToBus db this socket bus).1 !! bus = Some subs
    /\ id socket ∈ subs.
Proof.
  intros Hbus. unfold subscribeToBus.
  rewrite (bool_decide_eq_false_2 _ Hbus). cbn.
  eexists. rewrite lookup_insert_eq. split; [reflexivity|set_solver].
Qed.

Lemma emitToAll_reaches (this : SocketService.t) (event : Event)
    (sockets : gset SocketId) (sid : SocketId) :
  io this = Some sockets ->
  (sid, event) ∈ emitToAll this event <-> sid ∈ sockets.
Proof.
  intros Hio. unfold emitToAll. rewrite Hio.
  rewrite list_elem_of_fmap. split.
  - intros (sid' & [= ->] & Hin). by apply elem_of_elements in Hin.
  - intros Hin. exists sid. split; [done|]. by apply elem_of_elements.
Qed.

Lemma emitToAll_ignores_subscribers (this : SocketService.t)
    (subs : gmap UUID (gset SocketId)) (event : Event) :
  emitToAll (set_busSubscribers subs this) event = emitToAll this event.
Proof. reflexivity. Qed.
End Hub.

(** ** What the handlers push *)

Section PushRules.
Import SocketService LocationController.

Context (hub : SocketService.t) (P : Event -> Prop).

Lemma pushes_silent {A} (m : M A) :
  (forall s, sent (m s).1 = sent s) -> Pushes hub P m.
Proof.
  intros Hm s. exists []. rewrite Hm. cbn. by rewrite app_nil_r.
Qed.

Lemma pushes_bind {A B} (m : M A) (f : A -> M B) :
  Pushes hub P m -> (forall a, Pushes hub P (f a)) -> Pushes hub P (m ≫= f).
Proof.
  intros Hm Hf s. destruct (Hm s) as (ev1 & Hs1 & HP1).
  unfold mbind, M_bind. destruct (m s) as [s' [a|res|e]]; cbn in Hs1.
  - destruct (Hf a s') as (ev2 & Hs2 & HP2). exists (ev1 ++ ev2).
    rewrite Hs2, Hs1, fmap_app, join_app, app_assoc. split; [done|].
    by apply Forall_app.
  - by exists ev1.
  - by exists ev1.
Qed.

Lemma pushes_push (event : Event) :
  P event -> Pushes hub P (push (emitToAll hub event)).
Proof.
  intros HP s. exists [event]. cbn. rewrite app_nil_r. split; [done|].
  by constructor.
Qed.

Lemma pushes_replyIf (c : bool) (res : Response) :
  Pushes hub P (replyIf c res).
Proof. apply pushes_silent. intros s. by destruct c. Qed.

Lemma pushes_await {A} (r : Result A) : Pushes hub P (await r).
Proof. apply pushes_silent. intros s. by destruct r. Qed.

Lemma pushes_when (c : bool) (m : M unit) :
  Pushes hub P m -> Pushes hub P (when c m).
Proof. intros Hm. destruct c; [done|]. by apply pushes_silent. Qed.

Lemma pushes_handler (body : M Response)
    (onError : SequelizeError -> Response) (s : State) :
  Pushes hub P body ->
  exists events,
    sent (handler body onError s).1 =
      sent s ++ mjoin (emitToAll hub <$> events) /\
    Forall P events.
Proof.
  intros Hbody. destruct (Hbody s) as (events & Hs & HP).
  exists events. split; [|done]. rewrite <- Hs. unfold handler.
  by destruct (body s) as [s' [a|res|e]].
Qed.
End PushRules.

Ltac pushes :=
  repeat first
    [ apply pushes_replyIf | apply pushes_await
    | apply pushes_when
    | apply pushes_bind; [|intros]
    | by apply pushes_silent
    | by apply pushes_push; eauto
    | case_match ].

Section Broadcast.
Import SocketService LocationController.

Context (hub : SocketService.t) (now : R).

Lemma startLocationSharing_pushes (req : StartRequest) :
  Pushes hub (isStarted req) (startLocationSharing_body hub now req).
Proof. unfold startLocationSharing_body, isStarted. cbv zeta. pushes. Qed.

Lemma stopLocationSharing_pushes (req : StopRequest) :
  Pushes hub (isStopped req) (stopLocationSharing_body hub now req).
Proof. unfold stopLocationSharing_body, isStopped. cbv zeta. pushes. Qed.

Lemma updateLocation_pushes (req : UpdateRequest) :
  Pushes hub (isUpdate req) (updateLocation_body hub now req).
Proof.
  unfold updateLocation_body, isUpdate. cbv zeta. pushes.
  all: apply pushes_push; eauto 10.
Qed.
End Broadcast.

(** ** The live position store: running the handlers *)

Ltac run_monad :=
  cbv [LocationController.handler mbind LocationController.M_bind mret
       LocationController.M_ret LocationController.replyIf
       LocationController.when LocationController.reply
       LocationController.throw LocationController.getDb
       LocationController.putDb LocationController.push
       LocationController.await].

Section Handlers.
Local Open Scope R_scope.
Import SocketService LocationController.

Context (hub : SocketService.t) (now : R).

#[local] Arguments LiveBusLocation.updateLocation : simpl never.
#[local] Arguments LiveBusLocation.save : simpl never.
#[local] Arguments TripLog.findOne : simpl never.

Lemma findByBusId_Some (table : LiveBusLocation.Table) (bus : UUID)
    (location : LiveBusLocation.t) :
  LiveBusLocation.findByBusId table bus = Some location <->
  table !! bus = Some location /\
  LiveBusLocation.isLocationSharing location = true.
Proof.
  unfold LiveBusLocation.findByBusId.
  destruct (table !! bus) as [row|]; [|split; [done|intros [? _]; done]].
  destruct (LiveBusLocation.isLocationSharing row) eqn:Hrow.
  - split; [intros [= ->]; done|intros [[= ->] _]; done].
  - split; [done|]. intros [[= ->] Hs]. congruence.
Qed.

(** The three refusals of [startLocationSharing] the specification
    names. *)
Lemma startLocationSharing_refuses (req : StartRequest) (s : State)
    (bus : Bus.t) :
  startValid req = true ->
  buses (db s) !! start_busId req = Some bus ->
  (Bus.driverId bus <> Some (start_user req) ->
   startLocationSharing hub now req s = (s, Failure 403 "Access denied")) /\
  (Bus.driverId bus = Some (start_user req) -> Bus.isActive bus = false ->
   startLocationSharing hub now req s = (s, Failure 400 "Bus inactive")) /\
  (Bus.driverId bus = Some (start_user req) -> Bus.isActive bus = true ->
   forall location,
     LiveBusLocation.findByBusId (liveLocations (db s)) (start_busId req)
       = Some location ->
     startLocationSharing hub now req s = (s, Failure 400 "Already sharing")).
Proof.
  intros Hvalid Hbus.
  assert (Hne : start_busId req <> EmptyString).
  { intros Heq. unfold startValid in Hvalid. rewrite Heq in Hvalid.
    discriminate. }
  unfold startLocationSharing, startLocationSharing_body. cbv zeta.
  rewrite Hvalid, (bool_decide_eq_false_2 _ Hne).
  split; [|split].
  - intros Hdriver. run_monad. cbn. rewrite Hbus.
    by rewrite (bool_decide_eq_false_2 _ Hdriver).
  - intros Hdriver Hactive. run_monad. cbn. rewrite Hbus.
    by rewrite (bool_decide_eq_true_2 _ Hdriver), Hactive.
  - intros Hdriver Hactive location Hloc. run_monad. cbn. rewrite Hbus.
    rewrite (bool_decide_eq_true_2 _ Hdriver), Hactive. cbn.
    rewrite Hloc. apply findByBusId_Some in Hloc as [_ ->]. done.
Qed.

(** A start on a bus that has no row yet: the trip is opened, the row is
    created sharing, the start is broadcast. *)
Lemma startLocationSharing_fresh (req : StartRequest) (s : State)
    (bus : Bus.t) (route : UUID) :
  startValid req = true ->
  buses (db s) !! start_busId req = Some bus ->
  Bus.driverId bus = Some (start_user req) ->
  Bus.isActive bus = true ->
  liveLocations (db s) !! start_busId req = None ->
  start_routeId req = None ->
  Bus.currentRouteId bus = Some route ->
  route <> EmptyString ->
  route ∈ routes (db s) ->
  startLocationSharing hub now req s =
    ({| db :=
          set_liveLocations
            (<[start_busId req :=
                 {| LiveBusLocation.busId := start_busId req;
                    LiveBusLocation.driverId := start_user req;
                    LiveBusLocation.latitude := 0;
                    LiveBusLocation.longitude := 0;
                    LiveBusLocation.speedKmh := None;
                    LiveBusLocation.heading := None;
                    LiveBusLocation.accuracyMeters := None;
                    LiveBusLocation.isLocationSharing := true;
                    LiveBusLocation.currentRouteId := Some route;
                    LiveBusLocation.nextStopId := None;
                    LiveBusLocation.distanceToNextStop := None;
                    LiveBusLocation.etaToNextStop := None;
                    LiveBusLocation.tripStartedAt := Some now;
                    LiveBusLocation.lastUpdated := now |}]>
               (liveLocations (db s)))
            (set_tripLogs
               (tripLogs (db s) ++
                [{| TripLog.busId := start_busId req;
                    TripLog.driverId := start_user req;
                    TripLog.routeId := route;
                    TripLog.startedAt := now;
                    TripLog.endedAt := None;
                    TripLog.totalDistanceKm := None;
                    TripLog.totalDurationMinutes := None;
                    TripLog.averageSpeedKmh := None;
                    TripLog.status := TripLog.active |}])
               (db s));
        sent := sent s ++
                emitToAll hub
                  (locationSharingStarted (start_busId req) (start_user req)
                     (length (tripLogs (db s)))) |},
     Json (started (length (tripLogs (db s))) (start_busId req) true)).
Proof.
  intros Hvalid Hbus Hdriver Hactive Hrow Hnoroute Hroute Hne Hin.
  assert (Hbne : start_busId req <> EmptyString).
  { intros Heq. unfold startValid in Hvalid. rewrite Heq in Hvalid.
    discriminate. }
  unfold startLocationSharing, startLocationSharing_body,
    LiveBusLocation.findByBusId, LiveBusLocation.create.
  cbv zeta. run_monad.
  do 6 (cbn;
    rewrite ?Hvalid, ?(bool_decide_eq_false_2 _ Hbne), ?Hnoroute, ?Hbus,
      ?(bool_decide_eq_true_2 _ Hdriver), ?Hactive, ?Hrow, ?Hroute,
      ?(bool_decide_eq_false_2 _ Hne), ?(bool_decide_eq_true_2 _ Hin)).
  reflexivity.
Qed.

(** A start on a bus whose row is left from an earlier session: no active
    session is found, the trip is opened, then the insert of the row hits
    the unique index on the bus and the handler answers "Duplicate entry".
    The row stays as it was, and the trip just opened stays active. *)
Lemma startLocationSharing_stale_row (req : StartRequest) (s : State)
    (bus : Bus.t) (route : UUID) (row : LiveBusLocation.t) :
  startValid req = true ->
  buses (db s) !! start_busId req = Some bus ->
  Bus.driverId bus = Some (start_user req) ->
  Bus.isActive bus = true ->
  liveLocations (db s) !! start_busId req = Some row ->
  LiveBusLocation.isLocationSharing row = false ->
  start_routeId req = None ->
  Bus.currentRouteId bus = Some route ->
  route <> EmptyString ->
  route ∈ routes (db s) ->
  startLocationSharing hub now req s =
    ({| db :=
          set_tripLogs
            (tripLogs (db s) ++
             [{| TripLog.busId := start_busId req;
                 TripLog.driverId := start_user req;
                 TripLog.routeId := route;
                 TripLog.startedAt := now;
                 TripLog.endedAt := None;
                 TripLog.totalDistanceKm := None;
                 TripLog.totalDurationMinutes := None;
                 TripLog.averageSpeedKmh := None;
                 TripLog.status := TripLog.active |}])
            (db s);
        sent := sent s |},
     Failure 400 "Duplicate entry").
Proof.
  intros Hvalid Hbus Hdriver Hactive Hrow Hidle Hnoroute Hroute Hne Hin.
  assert (Hbne : start_busId req <> EmptyString).
  { intros Heq. unfold startValid in Hvalid. rewrite Heq in Hvalid.
    discriminate. }
  unfold startLocationSharing, startLocationSharing_body,
    LiveBusLocation.findByBusId, LiveBusLocation.create.
  cbv zeta. run_monad.
  do 6 (cbn;
    rewrite ?Hvalid, ?(bool_decide_eq_false_2 _ Hbne), ?Hnoroute, ?Hbus,
      ?(bool_decide_eq_true_2 _ Hdriver), ?Hactive, ?Hrow, ?Hidle, ?Hroute,
      ?(bool_decide_eq_false_2 _ Hne), ?(bool_decide_eq_true_2 _ Hin)).
  reflexivity.
Qed.

(** A stop of an active session by the bus's driver: the flag is cleared,
    the row stays, the active trip (if one is found) is closed, the stop is
    broadcast. *)
Lemma stopLocationSharing_active (req : StopRequest) (s : State)
    (bus : Bus.t) (location : LiveBusLocation.t) :
  stop_busId req <> EmptyString ->
  buses (db s) !! stop_busId req = Some bus ->
  Bus.driverId bus = Some (stop_user req) ->
  LiveBusLocation.findByBusId (liveLocations (db s)) (stop_busId req)
    = Some location ->
  stopLocationSharing hub now req s =
    (let live :=
       (LiveBusLocation.save now (liveLocations (db s))
          (LiveBusLocation.set_isLocationSharing false location)).1 in
     let d := set_liveLocations live (db s) in
     {| db :=
          match TripLog.findOne (tripLogs (db s)) (stop_busId req)
                  (stop_user req) with
          | Some (i, trip) =>
              set_tripLogs (<[i := TripLog.endTrip now trip]> (tripLogs d)) d
          | None => d
          end;
        sent := sent s ++
                emitToAll hub
                  (locationSharingStopped (stop_busId req) (stop_user req)) |},
     Json stopped).
Proof.
  intros Hbne Hbus Hdriver Hloc.
  pose proof Hloc as Hsharing. apply findByBusId_Some in Hsharing as [_ Hsharing].
  unfold stopLocationSharing, stopLocationSharing_body.
  cbv zeta. run_monad.
  do 4 (cbn;
    rewrite ?(bool_decide_eq_false_2 _ Hbne), ?Hbus,
      ?(bool_decide_eq_true_2 _ Hdriver), ?Hloc, ?Hsharing).
  destruct (TripLog.findOne (tripLogs (db s)) (stop_busId req) (stop_user req))
    as [[i trip]|]; reflexivity.
Qed.

(** A valid position report by the driver of an active session: the row is
    written and recomputed, then the append to the position log is refused
    (it carries no trip), so the handler answers 500 with the log unchanged
    and nothing broadcast. *)
Lemma updateLocation_accepted (req : UpdateRequest) (s : State)
    (location : LiveBusLocation.t) :
  updateValid req = true ->
  LiveBusLocation.findByBusId (liveLocations (db s)) (update_busId req)
    = Some location ->
  LiveBusLocation.driverId location = update_user req ->
  updateLocation hub now req s =
    ({| db :=
          set_liveLocations
            (LiveBusLocation.updateLocation now (busStops (db s))
               (liveLocations (db s)) (update_busId req)
               (locationData req location)).1
            (db s);
        sent := sent s |},
     Failure 500 "Internal server error").
Proof.
  intros Hvalid Hloc Hdriver.
  pose proof Hloc as Hsharing. apply findByBusId_Some in Hsharing as [_ Hsharing].
  unfold updateLocation, updateLocation_body.
  cbv zeta. run_monad.
  do 4 (cbn;
    rewrite ?Hvalid, ?Hloc, ?Hsharing, ?(bool_decide_eq_true_2 _ Hdriver)).
  destruct (LiveBusLocation.updateLocation now (busStops (db s))
              (liveLocations (db s)) (update_busId req)
              (locationData req location)) as [live updatedLocation].
  reflexivity.
Qed.
End Handlers.

(** ** Distances along the equator *)

Section Equator.
Local Open Scope R_scope.

Lemma BusStop_distance_equator (stop : BusStop.t) (lng : R) :
  BusStop.latitude stop = 0 ->
  - 180 < lng - BusStop.longitude stop < 180 ->
  BusStop.calculateDistanceTo stop 0 lng =
  6371000 * (Rabs (lng - BusStop.longitude stop) * (PI / 180)).
Proof.
  intros Hlat Hlng. unfold BusStop.calculateDistanceTo, BusStop.toRadians.
  cbv zeta. rewrite Hlat.
  replace ((0 - 0) * (PI / 180) / 2) with 0 by lra.
  replace (0 * (PI / 180)) with 0 by lra.
  rewrite sin_0, cos_0.
  set (y := (lng - BusStop.longitude stop) * (PI / 180) / 2).
  replace (0 * 0 + 1 * 1 * sin y * sin y) with (sin y * sin y) by lra.
  pose proof PI_RGT_0 as Hpi.
  rewrite haversine_angle by (unfold y; split; nra).
  unfold y.
  replace ((lng - BusStop.longitude stop) * (PI / 180) / 2)
    with ((lng - BusStop.longitude stop) * (PI / 360)) by lra.
  rewrite Rabs_mult, (Rabs_right (PI / 360)) by lra. lra.
Qed.

Lemma BusStop_distance_here (stop : BusStop.t) :
  BusStop.calculateDistanceTo stop (BusStop.latitude stop)
    (BusStop.longitude stop) = 0.
Proof.
  unfold BusStop.calculateDistanceTo, BusStop.toRadians. cbv zeta.
  rewrite haversine_term_diag.
  rewrite sqrt_0. replace (1 - 0) with 1 by lra. rewrite sqrt_1.
  rewrite Math_atan2_0_1. lra.
Qed.
End Equator.

(** ** Recomputing the next stop and the ETA *)

Section Recompute.
Local Open Scope R_scope.
Import LiveBusLocation.

Context (now : R) (stops : BusStop.Table).

(** When the locator finds no stop, rejects, or there is no route,
    [updateNextStop] returns the record as it was: the ETA it holds is not
    touched, whatever the speed now is. *)
Lemma updateNextStop_nothing_found (this : LiveBusLocation.t) :
  match currentRouteId this with
  | Some route =>
      route = EmptyString \/
      BusStop.findNextStop stops route (latitude this) (longitude this)
        = Resolved None \/
      exists e, BusStop.findNextStop stops route (latitude this)
                  (longitude this) = Rejected e
  | None => True
  end ->
  updateNextStop now stops this = this.
Proof.
  unfold updateNextStop. destruct (currentRouteId this) as [route|]; [|done].
  cbn. intros [->|[Hnone|[e He]]].
  - by rewrite bool_decide_eq_true_2.
  - rewrite Hnone. by destruct (bool_decide (route = EmptyString)).
  - rewrite He. by destruct (bool_decide (route = EmptyString)).
Qed.

(** When the locator finds a stop and the speed is positive, the ETA is
    set from the distance to that stop. *)
Lemma updateNextStop_found (this : LiveBusLocation.t) (route : UUID)
    (stop : BusStop.t) (v : R) :
  currentRouteId this = Some route -> route <> EmptyString ->
  BusStop.findNextStop stops route (latitude this) (longitude this)
    = Resolved (Some stop) ->
  BusStop.id stop <> EmptyString ->
  BusStop.findByPk stops (BusStop.id stop) = Resolved (Some stop) ->
  speedKmh this = Some v -> 0 < v ->
  exists d,
    updateNextStop now stops this =
    set_etaToNextStop (Some (now + d / 1000 / v * 60 * 60 * 1000))
      (set_distanceToNextStop (Some d)
         (set_nextStopId (Some (BusStop.id stop)) this)).
Proof.
  intros Hroute Hne Hfound Hid Hpk Hspeed Hv.
  unfold updateNextStop. rewrite Hroute. cbn.
  rewrite (bool_decide_eq_false_2 _ Hne), Hfound.
  assert (Hv0 : v <> 0) by lra. assert (Hvle : ~ v <= 0) by lra.
  unfold updateETA.
  do 4 (cbn;
    rewrite ?(bool_decide_eq_false_2 _ Hid), ?Hspeed, ?Hpk,
      ?(bool_decide_eq_false_2 _ Hv0), ?(bool_decide_eq_false_2 _ Hvle),
      ?(bool_decide_eq_true_2 _ Hv)).
  eexists. reflexivity.
Qed.

(** [updateLocation] on a bus that has a row: the upsert, then the
    recomputation on what it returned, then the save. *)
Lemma updateLocation_existing (table : Table) (bus : UUID)
    (data : LocationData) (old : LiveBusLocation.t) :
  table !! bus = Some old ->
  updateLocation now stops table bus data =
  save now (upsert now table bus data).1.1
    (updateNextStop now stops (upsert now table bus data).1.2).
Proof.
  intros Hold. unfold updateLocation, upsert. rewrite Hold. reflexivity.
Qed.
End Recompute.

(** ** What a position report leaves in the store *)

Section Reports.
Local Open Scope R_scope.
Import SocketService LocationController.

Context (hub : SocketService.t) (now : R).

(** The recomputation touches only the next stop, its distance and the
    ETA. *)
Lemma updateNextStop_keeps_position (stops : BusStop.Table)
    (this : LiveBusLocation.t) :
  let this' := LiveBusLocation.updateNextStop now stops this in
  LiveBusLocation.busId this' = LiveBusLocation.busId this /\
  LiveBusLocation.latitude this' = LiveBusLocation.latitude this /\
  LiveBusLocation.longitude this' = LiveBusLocation.longitude this /\
  LiveBusLocation.speedKmh this' = LiveBusLocation.speedKmh this /\
  LiveBusLocation.heading this' = LiveBusLocation.heading this /\
  LiveBusLocation.accuracyMeters this' = LiveBusLocation.accuracyMeters this /\
  LiveBusLocation.isLocationSharing this' =
    LiveBusLocation.isLocationSharing this.
Proof.
  cbv zeta. unfold LiveBusLocation.updateNextStop, LiveBusLocation.updateETA.
  repeat case_match; cbn; done.
Qed.

(** The row of the bus after an accepted report, and everything else the
    handler leaves behind. *)
Lemma updateLocation_persists (req : UpdateRequest) (s : State)
    (location : LiveBusLocation.t) :
  updateValid req = true ->
  LiveBusLocation.findByBusId (liveLocations (db s)) (update_busId req)
    = Some location ->
  LiveBusLocation.driverId location = update_user req ->
  let s' := (updateLocation hub now req s).1 in
  let upserted :=
    LiveBusLocation.written now (update_busId req) (locationData req location)
      (Some location) in
  liveLocations (db s') !! update_busId req =
    Some (LiveBusLocation.set_lastUpdated now
            (LiveBusLocation.updateNextStop now (busStops (db s)) upserted)) /\
  (updateLocation hub now req s).2 = Failure 500 "Internal server error" /\
  locationHistory (db s') = locationHistory (db s) /\
  tripLogs (db s') = tripLogs (db s) /\
  busStops (db s') = busStops (db s) /\
  buses (db s') = buses (db s) /\
  sent s' = sent s.
Proof.
  intros Hvalid Hloc Hdriver. cbv zeta.
  rewrite (updateLocation_accepted hub now req s location Hvalid Hloc Hdriver).
  apply findByBusId_Some in Hloc as [Hrow _].
  rewrite (updateLocation_existing now _ _ _ _ _ Hrow).
  cbn [fst snd db sent set_liveLocations liveLocations locationHistory
       tripLogs busStops buses].
  repeat split. unfold LiveBusLocation.save, LiveBusLocation.upsert.
  rewrite Hrow. cbn [fst snd].
  destruct (updateNextStop_keeps_position (busStops (db s))
    (LiveBusLocation.written now (update_busId req)
       (locationData req location) (Some location))) as [Hbus _].
  cbv zeta in Hbus. cbn [LiveBusLocation.set_lastUpdated LiveBusLocation.busId].
  rewrite Hbus. cbn [LiveBusLocation.written LiveBusLocation.busId].
  apply lookup_insert_eq.
Qed.
End Reports.

(** ** The one-stop route, step by step *)

Section Day.
Local Open Scope R_scope.
Import SocketService LocationController Scenario.

Lemma gate_far : 100 < BusStop.calculateDistanceTo gate 0 0.
Proof.
  rewrite BusStop_distance_equator by (cbn; first [reflexivity|lra]).
  cbn [BusStop.longitude gate].
  rewrite Rabs_left by lra. pose proof PI2_3_2. lra.
Qed.

Lemma gate_here : BusStop.calculateDistanceTo gate 0 0.01 = 0.
Proof. exact (BusStop_distance_here gate). Qed.

Lemma stops_of_routeA :
  BusStop.findAll (busStops db0) routeA = Resolved [gate].
Proof. reflexivity. Qed.

Lemma next_stop_from_origin :
  BusStop.findNextStop (busStops db0) routeA 0 0 = Resolved (Some gate).
Proof.
  unfold BusStop.findNextStop. rewrite stops_of_routeA. cbn.
  unfold BusStop.nextStopStep. cbn.
  by rewrite (bool_decide_eq_true_2 _ gate_far).
Qed.

Lemma no_next_stop_at_gate :
  BusStop.findNextStop (busStops db0) routeA 0 0.01 = Resolved None.
Proof.
  unfold BusStop.findNextStop. rewrite stops_of_routeA. cbn.
  unfold BusStop.nextStopStep. cbn. rewrite gate_here.
  by rewrite (bool_decide_eq_false_2 (100 < 0)) by lra.
Qed.

Lemma gate_by_key :
  BusStop.findByPk (busStops db0) stopA = Resolved (Some gate).
Proof. reflexivity. Qed.

Lemma report1_valid : updateValid report1 = true.
Proof.
  unfold updateValid, optional. cbn.
  rewrite !bool_decide_eq_true_2 by lra. reflexivity.
Qed.

Lemma report2_valid : updateValid report2 = true.
Proof.
  unfold updateValid, optional. cbn.
  rewrite !bool_decide_eq_true_2 by lra. reflexivity.
Qed.

Lemma afterStart_state :
  afterStart =
  ({| db := set_liveLocations {[ busA := row0 ]}
              (set_tripLogs
                 [{| TripLog.busId := busA; TripLog.driverId := driverA;
                     TripLog.routeId := routeA; TripLog.startedAt := 0;
                     TripLog.endedAt := None; TripLog.totalDistanceKm := None;
                     TripLog.totalDurationMinutes := None;
                     TripLog.averageSpeedKmh := None;
                     TripLog.status := TripLog.active |}] db0);
      sent := [("observer-1", locationSharingStarted busA driverA 0)] |},
   Json (started 0 busA true)).
Proof. vm_compute. reflexivity. Qed.

Lemma afterReport1_state :
  exists dist eta,
    liveLocations (db afterReport1.1) !! busA = Some (row1 dist eta) /\
    afterReport1.2 = Failure 500 "Internal server error" /\
    locationHistory (db afterReport1.1) = [] /\
    busStops (db afterReport1.1) = busStops db0 /\
    sent afterReport1.1 = sent afterStart.1.
Proof.
  unfold afterReport1. rewrite afterStart_state. cbn [fst].
  match goal with |- context [updateLocation _ _ _ ?s] => set (s1 := s) end.
  assert (Hfind : LiveBusLocation.findByBusId (liveLocations (db s1)) busA
                  = Some row0) by (vm_compute; reflexivity).
  destruct (updateLocation_persists hub0 1000 report1 s1 row0
              report1_valid Hfind eq_refl)
    as (Hrow & Hres & Hhist & _ & Hstops & _ & Hsent).
  cbv zeta in Hrow, Hhist, Hstops, Hsent.
  assert (Hwritten :
    LiveBusLocation.written 1000 busA (locationData report1 row0) (Some row0)
    = {| LiveBusLocation.busId := busA;
         LiveBusLocation.driverId := driverA;
         LiveBusLocation.latitude := 0;
         LiveBusLocation.longitude := 0;
         LiveBusLocation.speedKmh := Some 20;
         LiveBusLocation.heading := Some 90;
         LiveBusLocation.accuracyMeters := Some 5;
         LiveBusLocation.isLocationSharing := true;
         LiveBusLocation.currentRouteId := Some routeA;
         LiveBusLocation.nextStopId := None;
         LiveBusLocation.distanceToNextStop := None;
         LiveBusLocation.etaToNextStop := None;
         LiveBusLocation.tripStartedAt := Some 0;
         LiveBusLocation.lastUpdated := 1000 |}).
  { unfold LiveBusLocation.written, locationData. cbn.
    rewrite (bool_decide_eq_false_2 (20 = 0)) by lra. reflexivity. }
  cbn [update_busId report1] in Hrow. rewrite Hwritten in Hrow.
  match type of Hrow with
  | context [LiveBusLocation.updateNextStop _ _ ?r] => set (upserted := r) in *
  end.
  destruct (updateNextStop_found 1000 (busStops (db s1)) upserted routeA gate 20)
    as [dist Hnext]; try done.
  - exact next_stop_from_origin.
  - lra.
  - rewrite Hnext in Hrow.
    exists dist, (1000 + dist / 1000 / 20 * 60 * 60 * 1000).
    repeat split; done.
Qed.

Lemma afterReport2_state :
  exists dist eta,
    liveLocations (db afterReport1.1) !! busA = Some (row1 dist eta) /\
    BusStop.findNextStop (busStops (db afterReport1.1)) routeA 0 0.01
      = Resolved None /\
    liveLocations (db afterReport2.1) !! busA = Some (row2 dist eta) /\
    afterReport2.2 = Failure 500 "Internal server error" /\
    locationHistory (db afterReport2.1) = [] /\
    sent afterReport2.1 = sent afterStart.1.
Proof.
  destruct afterReport1_state
    as (dist & eta & Hrow1 & _ & Hhist1 & Hstops1 & Hsent1).
  exists dist, eta. unfold afterReport2.
  generalize dependent (afterReport1.1). intros s2 Hrow1 Hhist1 Hstops1 Hsent1.
  assert (Hfind : LiveBusLocation.findByBusId (liveLocations (db s2)) busA
                  = Some (row1 dist eta))
    by (apply findByBusId_Some; split; [exact Hrow1|reflexivity]).
  assert (Hnone : BusStop.findNextStop (busStops (db s2)) routeA 0 0.01
                  = Resolved None)
    by (rewrite Hstops1; exact no_next_stop_at_gate).
  destruct (updateLocation_persists hub0 2000 report2 s2 (row1 dist eta)
              report2_valid Hfind eq_refl)
    as (Hrow & Hres & Hhist & _ & _ & _ & Hsent).
  cbv zeta in Hrow, Hhist, Hsent.
  assert (Hwritten :
    LiveBusLocation.written 2000 busA (locationData report2 (row1 dist eta))
      (Some (row1 dist eta))
    = row2 dist eta).
  { unfold LiveBusLocation.written, locationData. cbn.
    rewrite (bool_decide_eq_true_2 (0 = 0)) by lra. reflexivity. }
  cbn [update_busId report2] in Hrow. rewrite Hwritten in Hrow.
  rewrite updateNextStop_nothing_found in Hrow
    by (cbn; right; left; exact Hnone).
  split; [exact Hrow1|]. split; [exact Hnone|]. split; [exact Hrow|].
  split; [exact Hres|]. split; [by rewrite Hhist|by rewrite Hsent].
Qed.
End Day.

(** ** The claims on the store, on the one-stop route *)

Section DayClaims.
Local Open Scope R_scope.
Import SocketService LocationController Scenario.

(** C1: a start, a stop and a second start by the assigned driver of an
    active bus.  The first start and the stop succeed; the second start
    finds no active session, opens a trip, and is then refused with
    "Duplicate entry" by the unique index on the bus, because the row of the
    first session is still in the table.  The row stays not sharing, the
    trip just opened stays active, nothing is broadcast. *)
Theorem restart_after_stop_is_refused :
  afterStart.2 = Json (started 0 busA true) /\
  afterStop.2 = Json stopped /\
  LiveBusLocation.isLocationSharing <$> liveLocations (db afterStop.1) !! busA
    = Some false /\
  LiveBusLocation.findByBusId (liveLocations (db afterStop.1)) busA = None /\
  TripLog.status <$> tripLogs (db afterStop.1) = [TripLog.completed] /\
  afterRestart.2 = Failure 400 "Duplicate entry" /\
  LiveBusLocation.isLocationSharing <$> liveLocations (db afterRestart.1) !! busA
    = Some false /\
  TripLog.status <$> tripLogs (db afterRestart.1)
    = [TripLog.completed; TripLog.active] /\
  sent afterRestart.1 = sent afterStop.1.
Proof. repeat split; vm_compute; reflexivity. Qed.

(** C2: after a report at 20 km/h from the origin and a report at speed 0
    from the stop itself, the stored row of the sharing bus has speed 0 and
    a next stop, and still holds the ETA computed by the first report. *)
Theorem halted_bus_keeps_its_eta :
  exists row eta,
    liveLocations (db afterReport2.1) !! busA = Some row /\
    LiveBusLocation.isLocationSharing row = true /\
    LiveBusLocation.nextStopId row = Some stopA /\
    LiveBusLocation.speedKmh row = Some 0 /\
    LiveBusLocation.etaToNextStop row = Some eta.
Proof.
  destruct afterReport2_state as (dist & eta & _ & _ & Hrow & _).
  exists (row2 dist eta), eta. by repeat split.
Qed.

(** C6: each of the two reports is answered with status 500; its
    coordinates and readings are in the stored row, but the position log
    is still empty and nothing was broadcast; at the second report the stop
    locator finds nothing, and the row keeps the ETA of the first report
    instead of a null one. *)
Theorem report_is_stored_but_not_logged :
  afterReport1.2 = Failure 500 "Internal server error" /\
  locationHistory (db afterReport1.1) = [] /\
  sent afterReport1.1 = sent afterStart.1 /\
  exists dist eta,
    liveLocations (db afterReport1.1) !! busA = Some (row1 dist eta) /\
    BusStop.findNextStop (busStops (db afterReport1.1)) routeA
      (update_latitude report2) (update_longitude report2) = Resolved None /\
    liveLocations (db afterReport2.1) !! busA = Some (row2 dist eta) /\
    LiveBusLocation.etaToNextStop (row2 dist eta) = Some eta /\
    afterReport2.2 = Failure 500 "Internal server error" /\
    locationHistory (db afterReport2.1) = [] /\
    sent afterReport2.1 = sent afterStart.1.
Proof.
  destruct afterReport1_state as (dist1 & eta1 & _ & Hres1 & Hhist1 & _ & Hsent1).
  do 3 (split; [done|]).
  destruct afterReport2_state
    as (dist & eta & Hrow1 & Hnone & Hrow2 & Hres2 & Hhist2 & Hsent2).
  exists dist, eta. by repeat split.
Qed.
End DayClaims.

(** ** What reaches the observers *)

Section Fanout.
Local Open Scope R_scope.
Import SocketService LocationController Scenario.

#[local] Arguments LiveBusLocation.updateLocation : simpl never.
#[local] Arguments LiveBusLocation.save : simpl never.
#[local] Arguments TripLog.findOne : simpl never.

(** Every start that is answered with success went down the same path:
    the request is valid, the bus is the driver's and active, it has no
    row yet, and the route of the session is known. *)
Lemma startLocationSharing_started (hub : SocketService.t) (now : R)
    (req : StartRequest) (s : State) (body : Body) :
  (startLocationSharing hub now req s).2 = Json body ->
  exists bus route,
    startValid req = true /\
    buses (db s) !! start_busId req = Some bus /\
    Bus.driverId bus = Some (start_user req) /\
    Bus.isActive bus = true /\
    liveLocations (db s) !! start_busId req = None /\
    finalRouteId req bus = Some route /\
    startLocationSharing hub now req s =
      (afterStarted hub now req bus route s,
       Json (started (length (tripLogs (db s))) (start_busId req) true)).
Proof.
  unfold startLocationSharing, startLocationSharing_body,
    LiveBusLocation.findByBusId, LiveBusLocation.create, TripLog.create,
    afterStarted, sessionRow, sessionTrip.
  cbv zeta. run_monad.
  destruct (startValid req) eqn:Hvalid; cbn; [|done].
  destruct (bool_decide (start_busId req = EmptyString)); cbn; [done|].
  destruct (buses (db s) !! start_busId req) as [bus|] eqn:Hbus; cbn; [|done].
  destruct (decide (Bus.driverId bus = Some (start_user req))) as [Hd|Hd];
    [rewrite (bool_decide_eq_true_2 _ Hd)|rewrite (bool_decide_eq_false_2 _ Hd)];
    cbn; [|done].
  destruct (Bus.isActive bus) eqn:Hactive; cbn; [|done].
  fold (finalRouteId req bus).
  destruct (finalRouteId req bus) as [route|] eqn:Hroute.
  2:{ destruct (liveLocations (db s) !! start_busId req) as [row|]; cbn;
        [|done].
      destruct (LiveBusLocation.isLocationSharing row) eqn:Hs; cbn;
        rewrite ?Hs; done. }
  destruct (liveLocations (db s) !! start_busId req) as [row|] eqn:Hrow.
  { destruct (LiveBusLocation.isLocationSharing row) eqn:Hs; cbn;
      rewrite ?Hs; [done|].
    by destruct (_ && _). }
  cbn.
  match goal with
  | |- context [if ?c then (fun s0 : State => (s0, Return (Failure 404 _)))
                else _] => destruct c
  end; cbn; [done|].
  intros _. exists bus, route. do 6 (split; [done|]).
  by destruct (_ && _).
Qed.

(** Every stop that is answered with success found the bus with its
    driver and an active session. *)
Lemma stopLocationSharing_stopped (hub : SocketService.t) (now : R)
    (req : StopRequest) (s : State) (body : Body) :
  (stopLocationSharing hub now req s).2 = Json body ->
  exists bus location,
    stop_busId req <> EmptyString /\
    buses (db s) !! stop_busId req = Some bus /\
    Bus.driverId bus = Some (stop_user req) /\
    LiveBusLocation.findByBusId (liveLocations (db s)) (stop_busId req)
      = Some location.
Proof.
  unfold stopLocationSharing, stopLocationSharing_body. cbv zeta. run_monad.
  destruct (decide (stop_busId req = EmptyString)) as [He|He];
    [rewrite (bool_decide_eq_true_2 _ He)|rewrite (bool_decide_eq_false_2 _ He)];
    cbn; [done|].
  destruct (buses (db s) !! stop_busId req) as [bus|] eqn:Hbus; cbn; [|done].
  destruct (decide (Bus.driverId bus = Some (stop_user req))) as [Hd|Hd];
    [rewrite (bool_decide_eq_true_2 _ Hd)|rewrite (bool_decide_eq_false_2 _ Hd)];
    cbn; [|done].
  destruct (LiveBusLocation.findByBusId (liveLocations (db s)) (stop_busId req))
    as [location|] eqn:Hloc; cbn; [|done].
  intros _. by exists bus, location.
Qed.

(** No request to [updateLocation] adds a message: a refused one returns
    early, an accepted one throws at the append to the position log,
    before the statement that emits. *)
Lemma updateLocation_is_silent (hub : SocketService.t) (now : R)
    (req : UpdateRequest) (s : State) :
  sent (updateLocation hub now req s).1 = sent s.
Proof.
  destruct (updateValid req) eqn:Hvalid.
  2:{ unfold updateLocation, updateLocation_body. cbv zeta. run_monad.
      by rewrite Hvalid. }
  destruct (LiveBusLocation.findByBusId (liveLocations (db s))
              (update_busId req)) as [location|] eqn:Hloc.
  2:{ unfold updateLocation, updateLocation_body. cbv zeta. run_monad.
      do 3 (cbn; rewrite ?Hvalid, ?Hloc). reflexivity. }
  destruct (decide (LiveBusLocation.driverId location = update_user req))
    as [Hdriver|Hdriver].
  - by rewrite (updateLocation_accepted hub now req s location).
  - pose proof Hloc as Hsharing.
    apply findByBusId_Some in Hsharing as [_ Hsharing].
    unfold updateLocation, updateLocation_body. cbv zeta. run_monad.
    do 4 (cbn; rewrite ?Hvalid, ?Hloc, ?Hsharing,
            ?(bool_decide_eq_false_2 _ Hdriver)).
    reflexivity.
Qed.

(** C8: of the three events only two are ever delivered.  A start and a
    stop that go through are broadcast by [emitToAll], once, to every
    socket the server holds open, whatever the interest sets hold, and no
    handler's outcome depends on the interest sets.  But no request to
    [updateLocation] delivers anything to anybody: an accepted position
    report writes the row and is then answered 500, because the append to
    the position log throws before the [locationUpdate] is emitted.  On
    the one-stop route the connected observer has received the start and
    nothing else after the first report, while the row already holds the
    reported position. *)
Theorem position_reports_are_not_broadcast (hub : SocketService.t)
    (now : R) (s : State) :
  (forall req body,
     (startLocationSharing hub now req s).2 = Json body ->
     sent (startLocationSharing hub now req s).1 =
       sent s ++
       emitToAll hub
         (locationSharingStarted (start_busId req) (start_user req)
            (length (tripLogs (db s))))) /\
  (forall req body,
     (stopLocationSharing hub now req s).2 = Json body ->
     sent (stopLocationSharing hub now req s).1 =
       sent s ++
       emitToAll hub
         (locationSharingStopped (stop_busId req) (stop_user req))) /\
  (forall req, exists events,
     sent (startLocationSharing hub now req s).1 =
       sent s ++ mjoin (emitToAll hub <$> events) /\
     Forall (isStarted req) events) /\
  (forall req, exists events,
     sent (stopLocationSharing hub now req s).1 =
       sent s ++ mjoin (emitToAll hub <$> events) /\
     Forall (isStopped req) events) /\
  (forall event sockets, io hub = Some sockets ->
     forall sid, (sid, event) ∈ emitToAll hub event <-> sid ∈ sockets) /\
  (forall subs event,
     emitToAll (set_busSubscribers subs hub) event = emitToAll hub event) /\
  (forall subs req,
     startLocationSharing (set_busSubscribers subs hub) now req s =
     startLocationSharing hub now req s) /\
  (forall subs req,
     stopLocationSharing (set_busSubscribers subs hub) now req s =
     stopLocationSharing hub now req s) /\
  (forall subs req,
     updateLocation (set_busSubscribers subs hub) now req s =
     updateLocation hub now req s) /\
  (forall req, sent (updateLocation hub now req s).1 = sent s) /\
  (forall req location,
     updateValid req = true ->
     LiveBusLocation.findByBusId (liveLocations (db s)) (update_busId req)
       = Some location ->
     LiveBusLocation.driverId location = update_user req ->
     (updateLocation hub now req s).2 = Failure 500 "Internal server error" /\
     exists row,
       liveLocations (db (updateLocation hub now req s).1) !! update_busId req
         = Some row /\
       LiveBusLocation.latitude row = update_latitude req /\
       LiveBusLocation.longitude row = update_longitude req) /\
  (io hub0 = Some {[ "observer-1" ]} /\
   afterStart.2 = Json (started 0 busA true) /\
   sent afterStart.1 = [("observer-1", locationSharingStarted busA driverA 0)] /\
   afterReport1.2 = Failure 500 "Internal server error" /\
   sent afterReport1.1 =
     [("observer-1", locationSharingStarted busA driverA 0)] /\
   exists row,
     liveLocations (db afterReport1.1) !! busA = Some row /\
     LiveBusLocation.latitude row = update_latitude report1 /\
     LiveBusLocation.longitude row = update_longitude report1 /\
     LiveBusLocation.speedKmh row = Some 20 /\
     LiveBusLocation.lastUpdated row = 1000).
Proof.
  split.
  { intros req body Hok.
    destruct (startLocationSharing_started hub now req s body Hok)
      as (bus & route & _ & _ & _ & _ & _ & _ & ->).
    reflexivity. }
  split.
  { intros req body Hok.
    destruct (stopLocationSharing_stopped hub now req s body Hok)
      as (bus & location & Hne & Hbus & Hdriver & Hloc).
    rewrite (stopLocationSharing_active hub now req s bus location) by done.
    cbv zeta. reflexivity. }
  split; [intros req; apply pushes_handler, startLocationSharing_pushes|].
  split; [intros req; apply pushes_handler, stopLocationSharing_pushes|].
  split; [intros event sockets Hio sid; by apply emitToAll_reaches|].
  do 4 (split; [reflexivity|]).
  split; [intros req; apply updateLocation_is_silent|].
  split.
  { intros req location Hvalid Hloc Hdriver.
    destruct (updateLocation_persists hub now req s location Hvalid Hloc Hdriver)
      as (Hrow & Hres & _).
    cbv zeta in Hrow. split; [exact Hres|]. eexists. split; [exact Hrow|].
    destruct (updateNextStop_keeps_position now (busStops (db s))
                (LiveBusLocation.written now (update_busId req)
                   (locationData req location) (Some location)))
      as (_ & Hlat & Hlng & _).
    cbv zeta in Hlat, Hlng. cbn [LiveBusLocation.set_lastUpdated
      LiveBusLocation.latitude LiveBusLocation.longitude].
    rewrite Hlat, Hlng. done. }
  split; [reflexivity|].
  rewrite afterStart_state. cbn [fst snd sent].
  split; [reflexivity|]. split; [reflexivity|].
  destruct afterReport1_state as (dist & eta & Hrow & Hres & _ & _ & Hsent).
  rewrite afterStart_state in Hsent. cbn [fst sent] in Hsent.
  split; [exact Hres|]. split; [exact Hsent|].
  exists (row1 dist eta). split; [exact Hrow|]. done.
Qed.
End Fanout.

(** * Further properties of the code *)

(** ** More on the estimator *)

Section EstimatorMore.
Local Open Scope R_scope.
Import ETACalculator.

Lemma calculateETA_no_distance (now buffer : R) (d speed : option R) :
  JS.not d || JS.le d 0 = true -> calculateETA now d speed buffer = noEstimate.
Proof. intros Hd. unfold calculateETA. by rewrite Hd. Qed.

Lemma calculateSmoothedETA_is_calculateETA (now : R)
    (samples : list (option R)) (d : option R) :
  exists speed, calculateSmoothedETA now samples d
                = calculateETA now d (Some speed) 2.
Proof.
  unfold calculateSmoothedETA. repeat case_match; eauto.
Qed.

(** X1: with an unknown, zero or negative distance every estimate is the
    empty one (no ETA, duration 0, not real-time, confidence low), whatever
    the speed, the buffer or the samples. *)
Theorem no_distance_no_estimate (now : R) (distance : option R) :
  (distance = None \/ exists d, distance = Some d /\ d <= 0) ->
  (forall speed buffer, calculateETA now distance speed buffer = noEstimate) /\
  (forall samples, calculateSmoothedETA now samples distance = noEstimate).
Proof.
  intros Hd.
  assert (Hnot : JS.not distance || JS.le distance 0 = true).
  { destruct Hd as [->|(d & -> & Hd)]; [done|]. cbn.
    rewrite (bool_decide_eq_true_2 (d <= 0)) by done. apply orb_true_r. }
  split.
  - intros speed buffer. by apply calculateETA_no_distance.
  - intros samples.
    destruct (calculateSmoothedETA_is_calculateETA now samples distance)
      as [speed ->].
    by apply calculateETA_no_distance.
Qed.

Lemma no_distance_no_estimate_witness :
  (Some (-3) = None \/ exists d, Some (-3) = Some d /\ d <= 0) /\
  calculateSmoothedETA 0 [Some 30; Some 40] (Some (-3)) = noEstimate.
Proof.
  assert (H : Some (-3) = None \/ exists d, Some (-3) = Some d /\ d <= 0)
    by (right; exists (-3); split; [reflexivity|lra]).
  split; [exact H|].
  apply (no_distance_no_estimate 0 (Some (-3)) H).
Defined.

Lemma validSpeed_Some (speed : option R) (v : R) :
  validSpeed speed = Some v -> speed = Some v /\ 0 < v < 120.
Proof.
  destruct speed as [w|]; [|done]. cbn.
  destruct (decide (0 < w)) as [H0|H0], (decide (w < 120)) as [H1|H1].
  - rewrite !bool_decide_eq_true_2 by done. cbn. intros [= ->]. done.
  - rewrite (bool_decide_eq_false_2 (w < 120)) by done.
    by rewrite andb_false_r.
  - by rewrite (bool_decide_eq_false_2 (0 < w)) by done.
  - by rewrite (bool_decide_eq_false_2 (0 < w)) by done.
Qed.

Lemma omap_validSpeed_Forall (samples : list (option R)) :
  Forall (fun v => 0 < v < 120) (omap validSpeed samples).
Proof.
  induction samples as [|speed samples IH]; [constructor|].
  cbn. destruct (validSpeed speed) as [v|] eqn:Hv; [|exact IH].
  constructor; [|exact IH]. by apply validSpeed_Some in Hv as [_ ?].
Qed.

(** X2: a sample outside (0, 120) km/h, or a missing one, has no influence
    on the estimate, not even on the weights of the others: the estimate
    from a list of samples is the estimate from its valid samples alone. *)
Theorem calculateSmoothedETA_ignores_outliers (now : R)
    (samples : list (option R)) (distance : option R) :
  calculateSmoothedETA now samples distance =
  calculateSmoothedETA now (Some <$> omap validSpeed samples) distance.
Proof.
  pose proof (omap_validSpeed_valid _ (omap_validSpeed_Forall samples))
    as Hidem.
  unfold calculateSmoothedETA at 2. rewrite Hidem, length_fmap.
  unfold calculateSmoothedETA.
  destruct (decide (length samples = 0%nat)) as [Hlen|Hlen].
  - apply nil_length_inv in Hlen as ->. reflexivity.
  - rewrite (bool_decide_eq_false_2 _ Hlen). rewrite orb_false_l.
    destruct (JS.not distance) eqn:Hd; [by rewrite orb_true_r|].
    rewrite orb_false_r. cbv zeta.
    by destruct (bool_decide (length (omap validSpeed samples) = 0%nat)).
Qed.





(** X4: for a positive distance the ETA is later than [now] plus the
    buffer, a longer distance never gives an earlier ETA, and a higher
    positive speed never gives a later one. *)
Theorem calculateETA_monotone (now buffer d1 d2 v1 v2 : R) :
  0 < d1 <= d2 -> 0 < v1 <= v2 ->
  exists e11 e21 e12,
    eta (calculateETA now (Some d1) (Some v1) buffer) = Some e11 /\
    eta (calculateETA now (Some d2) (Some v1) buffer) = Some e21 /\
    eta (calculateETA now (Some d1) (Some v2) buffer) = Some e12 /\
    now + buffer * 60 * 1000 < e12 /\ e12 <= e11 /\ e11 <= e21.
Proof.
  intros [Hd1 Hd] [Hv1 Hv].
  assert (Heta : forall d v, 0 < d -> 0 < v ->
            eta (calculateETA now (Some d) (Some v) buffer)
            = Some (now + (d / v * 60 + buffer) * 60 * 1000)).
  { intros d v Hd0 Hv0. unfold calculateETA. cbn.
    rewrite (bool_decide_eq_false_2 (d = 0)) by lra.
    rewrite (bool_decide_eq_false_2 (d <= 0)) by lra.
    rewrite (bool_decide_eq_false_2 (v = 0)) by lra.
    rewrite (bool_decide_eq_false_2 (v <= 0)) by lra. reflexivity. }
  rewrite !Heta by lra. do 3 eexists. do 3 (split; [reflexivity|]).
  assert (H1 : 0 < d1 / v2) by (apply Rdiv_lt_0_compat; lra).
  assert (H2 : d1 / v2 <= d1 / v1).
  { unfold Rdiv. apply Rmult_le_compat_l; [lra|].
    apply Rinv_le_contravar; lra. }
  assert (H3 : d1 / v1 <= d2 / v1).
  { unfold Rdiv. apply Rmult_le_compat_r; [|lra].
    apply Rlt_le, Rinv_0_lt_compat. lra. }
  lra.
Qed.

Lemma calculateETA_monotone_witness :
  0 < 1 <= 2 /\ 0 < 20 <= 40 /\
  exists e11 e21 e12,
    eta (calculateETA 0 (Some 1) (Some 20) 2) = Some e11 /\
    eta (calculateETA 0 (Some 2) (Some 20) 2) = Some e21 /\
    eta (calculateETA 0 (Some 1) (Some 40) 2) = Some e12 /\
    0 + 2 * 60 * 1000 < e12 /\ e12 <= e11 /\ e11 <= e21.
Proof.
  assert (Hd : 0 < 1 <= 2) by lra. assert (Hv : 0 < 20 <= 40) by lra.
  split; [exact Hd|]. split; [exact Hv|].
  exact (calculateETA_monotone 0 2 1 2 20 40 Hd Hv).
Defined.

Lemma rounded_minutes (x : R) :
  IZR (Int_part (x + / 2)) <= x + / 2 < IZR (Int_part (x + / 2)) + 1.
Proof. pose proof (base_Int_part (x + / 2)). lra. Qed.

(** X5: [formatETA] answers "N/A" for a missing ETA, "Arriving now" up
    to 30 seconds ahead (and for any ETA in the past), "1 minute" from 30
    to 90 seconds, "n minutes" with n the minutes rounded to the nearest
    from 1.5 to 59.5 minutes, and "1 hour" from 59.5 to 60.5 minutes. *)
Theorem formatETA_thresholds (now eta : R) :
  formatETA now None = "N/A" /\
  (eta - now < 30000 -> formatETA now (Some eta) = "Arriving now") /\
  (30000 <= eta - now < 90000 -> formatETA now (Some eta) = "1 minute") /\
  (90000 <= eta - now < 3570000 ->
   exists n : Z,
     (2 <= n <= 59)%Z /\
     formatETA now (Some eta) = pretty n +:+ " minutes" /\
     IZR n - / 2 <= (eta - now) / 60000 < IZR n + / 2) /\
  (3570000 <= eta - now < 3630000 -> formatETA now (Some eta) = "1 hour").
Proof.
  split; [reflexivity|]. unfold formatETA. cbv zeta.
  replace (1000 * 60) with 60000 by lra.
  pose proof (rounded_minutes ((eta - now) / 60000)) as Hm.
  set (m := Int_part ((eta - now) / 60000 + / 2)) in *.
  repeat split.
  - intros Hlt. assert (Hm1 : (m < 1)%Z) by (apply lt_IZR; lra).
    by rewrite (bool_decide_eq_true_2 _ Hm1).
  - intros [Hlo Hhi].
    assert (Hm1 : (m = 1)%Z).
    { assert (0 < m)%Z by (apply lt_IZR; lra).
      assert (m < 2)%Z by (apply lt_IZR; lra). lia. }
    rewrite bool_decide_eq_false_2 by lia.
    by rewrite (bool_decide_eq_true_2 _ Hm1).
  - intros [Hlo Hhi].
    assert (1 < m)%Z by (apply lt_IZR; lra).
    assert (m < 60)%Z by (apply lt_IZR; lra).
    exists m. split; [lia|]. split; [|lra].
    rewrite !bool_decide_eq_false_2 by lia.
    by rewrite bool_decide_eq_true_2 by lia.
  - intros [Hlo Hhi].
    assert (Hm60 : (m = 60)%Z).
    { assert (59 < m)%Z by (apply lt_IZR; lra).
      assert (m < 61)%Z by (apply lt_IZR; lra). lia. }
    rewrite Hm60. reflexivity.
Qed.




(** X7: on every estimate [calculateETA] returns, [getETAConfidence]
    answers the estimate's own confidence field: its distance grading is
    never reached, and it answers [low] there exactly for the empty
    estimate. *)
Theorem getETAConfidence_of_estimate (now buffer : R) (d speed : option R) :
  getETAConfidence (dataOf (calculateETA now d speed buffer)) =
  confidence (calculateETA now d speed buffer) /\
  (getETAConfidence (dataOf (calculateETA now d speed buffer)) = low <->
   calculateETA now d speed buffer = noEstimate).
Proof.
  unfold calculateETA.
  destruct (JS.not d || JS.le d 0) eqn:Hd; [by split|]. cbv zeta.
  set (v := if JS.not speed || JS.le speed 0 then 25 else default 0 speed).
  assert (Hv : 0 < v).
  { unfold v. destruct speed as [w|]; cbn; [|lra].
    destruct (decide (w = 0)) as [->|Hw0].
    - rewrite bool_decide_eq_true_2 by done. cbn. lra.
    - rewrite (bool_decide_eq_false_2 _ Hw0). cbn.
      destruct (decide (w <= 0)) as [Hle|Hgt].
      + rewrite (bool_decide_eq_true_2 _ Hle). lra.
      + rewrite (bool_decide_eq_false_2 _ Hgt). lra. }
  unfold getETAConfidence, dataOf. cbn.
  rewrite (bool_decide_eq_true_2 _ Hv). cbn. split; [done|].
  unfold noEstimate. split; [|intros [=]].
  by destruct (bool_decide (5 < v)).
Qed.
End EstimatorMore.

(** ** Distances *)

Section DistanceMore.
Local Open Scope R_scope.
Import ETACalculator.

Lemma Math_atan2_quadrant (y x : R) :
  0 <= y -> 0 <= x -> 0 <= JS.Math_atan2 y x <= PI / 2.
Proof.
  intros Hy Hx. pose proof PI_RGT_0 as Hpi. unfold JS.Math_atan2.
  destruct (decide (0 < x)) as [Hx0|Hx0].
  - assert (Hq : 0 <= y / x).
    { unfold Rdiv. apply Rmult_le_pos; [done|].
      apply Rlt_le, Rinv_0_lt_compat. done. }
    pose proof (atan_bound (y / x)) as [_ Hub].
    split; [|lra].
    destruct Hq as [Hq|<-]; [|rewrite atan_0; lra].
    apply atan_increasing in Hq. rewrite atan_0 in Hq. lra.
  - rewrite decide_False by lra.
    destruct (decide (0 < y)); [lra|].
    rewrite decide_False by lra. lra.
Qed.

Lemma calculateDistance_range (a b : Coord) :
  0 <= calculateDistance a b <= 6371 * PI.
Proof.
  unfold calculateDistance. cbv zeta.
  match goal with
  | |- context [JS.Math_atan2 (sqrt ?u) (sqrt ?w)] =>
      pose proof (Math_atan2_quadrant (sqrt u) (sqrt w)
                    (sqrt_pos u) (sqrt_pos w)) as Hq
  end.
  lra.
Qed.

Lemma calculateDistance_nonneg (a b : Coord) : 0 <= calculateDistance a b.
Proof. apply calculateDistance_range. Qed.

Lemma calculateHaversineDistance_is_calculateDistance (a b : Coord) :
  Route.calculateHaversineDistance a b = calculateDistance a b.
Proof.
  unfold Route.calculateHaversineDistance, calculateDistance,
    Route.toRadians, toRadians. reflexivity.
Qed.

Lemma BusStop_distance_is_calculateDistance (stop : BusStop.t)
    (lat1 lng1 : R) :
  BusStop.calculateDistanceTo stop lat1 lng1 =
    1000 * calculateDistance
             {| lat := BusStop.latitude stop; lng := BusStop.longitude stop |}
             {| lat := lat1; lng := lng1 |}.
Proof.
  unfold BusStop.calculateDistanceTo, calculateDistance,
    BusStop.toRadians, toRadians. cbn. lra.
Qed.

Lemma LiveBusLocation_distance_is_calculateDistance
    (location : LiveBusLocation.t) (lat1 lng1 : R) :
  LiveBusLocation.calculateDistanceTo location lat1 lng1 =
    1000 * calculateDistance
             {| lat := LiveBusLocation.latitude location;
                lng := LiveBusLocation.longitude location |}
             {| lat := lat1; lng := lng1 |}.
Proof.
  unfold LiveBusLocation.calculateDistanceTo, calculateDistance,
    LiveBusLocation.toRadians, toRadians. cbn. lra.
Qed.

Lemma LiveBusLocation_distance_nonneg (location : LiveBusLocation.t)
    (lat1 lng1 : R) :
  0 <= LiveBusLocation.calculateDistanceTo location lat1 lng1.
Proof.
  rewrite LiveBusLocation_distance_is_calculateDistance.
  pose proof (calculateDistance_nonneg
                {| lat := LiveBusLocation.latitude location;
                   lng := LiveBusLocation.longitude location |}
                {| lat := lat1; lng := lng1 |}).
  lra.
Qed.

(** X8: the four copies of the haversine formula agree.  The distance a
    stop measures to a position, the distance a live location measures to
    a stop and the distance of the route model are the calculator's
    distance (the first two in meters), so a stop and a bus measure the
    same distance to each other; and every such distance is between 0 and
    half the circumference of an Earth of radius 6371 km. *)
Theorem distance_functions_agree (a b : Coord) (stop : BusStop.t)
    (location : LiveBusLocation.t) :
  0 <= calculateDistance a b <= 6371 * PI /\
  Route.calculateHaversineDistance a b = calculateDistance a b /\
  BusStop.calculateDistanceTo stop (lat a) (lng a) =
    1000 * calculateDistance
             {| lat := BusStop.latitude stop; lng := BusStop.longitude stop |}
             a /\
  LiveBusLocation.calculateDistanceTo location (lat a) (lng a) =
    1000 * calculateDistance
             {| lat := LiveBusLocation.latitude location;
                lng := LiveBusLocation.longitude location |}
             a /\
  BusStop.calculateDistanceTo stop (LiveBusLocation.latitude location)
    (LiveBusLocation.longitude location) =
  LiveBusLocation.calculateDistanceTo location (BusStop.latitude stop)
    (BusStop.longitude stop).
Proof.
  split; [apply calculateDistance_range|].
  split; [apply calculateHaversineDistance_is_calculateDistance|].
  split; [by destruct a; rewrite BusStop_distance_is_calculateDistance|].
  split;
    [by destruct a; rewrite LiveBusLocation_distance_is_calculateDistance|].
  rewrite BusStop_distance_is_calculateDistance,
    LiveBusLocation_distance_is_calculateDistance.
  f_equal. apply calculateDistance_sym.
Qed.
End DistanceMore.

(** ** Recomputation of the next stop and the ETA, in general *)

Section RecomputeMore.
Local Open Scope R_scope.
Import LiveBusLocation.

Context (now : R) (stops : BusStop.Table).

Lemma findNextStop_Some (route : UUID) (lat1 lng1 : R) (stop : BusStop.t) :
  BusStop.findNextStop stops route lat1 lng1 = Resolved (Some stop) ->
  stop ∈ BusStop.rows stops /\ BusStop.routeId stop = route /\
  100 < BusStop.calculateDistanceTo stop lat1 lng1.
Proof.
  unfold BusStop.findNextStop.
  destruct (BusStop.online stops) eqn:Hon;
    [|unfold BusStop.findAll; by rewrite Hon].
  destruct (findAll_online lat1 lng1 stops route Hon) as (l & -> & _ & Hmem).
  destruct (bool_decide (length l = 0%nat)); [done|].
  destruct (scanStops_spec lat1 lng1 l)
    as [[-> _]|(l1 & s & l2 & Hl & -> & Hs & _)]; [done|].
  cbn. intros [= <-].
  assert (Hin : s ∈ l) by (rewrite Hl; apply elem_of_app; right; left).
  apply Hmem in Hin as [? ?]. done.
Qed.

Lemma updateETA_keeps (this : LiveBusLocation.t) :
  let r := updateETA now stops this in
  busId r = busId this /\ driverId r = driverId this /\
  latitude r = latitude this /\ longitude r = longitude this /\
  speedKmh r = speedKmh this /\ heading r = heading this /\
  accuracyMeters r = accuracyMeters this /\
  isLocationSharing r = isLocationSharing this /\
  currentRouteId r = currentRouteId this /\
  nextStopId r = nextStopId this /\
  tripStartedAt r = tripStartedAt this.
Proof. cbv zeta. unfold updateETA. repeat case_match; cbn; done. Qed.

(** X9: after [updateETA] the ETA is null when the next stop is unset,
    when the speed is unknown, zero or negative, and when the stop cannot
    be read; an ETA that is set is the travel time at the stored speed over
    the distance to the stored next stop, and is never before [now].  No
    other column than the ETA and the distance changes: the bus, the
    driver, the position, the speed, the heading, the accuracy, the
    sharing flag, the route, the next stop, the start of the trip and the
    time of the last update are as before; and the distance changes only
    when the next stop was read, to the distance to that stop. *)
Theorem updateETA_result (this : LiveBusLocation.t) :
  let r := updateETA now stops this in
  (Ids.not (nextStopId this) = true \/ JS.not (speedKmh this) = true \/
   JS.le (speedKmh this) 0 = true -> etaToNextStop r = None) /\
  (forall e, etaToNextStop r = Some e ->
     now <= e /\
     exists stop v,
       BusStop.findByPk stops (default EmptyString (nextStopId this))
         = Resolved (Some stop) /\
       speedKmh this = Some v /\ 0 < v /\
       distanceToNextStop r =
         Some (calculateDistanceTo this (BusStop.latitude stop)
                 (BusStop.longitude stop)) /\
       e = now + calculateDistanceTo this (BusStop.latitude stop)
                   (BusStop.longitude stop) / 1000 / v * 60 * 60 * 1000) /\
  busId r = busId this /\ driverId r = driverId this /\
  latitude r = latitude this /\ longitude r = longitude this /\
  speedKmh r = speedKmh this /\ heading r = heading this /\
  accuracyMeters r = accuracyMeters this /\
  isLocationSharing r = isLocationSharing this /\
  currentRouteId r = currentRouteId this /\
  nextStopId r = nextStopId this /\
  tripStartedAt r = tripStartedAt this /\
  lastUpdated r = lastUpdated this /\
  (distanceToNextStop r = distanceToNextStop this \/
   exists stop,
     BusStop.findByPk stops (default EmptyString (nextStopId this))
       = Resolved (Some stop) /\
     distanceToNextStop r =
       Some (calculateDistanceTo this (BusStop.latitude stop)
               (BusStop.longitude stop))).
Proof.
  cbv zeta. split; [|split].
  - unfold updateETA. intros Hguard.
    assert (Hg : Ids.not (nextStopId this) || JS.not (speedKmh this)
                 || JS.le (speedKmh this) 0 = true).
    { destruct Hguard as [H|[H|H]]; rewrite H; [done|by rewrite orb_true_r..]. }
    by rewrite Hg.
  - intros e. unfold updateETA.
    destruct (Ids.not (nextStopId this) || JS.not (speedKmh this)
              || JS.le (speedKmh this) 0) eqn:Hg; [done|].
    destruct (BusStop.findByPk stops (default EmptyString (nextStopId this)))
      as [[stop|]|err]; [|done..].
    cbn. destruct (speedKmh this) as [v|] eqn:Hv;
      [|by rewrite orb_true_r in Hg].
    cbn. destruct (decide (0 < v)) as [Hpos|Hneg].
    + rewrite (bool_decide_eq_true_2 _ Hpos). cbn. intros [= <-].
      pose proof (LiveBusLocation_distance_nonneg this
                    (BusStop.latitude stop) (BusStop.longitude stop)) as Hd.
      split.
      * set (D := calculateDistanceTo this (BusStop.latitude stop)
                    (BusStop.longitude stop)) in *.
        assert (0 <= D / 1000 / v)
          by (apply Rle_mult_inv_pos; [apply Rle_mult_inv_pos; lra|done]).
        lra.
      * exists stop, v. repeat split; done.
    + by rewrite (bool_decide_eq_false_2 _ Hneg).
  - pose proof (updateETA_keeps this) as H. cbv zeta in H.
    destruct H as (H1 & H2 & H3 & H4 & H5 & H6 & H7 & H8 & H9 & H10 & H11).
    do 11 (split; [assumption|]). split.
    + unfold updateETA. repeat case_match; reflexivity.
    + unfold updateETA.
      destruct (Ids.not (nextStopId this) || JS.not (speedKmh this)
                || JS.le (speedKmh this) 0); [by left|].
      destruct (BusStop.findByPk stops (default EmptyString (nextStopId this)))
        as [[stop|]|err]; [|by left..].
      right. exists stop. split; [reflexivity|].
      cbn. by destruct (bool_decide _).
Qed.

(** X10: [updateNextStop] either leaves the next stop as it was, or sets
    it to a stop of the row's current route that is more than 100 m from
    the stored position; it never clears it, and it never changes the
    position, the speed, the route or the sharing flag. *)
Theorem updateNextStop_choice (this : LiveBusLocation.t) :
  let r := updateNextStop now stops this in
  (nextStopId r = nextStopId this \/
   exists stop route,
     currentRouteId this = Some route /\
     stop ∈ BusStop.rows stops /\ BusStop.routeId stop = route /\
     100 < BusStop.calculateDistanceTo stop (latitude this) (longitude this) /\
     nextStopId r = Some (BusStop.id stop)) /\
  latitude r = latitude this /\ longitude r = longitude this /\
  speedKmh r = speedKmh this /\ currentRouteId r = currentRouteId this /\
  isLocationSharing r = isLocationSharing this.
Proof.
  cbv zeta. unfold updateNextStop.
  destruct (Ids.not (currentRouteId this)) eqn:Hroute; [by split; [left|]|].
  destruct (currentRouteId this) as [route|] eqn:Hr; [|done]. cbn.
  destruct (BusStop.findNextStop stops route (latitude this) (longitude this))
    as [[stop|]|err] eqn:Hfind; [|by split; [left|]..].
  apply findNextStop_Some in Hfind as (Hin & Hrid & Hfar).
  pose proof (updateETA_keeps (set_nextStopId (Some (BusStop.id stop)) this))
    as H. cbv zeta in H. cbn in H.
  destruct H as (_ & _ & Hlat & Hlng & Hsp & _ & _ & Hsh & Hcr & Hns & _).
  split; [right; exists stop, route; by rewrite Hns|].
  rewrite Hlat, Hlng, Hsp, Hcr, Hsh. done.
Qed.
End RecomputeMore.

(** ** More on the handlers *)

Section HandlersMore.
Local Open Scope R_scope.
Import SocketService LocationController.

Context (hub : SocketService.t) (now : R).

#[local] Arguments LiveBusLocation.updateLocation : simpl never.
#[local] Arguments LiveBusLocation.save : simpl never.
#[local] Arguments TripLog.findOne : simpl never.

Lemma startValid_busId (req : StartRequest) :
  startValid req = true -> start_busId req <> EmptyString.
Proof.
  intros Hvalid Heq. unfold startValid in Hvalid. rewrite Heq in Hvalid.
  discriminate.
Qed.

(** X11: every refusal of [startLocationSharing] leaves the database and
    the messages sent as they were: an invalid request (400), an unknown
    bus (404), a driver who is not the assigned one (403), an inactive bus
    (400), a session already active (400), a named route that does not
    exist (404). *)
Theorem startLocationSharing_rejections (req : StartRequest) (s : State) :
  (startValid req = false ->
   startLocationSharing hub now req s = (s, Failure 400 "Validation failed")) /\
  (startValid req = true -> buses (db s) !! start_busId req = None ->
   startLocationSharing hub now req s = (s, Failure 404 "Bus not found")) /\
  (forall bus,
     startValid req = true -> buses (db s) !! start_busId req = Some bus ->
     (Bus.driverId bus <> Some (start_user req) ->
      startLocationSharing hub now req s = (s, Failure 403 "Access denied")) /\
     (Bus.driverId bus = Some (start_user req) -> Bus.isActive bus = false ->
      startLocationSharing hub now req s = (s, Failure 400 "Bus inactive")) /\
     (Bus.driverId bus = Some (start_user req) -> Bus.isActive bus = true ->
      forall location,
        LiveBusLocation.findByBusId (liveLocations (db s)) (start_busId req)
          = Some location ->
        startLocationSharing hub now req s =
          (s, Failure 400 "Already sharing")) /\
     (Bus.driverId bus = Some (start_user req) -> Bus.isActive bus = true ->
      LiveBusLocation.findByBusId (liveLocations (db s)) (start_busId req)
        = None ->
      forall route, start_routeId req = Some route ->
        route ∉ routes (db s) ->
        startLocationSharing hub now req s =
          (s, Failure 404 "Route not found"))).
Proof.
  split; [|split].
  - intros Hinvalid. unfold startLocationSharing, startLocationSharing_body.
    cbv zeta. run_monad. by rewrite Hinvalid.
  - intros Hvalid Hnone. pose proof (startValid_busId req Hvalid) as Hne.
    unfold startLocationSharing, startLocationSharing_body.
    cbv zeta. run_monad.
    do 3 (cbn; rewrite ?Hvalid, ?(bool_decide_eq_false_2 _ Hne), ?Hnone).
    reflexivity.
  - intros bus Hvalid Hbus.
    destruct (startLocationSharing_refuses hub now req s bus Hvalid Hbus)
      as (H403 & Hinactive & Hsharing).
    do 3 (split; [assumption|]).
    intros Hdriver Hactive Hidle route Hroute Hnotin.
    pose proof (startValid_busId req Hvalid) as Hne.
    assert (Hrne : route <> EmptyString).
    { intros ->. unfold startValid in Hvalid. rewrite Hroute in Hvalid.
      by rewrite andb_false_r in Hvalid. }
    unfold startLocationSharing, startLocationSharing_body.
    cbv zeta. run_monad.
    do 6 (cbn;
      rewrite ?Hvalid, ?(bool_decide_eq_false_2 _ Hne), ?Hbus,
        ?(bool_decide_eq_true_2 _ Hdriver), ?Hactive, ?Hidle, ?Hroute,
        ?(bool_decide_eq_false_2 _ Hrne), ?(bool_decide_eq_false_2 _ Hnotin)).
    reflexivity.
Qed.


Lemma afterStarted_liveLocations (req : StartRequest) (bus : Bus.t)
    (route : UUID) (s : State) :
  liveLocations (db (afterStarted hub now req bus route s)) =
    <[start_busId req := sessionRow now req (Some route)]>
      (liveLocations (db s)).
Proof. unfold afterStarted. cbv zeta. cbn [db]. by destruct (_ && _). Qed.

Lemma afterStarted_bus (req : StartRequest) (bus : Bus.t) (route : UUID)
    (s : State) :
  buses (db s) !! start_busId req = Some bus ->
  exists bus',
    buses (db (afterStarted hub now req bus route s)) !! start_busId req
      = Some bus' /\
    Bus.driverId bus' = Bus.driverId bus /\
    Bus.isActive bus' = Bus.isActive bus.
Proof.
  intros Hbus. unfold afterStarted. cbv zeta. cbn [db].
  destruct (_ && _); cbn.
  - eexists. split; [apply lookup_insert_eq|]. done.
  - by exists bus.
Qed.

Lemma afterStarted_session (req : StartRequest) (bus : Bus.t) (route : UUID)
    (s : State) :
  LiveBusLocation.findByBusId
    (liveLocations (db (afterStarted hub now req bus route s)))
    (start_busId req) = Some (sessionRow now req (Some route)).
Proof.
  apply findByBusId_Some. rewrite afterStarted_liveLocations.
  split; [apply lookup_insert_eq|reflexivity].
Qed.

(** X12: after any start that goes through, whether the request names a
    route or leaves it to the bus, every further valid start for that bus
    by the same driver is refused with "Already sharing" and changes
    nothing: not the row, the trips, the bus or the messages sent. *)
Theorem start_twice_is_refused (req req2 : StartRequest) (now2 : R)
    (s : State) (body : Body) :
  (startLocationSharing hub now req s).2 = Json body ->
  startValid req2 = true ->
  start_busId req2 = start_busId req ->
  start_user req2 = start_user req ->
  let s' := (startLocationSharing hub now req s).1 in
  body = started (length (tripLogs (db s))) (start_busId req) true /\
  startLocationSharing hub now2 req2 s' = (s', Failure 400 "Already sharing").
Proof.
  intros Hok Hvalid2 Hbus2 Huser2. cbv zeta.
  destruct (startLocationSharing_started hub now req s body Hok)
    as (bus & route & _ & Hbus & Hdriver & Hactive & _ & _ & Heq).
  rewrite Heq in Hok |- *. cbn [fst snd] in *.
  split; [by injection Hok|].
  destruct (afterStarted_bus req bus route s Hbus)
    as (bus' & Hbus' & Hdriver' & Hactive').
  rewrite <- Hbus2 in Hbus'.
  destruct (startLocationSharing_refuses hub now2 req2 _ bus' Hvalid2 Hbus')
    as (_ & _ & Hsharing).
  eapply Hsharing; [congruence|congruence|].
  rewrite Hbus2. apply afterStarted_session.
Qed.


Lemma stopLocationSharing_not_sharing (t : R) (req : StopRequest)
    (s : State) (bus : Bus.t) :
  stop_busId req <> EmptyString ->
  buses (db s) !! stop_busId req = Some bus ->
  Bus.driverId bus = Some (stop_user req) ->
  LiveBusLocation.findByBusId (liveLocations (db s)) (stop_busId req) = None ->
  stopLocationSharing hub t req s = (s, Failure 400 "Not sharing location").
Proof.
  intros Hne Hbus Hdriver Hnone.
  unfold stopLocationSharing, stopLocationSharing_body. cbv zeta. run_monad.
  do 4 (cbn;
    rewrite ?(bool_decide_eq_false_2 _ Hne), ?Hbus,
      ?(bool_decide_eq_true_2 _ Hdriver), ?Hnone).
  reflexivity.
Qed.

(** X13: every refusal of [stopLocationSharing] leaves the database and
    the messages sent as they were: a missing bus id (400), an unknown bus
    or a driver who is not the assigned one (403), no active session
    (400). *)
Theorem stopLocationSharing_rejections (req : StopRequest) (s : State) :
  (stop_busId req = EmptyString ->
   stopLocationSharing hub now req s = (s, Failure 400 "Validation failed")) /\
  (stop_busId req <> EmptyString ->
   buses (db s) !! stop_busId req = None ->
   stopLocationSharing hub now req s = (s, Failure 403 "Access denied")) /\
  (forall bus,
     stop_busId req <> EmptyString ->
     buses (db s) !! stop_busId req = Some bus ->
     (Bus.driverId bus <> Some (stop_user req) ->
      stopLocationSharing hub now req s = (s, Failure 403 "Access denied")) /\
     (Bus.driverId bus = Some (stop_user req) ->
      LiveBusLocation.findByBusId (liveLocations (db s)) (stop_busId req)
        = None ->
      stopLocationSharing hub now req s =
        (s, Failure 400 "Not sharing location"))).
Proof.
  split; [|split].
  - intros Hempty. unfold stopLocationSharing, stopLocationSharing_body.
    cbv zeta. run_monad. by rewrite (bool_decide_eq_true_2 _ Hempty).
  - intros Hne Hnone. unfold stopLocationSharing, stopLocationSharing_body.
    cbv zeta. run_monad.
    do 3 (cbn; rewrite ?(bool_decide_eq_false_2 _ Hne), ?Hnone).
    reflexivity.
  - intros bus Hne Hbus. split.
    + intros Hdriver. unfold stopLocationSharing, stopLocationSharing_body.
      cbv zeta. run_monad.
      do 3 (cbn; rewrite ?(bool_decide_eq_false_2 _ Hne), ?Hbus,
              ?(bool_decide_eq_false_2 _ Hdriver)).
      reflexivity.
    + intros Hdriver Hnone.
      by apply (stopLocationSharing_not_sharing now req s bus).
Qed.


(** X15: every refusal of [updateLocation] leaves the database and the
    messages sent as they were: a coordinate, speed, heading or accuracy
    out of range (400), no active session for the bus (400), a caller who
    is not the driver of the session (403). *)
Theorem updateLocation_rejections (req : UpdateRequest) (s : State) :
  (updateValid req = false ->
   updateLocation hub now req s = (s, Failure 400 "Validation failed")) /\
  (updateValid req = true ->
   LiveBusLocation.findByBusId (liveLocations (db s)) (update_busId req)
     = None ->
   updateLocation hub now req s =
     (s, Failure 400 "Location sharing not active")) /\
  (forall location,
     updateValid req = true ->
     LiveBusLocation.findByBusId (liveLocations (db s)) (update_busId req)
       = Some location ->
     LiveBusLocation.driverId location <> update_user req ->
     updateLocation hub now req s = (s, Failure 403 "Access denied")).
Proof.
  split; [|split].
  - intros Hinvalid. unfold updateLocation, updateLocation_body.
    cbv zeta. run_monad. by rewrite Hinvalid.
  - intros Hvalid Hnone. unfold updateLocation, updateLocation_body.
    cbv zeta. run_monad. do 3 (cbn; rewrite ?Hvalid, ?Hnone). reflexivity.
  - intros location Hvalid Hloc Hdriver.
    pose proof Hloc as Hsharing.
    apply findByBusId_Some in Hsharing as [_ Hsharing].
    unfold updateLocation, updateLocation_body. cbv zeta. run_monad.
    do 4 (cbn; rewrite ?Hvalid, ?Hloc, ?Hsharing,
            ?(bool_decide_eq_false_2 _ Hdriver)).
    reflexivity.
Qed.

Lemma updateNextStop_keeps_rest (stops : BusStop.Table)
    (this : LiveBusLocation.t) :
  let this' := LiveBusLocation.updateNextStop now stops this in
  LiveBusLocation.driverId this' = LiveBusLocation.driverId this /\
  LiveBusLocation.currentRouteId this' = LiveBusLocation.currentRouteId this /\
  LiveBusLocation.tripStartedAt this' = LiveBusLocation.tripStartedAt this /\
  LiveBusLocation.lastUpdated this' = LiveBusLocation.lastUpdated this.
Proof.
  cbv zeta. unfold LiveBusLocation.updateNextStop, LiveBusLocation.updateETA.
  repeat case_match; cbn; done.
Qed.

Lemma LiveBusLocation_updateLocation_frame (stops : BusStop.Table)
    (table : LiveBusLocation.Table) (bus other : UUID)
    (data : LiveBusLocation.LocationData) :
  other <> bus ->
  (LiveBusLocation.updateLocation now stops table bus data).1 !! other
  = table !! other.
Proof.
  intros Hother.
  unfold LiveBusLocation.updateLocation, LiveBusLocation.upsert.
  destruct (bool_decide (table !! bus = None)); cbn [negb fst].
  - by apply lookup_insert_ne.
  - unfold LiveBusLocation.save. cbn [fst].
    destruct (updateNextStop_keeps_position now stops
                (LiveBusLocation.written now bus data (table !! bus)))
      as [Hbus _].
    cbv zeta in Hbus.
    cbn [LiveBusLocation.set_lastUpdated LiveBusLocation.busId].
    rewrite Hbus. cbn [LiveBusLocation.written LiveBusLocation.busId].
    by rewrite !lookup_insert_ne.
Qed.

(** X16: whatever the request and whether it is accepted or refused,
    [updateLocation] changes nothing but the row of the bus it names: the
    buses, routes, stops and trips and the rows of all other buses are as
    before. *)
Theorem updateLocation_frame (req : UpdateRequest) (s : State) :
  let s' := (updateLocation hub now req s).1 in
  buses (db s') = buses (db s) /\
  routes (db s') = routes (db s) /\
  busStops (db s') = busStops (db s) /\
  tripLogs (db s') = tripLogs (db s) /\
  forall other, other <> update_busId req ->
    liveLocations (db s') !! other = liveLocations (db s) !! other.
Proof.
  cbv zeta.
  destruct (updateValid req) eqn:Hvalid.
  2:{ unfold updateLocation, updateLocation_body. cbv zeta. run_monad.
      rewrite Hvalid. cbn. done. }
  destruct (LiveBusLocation.findByBusId (liveLocations (db s))
              (update_busId req)) as [location|] eqn:Hloc.
  2:{ unfold updateLocation, updateLocation_body. cbv zeta. run_monad.
      do 3 (cbn; rewrite ?Hvalid, ?Hloc). done. }
  destruct (decide (LiveBusLocation.driverId location = update_user req))
    as [Hdriver|Hdriver].
  - rewrite (updateLocation_accepted hub now req s location) by done.
    cbn [fst db buses routes busStops tripLogs liveLocations
         set_liveLocations].
    do 4 (split; [reflexivity|]).
    intros other Hother. by apply LiveBusLocation_updateLocation_frame.
  - pose proof Hloc as Hsharing.
    apply findByBusId_Some in Hsharing as [_ Hsharing].
    unfold updateLocation, updateLocation_body. cbv zeta. run_monad.
    do 4 (cbn; rewrite ?Hvalid, ?Hloc, ?Hsharing,
            ?(bool_decide_eq_false_2 _ Hdriver)).
    done.
Qed.

(** X17: a valid position report by the driver of the active session is
    in the stored row when the handler returns: latitude, longitude,
    heading and accuracy as reported, the speed as reported or 0 when the
    report has none, still sharing, with the driver, route and trip start
    of the session and the time of the write. *)
Theorem updateLocation_stores_report (req : UpdateRequest) (s : State)
    (location : LiveBusLocation.t) :
  updateValid req = true ->
  LiveBusLocation.findByBusId (liveLocations (db s)) (update_busId req)
    = Some location ->
  LiveBusLocation.driverId location = update_user req ->
  exists row,
    liveLocations (db (updateLocation hub now req s).1) !! update_busId req
      = Some row /\
    LiveBusLocation.busId row = update_busId req /\
    LiveBusLocation.latitude row = update_latitude req /\
    LiveBusLocation.longitude row = update_longitude req /\
    LiveBusLocation.speedKmh row =
      Some (if JS.not (update_speedKmh req) then 0
            else default 0 (update_speedKmh req)) /\
    LiveBusLocation.heading row = update_heading req /\
    LiveBusLocation.accuracyMeters row = update_accuracyMeters req /\
    LiveBusLocation.isLocationSharing row = true /\
    LiveBusLocation.driverId row = update_user req /\
    LiveBusLocation.currentRouteId row =
      LiveBusLocation.currentRouteId location /\
    LiveBusLocation.tripStartedAt row =
      LiveBusLocation.tripStartedAt location /\
    LiveBusLocation.lastUpdated row = now.
Proof.
  intros Hvalid Hloc Hdriver.
  destruct (updateLocation_persists hub now req s location Hvalid Hloc Hdriver)
    as (Hrow & _). cbv zeta in Hrow.
  eexists. split; [exact Hrow|].
  set (w := LiveBusLocation.written now (update_busId req)
              (locationData req location) (Some location)).
  destruct (updateNextStop_keeps_position now (busStops (db s)) w)
    as (H1 & H2 & H3 & H4 & H5 & H6 & H7).
  destruct (updateNextStop_keeps_rest (busStops (db s)) w)
    as (H8 & H9 & H10 & _).
  cbv zeta in *. cbn [LiveBusLocation.set_lastUpdated LiveBusLocation.busId
    LiveBusLocation.latitude LiveBusLocation.longitude LiveBusLocation.speedKmh
    LiveBusLocation.heading LiveBusLocation.accuracyMeters
    LiveBusLocation.isLocationSharing LiveBusLocation.driverId
    LiveBusLocation.currentRouteId LiveBusLocation.tripStartedAt
    LiveBusLocation.lastUpdated].
  rewrite H1, H2, H3, H4, H5, H6, H7, H8, H9, H10.
  repeat split.
Qed.
End HandlersMore.


(** ** A whole session *)

Section Session.
Local Open Scope R_scope.
Import SocketService LocationController.

Context (hub : SocketService.t).


End Session.


(** ** More on the fan-out hub *)

Section HubMore.
Import SocketService.

Lemma size_zero_empty (subs : gset SocketId) : size subs = 0 <-> subs = ∅.
Proof.
  split.
  - intros Hz. apply size_empty_inv in Hz. by apply leibniz_equiv.
  - intros ->. apply size_empty.
Qed.

Lemma difference_singleton_empty (sid sid' : SocketId)
    (subs : gset SocketId) :
  size (subs ∖ {[sid]}) = 0 -> sid' ∈ subs -> sid' = sid.
Proof.
  intros Hz Hin. apply size_zero_empty in Hz.
  destruct (decide (sid' = sid)) as [|Hne]; [done|]. exfalso.
  assert (H : sid' ∈ (∅ : gset SocketId)).
  { rewrite <- Hz. apply elem_of_difference. split; [done|].
    by rewrite elem_of_singleton. }
  by apply elem_of_empty in H.
Qed.

Lemma disconnect_loop_lookup (sid : SocketId)
    (entries : list (UUID * gset SocketId)) (m : gmap UUID (gset SocketId))
    (bus : UUID) :
  NoDup entries.*1 ->
  (forall subs, (bus, subs) ∈ entries -> m !! bus = Some subs) ->
  foldl (disconnectStep sid) m entries !! bus =
    match list_find (fun e => e.1 = bus) entries with
    | Some (_, (_, subs)) => pruned sid subs
    | None => m !! bus
    end.
Proof.
  revert m. induction entries as [|[k v] entries IH]; intros m Hnd Hm.
  - reflexivity.
  - apply NoDup_cons in Hnd as [Hk Hnd]. cbn [foldl].
    cbn [list_find]. cbn [fst]. destruct (decide (k = bus)) as [->|Hne].
    + cbn. rewrite IH; [|done|].
      * assert (Hnone : list_find (fun e => e.1 = bus) entries = None).
        { apply list_find_None. apply Forall_forall. intros [b s] Hin Hb.
          cbn in Hb. subst b. apply Hk.
          apply list_elem_of_fmap. by exists (bus, s). }
        rewrite Hnone. unfold disconnectStep, pruned.
        destruct (bool_decide (sid ∈ v)).
        -- destruct (bool_decide (size (v ∖ {[sid]}) = 0)).
           ++ apply lookup_delete_eq.
           ++ apply lookup_insert_eq.
        -- apply Hm. left.
      * intros subs Hin. exfalso. apply Hk.
        apply list_elem_of_fmap. by exists (bus, subs).
    + assert (Hstep : disconnectStep sid m (k, v) !! bus = m !! bus).
      { unfold disconnectStep. destruct (bool_decide (sid ∈ v)); [|done].
        destruct (bool_decide (size (v ∖ {[sid]}) = 0)).
        - by rewrite lookup_delete_ne.
        - by rewrite lookup_insert_ne. }
      rewrite IH; [|done|].
      * destruct (list_find (fun e => e.1 = bus) entries)
          as [[i [b s]]|] eqn:Hfind; cbn; [reflexivity|]. exact Hstep.
      * intros subs Hin. rewrite Hstep. apply Hm. by right.
Qed.

Lemma handleDisconnect_lookup (this : SocketService.t) (socket : Socket)
    (bus : UUID) :
  busSubscribers (handleDisconnect this socket) !! bus =
    busSubscribers this !! bus ≫= pruned (id socket).
Proof.
  cbn. rewrite disconnect_loop_lookup.
  - destruct (list_find (fun e => e.1 = bus)
                (map_to_list (busSubscribers this)))
      as [[i [b s]]|] eqn:Hfind.
    + apply list_find_Some in Hfind as (Hi & Hb & _). cbn in Hb. subst b.
      apply list_elem_of_lookup_2 in Hi.
      apply elem_of_map_to_list in Hi. by rewrite Hi.
    + destruct (busSubscribers this !! bus) as [s|] eqn:Hs; [|done].
      exfalso. apply elem_of_map_to_list in Hs.
      apply list_find_None in Hfind.
      rewrite Forall_forall in Hfind. by apply (Hfind _ Hs).
  - apply NoDup_fst_map_to_list.
  - intros subs Hin. by apply elem_of_map_to_list.
Qed.

Lemma pruned_elem_of (sid : SocketId) (subs : gset SocketId)
    (sid' : SocketId) :
  (exists subs', pruned sid subs = Some subs' /\ sid' ∈ subs')
  <-> sid' ∈ subs /\ sid' <> sid.
Proof.
  unfold pruned. destruct (decide (sid ∈ subs)) as [Hin|Hin].
  - rewrite (bool_decide_eq_true_2 _ Hin).
    destruct (decide (size (subs ∖ {[sid]}) = 0)) as [Hz|Hz].
    + rewrite (bool_decide_eq_true_2 _ Hz). split.
      * intros (s & Hs & _). discriminate.
      * intros [H1 H2]. exfalso. apply H2.
        by apply (difference_singleton_empty _ _ subs).
    + rewrite (bool_decide_eq_false_2 _ Hz). split.
      * intros (s & [= <-] & Hs). apply elem_of_difference in Hs as [H1 H2].
        split; [done|]. by rewrite elem_of_singleton in H2.
      * intros [H1 H2]. eexists. split; [reflexivity|].
        apply elem_of_difference. split; [done|].
        by rewrite elem_of_singleton.
  - rewrite (bool_decide_eq_false_2 _ Hin). split.
    + intros (s & [= <-] & Hs). split; [done|]. by intros ->.
    + intros [H1 H2]. by exists subs.
Qed.

Lemma handleDisconnect_interested (this : SocketService.t) (socket : Socket)
    (bus : UUID) (sid : SocketId) :
  interested (handleDisconnect this socket) bus sid
  <-> interested this bus sid /\ sid <> id socket.
Proof.
  unfold interested. rewrite handleDisconnect_lookup.
  destruct (busSubscribers this !! bus) as [subs|]; cbn.
  - rewrite pruned_elem_of. split.
    + intros [H1 H2]. split; [by exists subs|done].
    + intros [(s & [= <-] & H1) H2]. done.
  - split.
    + intros (s & Hs & _). discriminate.
    + intros [(s & Hs & _) _]. discriminate.
Qed.

(** X19: a disconnect touches the departing socket only.  Every other
    socket is interested in exactly the buses it was interested in before,
    and stays among the connected users. *)
Theorem handleDisconnect_keeps_others (this : SocketService.t)
    (socket : Socket) (bus : UUID) (sid : SocketId) :
  (interested (handleDisconnect this socket) bus sid
   <-> interested this bus sid /\ sid <> id socket)
  /\ (sid <> id socket ->
      connectedUsers (handleDisconnect this socket) !! sid =
        connectedUsers this !! sid)
  /\ io (handleDisconnect this socket) = io this.
Proof.
  split; [apply handleDisconnect_interested|]. split; [|reflexivity].
  intros Hne. cbn. by apply lookup_delete_ne.
Qed.

Lemma subscribeToBus_interested (db : Db) (this : SocketService.t)
    (socket : Socket) (bus : string) (b : UUID) (sid : SocketId) :
  bus <> EmptyString ->
  interested (subscribeToBus db this socket bus).1 b sid
  <-> interested this b sid \/ (b = bus /\ sid = id socket).
Proof.
  intros Hbus. unfold interested, subscribeToBus.
  rewrite (bool_decide_eq_false_2 _ Hbus). cbn.
  destruct (decide (b = bus)) as [->|Hne].
  - rewrite lookup_insert_eq. split.
    + intros (s & [= <-] & Hs). apply elem_of_union in Hs as [Hs|Hs].
      * left. destruct (busSubscribers this !! bus) as [s0|]; cbn in Hs.
        -- by exists s0.
        -- by apply elem_of_empty in Hs.
      * right. by rewrite elem_of_singleton in Hs.
    + intros [(s & Hs & Hin)|[_ ->]]; eexists; (split; [reflexivity|]).
      * rewrite Hs. cbn. apply elem_of_union. by left.
      * apply elem_of_union. right. by rewrite elem_of_singleton.
  - rewrite lookup_insert_ne by done. split.
    + intros H. by left.
    + intros [H|[H _]]; done.
Qed.

Lemma unsubscribeFromBus_lookup (this : SocketService.t) (socket : Socket)
    (bus : string) (b : UUID) :
  bus <> EmptyString ->
  busSubscribers (unsubscribeFromBus this socket bus).1 !! b =
    if decide (b = bus) then
      subs ← busSubscribers this !! bus;
      if bool_decide (size (subs ∖ {[id socket]}) = 0) then None
      else Some (subs ∖ {[id socket]})
    else busSubscribers this !! b.
Proof.
  intros Hbus. unfold unsubscribeFromBus.
  rewrite (bool_decide_eq_false_2 _ Hbus).
  destruct (decide (b = bus)) as [->|Hne].
  - destruct (busSubscribers this !! bus) as [subs|] eqn:Hs; cbn; [|done].
    destruct (bool_decide (size (subs ∖ {[id socket]}) = 0)).
    + apply lookup_delete_eq.
    + apply lookup_insert_eq.
  - destruct (busSubscribers this !! bus) as [subs|] eqn:Hs; cbn; [|done].
    destruct (bool_decide (size (subs ∖ {[id socket]}) = 0)).
    + by apply lookup_delete_ne.
    + by apply lookup_insert_ne.
Qed.

Lemma unsubscribeFromBus_interested (this : SocketService.t)
    (socket : Socket) (bus : string) (b : UUID) (sid : SocketId) :
  bus <> EmptyString ->
  interested (unsubscribeFromBus this socket bus).1 b sid
  <-> interested this b sid /\ ~ (b = bus /\ sid = id socket).
Proof.
  intros Hbus. unfold interested.
  rewrite unsubscribeFromBus_lookup by done.
  destruct (decide (b = bus)) as [->|Hne].
  - destruct (busSubscribers this !! bus) as [subs|] eqn:Hs; cbn.
    + destruct (decide (size (subs ∖ {[id socket]}) = 0)) as [Hz|Hz].
      * rewrite (bool_decide_eq_true_2 _ Hz). split.
        -- intros (s & Hs' & _). discriminate.
        -- intros [(s & [= <-] & Hin) Hn]. exfalso. apply Hn.
           split; [done|]. by apply (difference_singleton_empty _ _ subs).
      * rewrite (bool_decide_eq_false_2 _ Hz). split.
        -- intros (s & [= <-] & Hin).
           apply elem_of_difference in Hin as [H1 H2].
           split; [by exists subs|].
           intros [_ ->]. apply H2. by rewrite elem_of_singleton.
        -- intros [(s & [= <-] & Hin) Hn]. eexists. split; [reflexivity|].
           apply elem_of_difference. split; [done|].
           rewrite elem_of_singleton. intros ->. by apply Hn.
    + split.
      * intros (s & Hs' & _). discriminate.
      * intros [(s & Hs' & _) _]. discriminate.
  - split.
    + intros H. split; [done|]. by intros [? _].
    + by intros [H _].
Qed.

(** X20: subscribing adds exactly the pair (bus, socket) to the interest
    relation and unsubscribing removes exactly that pair; every other
    socket and every other bus is left as it was.  With an empty bus id
    both are ignored: nothing changes and nothing is sent. *)
Theorem subscription_changes_one_pair (db : Db) (this : SocketService.t)
    (socket : Socket) (bus : string) (b : UUID) (sid : SocketId) :
  (bus <> EmptyString ->
     (interested (subscribeToBus db this socket bus).1 b sid
      <-> interested this b sid \/ (b = bus /\ sid = id socket))
     /\ (interested (unsubscribeFromBus this socket bus).1 b sid
         <-> interested this b sid /\ ~ (b = bus /\ sid = id socket)))
  /\ subscribeToBus db this socket EmptyString = (this, [])
  /\ unsubscribeFromBus this socket EmptyString = (this, []).
Proof.
  split; [|split; reflexivity].
  intros Hbus. split.
  - by apply subscribeToBus_interested.
  - by apply unsubscribeFromBus_interested.
Qed.

Lemma tidy_new : tidy new.
Proof. intros bus subs Hbus. cbn in Hbus. by rewrite lookup_empty in Hbus. Qed.

Lemma tidy_subscribe (db : Db) (this : SocketService.t) (socket : Socket)
    (bus : string) :
  tidy this -> tidy (subscribeToBus db this socket bus).1.
Proof.
  intros Ht. unfold subscribeToBus.
  destruct (bool_decide (bus = EmptyString)); [done|].
  intros b subs Hb. cbn in Hb. destruct (decide (b = bus)) as [->|Hne].
  - rewrite lookup_insert_eq in Hb. injection Hb as <-.
    intros He. assert (Hin : id socket ∈ (∅ : gset SocketId)).
    { rewrite <- He. apply elem_of_union. right.
      by rewrite elem_of_singleton. }
    by apply elem_of_empty in Hin.
  - rewrite lookup_insert_ne in Hb by done. by apply (Ht b).
Qed.

Lemma tidy_unsubscribe (this : SocketService.t) (socket : Socket)
    (bus : string) :
  tidy this -> tidy (unsubscribeFromBus this socket bus).1.
Proof.
  intros Ht. destruct (decide (bus = EmptyString)) as [->|Hbus]; [done|].
  intros b subs Hb. rewrite unsubscribeFromBus_lookup in Hb by done.
  destruct (decide (b = bus)) as [->|Hne]; [|by apply (Ht b)].
  destruct (busSubscribers this !! bus) as [s|]; cbn in Hb; [|done].
  destruct (decide (size (s ∖ {[id socket]}) = 0)) as [Hz|Hz].
  - by rewrite (bool_decide_eq_true_2 _ Hz) in Hb.
  - rewrite (bool_decide_eq_false_2 _ Hz) in Hb. injection Hb as <-.
    intros He. apply Hz. by apply size_zero_empty.
Qed.

Lemma tidy_disconnect (this : SocketService.t) (socket : Socket) :
  tidy this -> tidy (handleDisconnect this socket).
Proof.
  intros Ht b subs Hb. rewrite handleDisconnect_lookup in Hb.
  destruct (busSubscribers this !! b) as [s|] eqn:Hs; cbn in Hb; [|done].
  unfold pruned in Hb. destruct (bool_decide (id socket ∈ s)).
  - destruct (decide (size (s ∖ {[id socket]}) = 0)) as [Hz|Hz].
    + by rewrite (bool_decide_eq_true_2 _ Hz) in Hb.
    + rewrite (bool_decide_eq_false_2 _ Hz) in Hb. injection Hb as <-.
      intros He. apply Hz. by apply size_zero_empty.
  - injection Hb as <-. by apply (Ht b).
Qed.

Lemma tidy_step (db : Db) (this : SocketService.t) (e : Step) :
  tidy this -> tidy (step db this e).
Proof.
  intros Ht. destruct e as [socket|socket [bus|bus]|socket]; cbn.
  - exact Ht.
  - by apply tidy_subscribe.
  - by apply tidy_unsubscribe.
  - by apply tidy_disconnect.
Qed.

Lemma tidy_run (db : Db) (steps : list Step) (this : SocketService.t) :
  tidy this -> tidy (run db this steps).
Proof.
  revert this. induction steps as [|e steps IH]; intros this Ht; [done|].
  cbn. apply IH. by apply tidy_step.
Qed.

Lemma foldl_sizes_from (l : list (gset SocketId)) (n : nat) :
  foldl (fun total subscribers => total + size subscribers)%nat n l =
    (n + foldl (fun total subscribers => total + size subscribers)%nat
           0%nat l)%nat.
Proof.
  revert n. induction l as [|s l IH]; intros n; cbn.
  - lia.
  - rewrite (IH (n + size s)%nat), (IH (size s)). lia.
Qed.

Lemma foldl_sizes_length (l : list (gset SocketId)) :
  Forall (fun subs => subs <> ∅) l ->
  (length l <=
     foldl (fun total subscribers => total + size subscribers)%nat 0%nat l)%nat.
Proof.
  induction 1 as [|s l Hs _ IH]; cbn; [lia|].
  rewrite foldl_sizes_from.
  assert (size s <> 0%nat) by (intros Hz; by apply Hs, size_zero_empty).
  lia.
Qed.

(** X21: however sockets connect, subscribe, unsubscribe and disconnect
    after the service is constructed, no bus is ever left with an empty
    interest set: the map holds a key only while some socket is
    interested.  So [getStats] never reports fewer subscriptions than
    buses with subscribers. *)
Theorem no_empty_interest_set (db : Db) (steps : list Step) :
  let hub := run db new steps in
  (forall bus subs, busSubscribers hub !! bus = Some subs ->
     exists sid, sid ∈ subs)
  /\ (stat_activeSubscriptions (getStats hub)
      <= stat_totalSubscriptions (getStats hub))%nat.
Proof.
  intros hub. assert (Ht : tidy hub) by apply tidy_run, tidy_new.
  split.
  - intros bus subs Hbus. apply set_choose_L. by apply (Ht bus).
  - cbn. rewrite <- (length_map_to_list (busSubscribers hub)) at 1.
    rewrite <- (length_fmap snd). apply foldl_sizes_length.
    apply Forall_forall. intros subs Hin.
    apply list_elem_of_fmap in Hin as ([b s] & -> & Hin).
    apply elem_of_map_to_list in Hin. by apply (Ht b).
Qed.

Lemma disconnect_all_interested (sockets : list Socket)
    (this : SocketService.t) (bus : UUID) (sid : SocketId) :
  interested (foldl handleDisconnect this sockets) bus sid
  <-> interested this bus sid /\ sid ∉ id <$> sockets.
Proof.
  revert this. induction sockets as [|s sockets IH]; intros this; cbn.
  - split; [|by intros [H _]]. intros H. split; [done|].
    apply not_elem_of_nil.
  - rewrite IH, handleDisconnect_interested, not_elem_of_cons. tauto.
Qed.

Lemma tidy_disconnect_all (sockets : list Socket) (this : SocketService.t) :
  tidy this -> tidy (foldl handleDisconnect this sockets).
Proof.
  revert this. induction sockets as [|s sockets IH]; intros this Ht; [done|].
  cbn. apply IH. by apply tidy_disconnect.
Qed.

(** X22: nothing is left behind as observers come and go.  Take the hub
    after any run of connections, messages and disconnects; once every
    socket that is still in some interest set has disconnected, the
    subscription map is empty again. *)
Theorem disconnects_empty_the_map (db : Db) (steps : list Step)
    (sockets : list Socket) :
  (forall bus sid, interested (run db new steps) bus sid ->
     sid ∈ id <$> sockets) ->
  busSubscribers (foldl handleDisconnect (run db new steps) sockets) = ∅.
Proof.
  intros Hall. apply map_empty. intros bus.
  destruct (busSubscribers (foldl handleDisconnect (run db new steps) sockets)
              !! bus) as [subs|] eqn:Hbus; [|done].
  exfalso.
  assert (Ht : tidy (foldl handleDisconnect (run db new steps) sockets))
    by apply tidy_disconnect_all, tidy_run, tidy_new.
  destruct (set_choose_L subs (Ht bus subs Hbus)) as [sid Hsid].
  assert (Hin : interested
                  (foldl handleDisconnect (run db new steps) sockets) bus sid)
    by by exists subs.
  apply disconnect_all_interested in Hin as [Hin Hout].
  apply Hout. by apply (Hall bus).
Qed.

(** X23: [emitToBusSubscribers] delivers the event to exactly the sockets
    that are in the bus's interest set and still open, once each, and to
    nobody while the service is not initialised. *)
Theorem emitToBusSubscribers_reaches (this : SocketService.t) (bus : UUID)
    (event : Event) :
  (forall sid e,
     (sid, e) ∈ emitToBusSubscribers this bus event
     <-> e = event /\ interested this bus sid
         /\ exists sockets, io this = Some sockets /\ sid ∈ sockets)
  /\ NoDup (emitToBusSubscribers this bus event).
Proof.
  unfold emitToBusSubscribers, interested. split.
  - intros sid e. destruct (io this) as [sockets|].
    + destruct (busSubscribers this !! bus) as [subs|].
      * rewrite list_elem_of_fmap. split.
        -- intros (sid' & [= -> ->] & Hin).
           apply list_elem_of_filter in Hin as [Hopen Hin].
           apply elem_of_elements in Hin.
           split; [done|]. split; [by exists subs|by exists sockets].
        -- intros (-> & (s & [= <-] & Hin) & (o & [= <-] & Hopen)).
           exists sid. split; [done|]. apply list_elem_of_filter.
           split; [done|]. by apply elem_of_elements.
      * split.
        -- intros Hin. by apply elem_of_nil in Hin.
        -- intros (_ & (s & Hs & _) & _). discriminate.
    + split.
      * intros Hin. destruct (busSubscribers this !! bus);
          by apply elem_of_nil in Hin.
      * intros (_ & _ & (o & Ho & _)). discriminate.
  - destruct (io this) as [sockets|]; [|apply NoDup_nil_2].
    destruct (busSubscribers this !! bus) as [subs|]; [|apply NoDup_nil_2].
    apply NoDup_fmap_2.
    + intros x y [= ->]. reflexivity.
    + apply NoDup_filter, NoDup_elements.
Qed.
End HubMore.

(** ** Routes *)

Section RouteMore.
Local Open Scope R_scope.
Import ETACalculator.








Section Nearest.
Variables currentLat currentLng : R.

Let km (s : BusStop.t) : R :=
  Route.calculateHaversineDistance
    {| lat := currentLat; lng := currentLng |}
    {| lat := BusStop.latitude s; lng := BusStop.longitude s |}.

Let dist (s : BusStop.t) : R :=
  BusStop.calculateDistanceTo s currentLat currentLng.

Lemma dist_km (s : BusStop.t) : dist s = 1000 * km s.
Proof.
  unfold dist, km. rewrite calculateHaversineDistance_is_calculateDistance.
  rewrite calculateDistance_sym.
  unfold BusStop.calculateDistanceTo, calculateDistance,
    BusStop.toRadians, toRadians. cbn. lra.
Qed.

(** What the scan of [getNextStop] holds after a list of stops that is
    not empty: the first of the nearest stops. *)
Lemma nearestScan_spec (stops : list BusStop.t) :
  stops <> [] ->
  exists l1 s l2,
    stops = l1 ++ s :: l2 /\
    foldl (Route.nearestStep currentLat currentLng) (None, None) stops
      = (Some s, Some (km s)) /\
    (forall s', s' ∈ l1 -> km s < km s') /\
    (forall s', s' ∈ l2 -> km s <= km s').
Proof.
  induction stops as [|x l IH] using rev_ind; [done|]. intros _.
  rewrite foldl_snoc. destruct l as [|y l'].
  - exists [], x, []. cbn. fold (km x). repeat split; try done.
    + intros s' Hs'. by apply elem_of_nil in Hs'.
    + intros s' Hs'. by apply elem_of_nil in Hs'.
  - destruct IH as (l1 & s & l2 & Hl & Hscan & Hl1 & Hl2); [done|].
    rewrite Hscan, Hl. unfold Route.nearestStep. cbn [snd]. fold (km x).
    destruct (decide (km x < km s)) as [Hlt|Hge].
    + rewrite (bool_decide_eq_true_2 _ Hlt).
      exists (l1 ++ s :: l2), x, []. repeat split; try done.
      * intros s' Hs'. apply elem_of_app in Hs' as [Hs'|Hs'];
          [specialize (Hl1 s' Hs'); lra|].
        apply elem_of_cons in Hs' as [->|Hs']; [done|].
        specialize (Hl2 s' Hs'). lra.
      * intros s' Hs'. by apply elem_of_nil in Hs'.
    + rewrite (bool_decide_eq_false_2 _ Hge).
      exists l1, s, (l2 ++ [x]). split; [by rewrite <- app_assoc|].
      repeat split; try done.
      intros s' Hs'. apply elem_of_app in Hs' as [Hs'|Hs'];
        [by apply Hl2|].
      apply list_elem_of_singleton in Hs' as ->. lra.
Qed.

(** While every stop lies beyond the floor, the scan of [findNextStop]
    and the scan of [getNextStop] walk in step. *)
Lemma scans_agree (stops : list BusStop.t) (a : option BusStop.t)
    (m : option R) :
  (forall s, s ∈ stops -> 100 < dist s) ->
  foldl (BusStop.nextStopStep currentLat currentLng)
    (a, (fun d => 1000 * d) <$> m) stops =
  let r := foldl (Route.nearestStep currentLat currentLng) (a, m) stops in
  (r.1, (fun d => 1000 * d) <$> r.2).
Proof.
  revert a m. induction stops as [|x l IH]; intros a m Hfar; [done|].
  cbn [foldl].
  assert (Hx : 100 < dist x) by (apply Hfar; left).
  assert (Hstep : BusStop.nextStopStep currentLat currentLng
                    (a, (fun d => 1000 * d) <$> m) x =
                  ((Route.nearestStep currentLat currentLng (a, m) x).1,
                   (fun d => 1000 * d) <$>
                     (Route.nearestStep currentLat currentLng (a, m) x).2)).
  { unfold BusStop.nextStopStep, Route.nearestStep. cbn [snd].
    fold (dist x). fold (km x).
    rewrite (bool_decide_eq_true_2 _ Hx), andb_true_r.
    destruct m as [d|]; cbn.
    - destruct (decide (km x < d)) as [Hlt|Hge].
      + rewrite (bool_decide_eq_true_2 (km x < d)) by done.
        rewrite bool_decide_eq_true_2 by (rewrite dist_km; lra).
        cbn. by rewrite dist_km.
      + rewrite (bool_decide_eq_false_2 (km x < d)) by done.
        rewrite bool_decide_eq_false_2 by (rewrite dist_km; lra).
        reflexivity.
    - by rewrite dist_km. }
  rewrite Hstep.
  destruct (Route.nearestStep currentLat currentLng (a, m) x) as [a' m'].
  cbn [fst snd]. apply IH. intros s Hs. apply Hfar. by right.
Qed.

(** X25: [Route.getNextStop] answers the stop of the route that is
    nearest to the position, with no floor: of two stops at the same
    distance the one with the lower stop order, and none only when the
    route has no stop.  When that nearest stop is more than 100 m away,
    [BusStop.findNextStop] answers the same stop; when it is within
    100 m, [BusStop.findNextStop] answers another stop or none. *)
Theorem getNextStop_nearest (table : BusStop.Table) (rid : UUID) :
  match Route.getNextStop table rid currentLat currentLng with
  | Resolved (Some s) =>
      s ∈ BusStop.rows table /\ BusStop.routeId s = rid /\
      (forall s', s' ∈ BusStop.rows table -> BusStop.routeId s' = rid ->
         km s <= km s' /\
         (km s' = km s -> (BusStop.stopOrder s <= BusStop.stopOrder s')%Z)) /\
      (100 < dist s ->
       BusStop.findNextStop table rid currentLat currentLng
         = Resolved (Some s)) /\
      (dist s <= 100 ->
       BusStop.findNextStop table rid currentLat currentLng
         <> Resolved (Some s))
  | Resolved None =>
      BusStop.online table = true /\
      forall s', s' ∈ BusStop.rows table -> BusStop.routeId s' <> rid
  | Rejected _ => BusStop.online table = false
  end.
Proof.
  unfold Route.getNextStop.
  destruct (BusStop.online table) eqn:Hon;
    [|unfold BusStop.findAll; by rewrite Hon].
  destruct (findAll_online currentLat currentLng table rid Hon)
    as (stops & Hall & Hsorted & Hmem).
  rewrite Hall.
  destruct (decide (length stops = 0%nat)) as [Hlen|Hlen].
  { rewrite (bool_decide_eq_true_2 _ Hlen).
    apply nil_length_inv in Hlen. split; [done|].
    intros s' Hs' Hr.
    assert (Hin : s' ∈ stops) by (by apply Hmem).
    rewrite Hlen in Hin. by apply elem_of_nil in Hin. }
  rewrite (bool_decide_eq_false_2 _ Hlen).
  destruct (nearestScan_spec stops) as (l1 & s & l2 & Hl & Hscan & Hl1 & Hl2).
  { intros ->. by apply Hlen. }
  rewrite Hscan. cbn [fst].
  assert (Hin : s ∈ stops) by (rewrite Hl; apply elem_of_app; right; left).
  assert (Hmin : forall s', s' ∈ stops -> km s <= km s').
  { intros s' Hs'. rewrite Hl in Hs'.
    apply elem_of_app in Hs' as [Hs'|Hs']; [specialize (Hl1 s' Hs'); lra|].
    apply elem_of_cons in Hs' as [->|Hs']; [lra|by apply Hl2]. }
  pose proof Hin as Hin'. apply Hmem in Hin' as [Hrow Hrid].
  split; [done|]. split; [done|]. split; [|split].
  - intros s' Hs' Hr.
    assert (Hs'in : s' ∈ stops) by (by apply Hmem).
    split; [by apply Hmin|]. intros Heq.
    rewrite Hl in Hs'in, Hsorted.
    apply StronglySorted_app_1_r, StronglySorted_cons in Hsorted
      as [Hafter _].
    apply elem_of_app in Hs'in as [Hs'in|Hs'in];
      [specialize (Hl1 s' Hs'in); lra|].
    apply elem_of_cons in Hs'in as [->|Hs'in]; [done|].
    rewrite Forall_forall in Hafter. by apply Hafter.
  - intros Hfar. unfold BusStop.findNextStop. rewrite Hall.
    rewrite (bool_decide_eq_false_2 _ Hlen). unfold BusStop.scanStops.
    pose proof (scans_agree stops None None) as Hagree.
    cbn [fmap option_fmap option_map] in Hagree. rewrite Hagree.
    + cbv zeta. rewrite Hscan. reflexivity.
    + intros s' Hs'. specialize (Hmin s' Hs').
      rewrite dist_km in *. lra.
  - intros Hnear Hfind.
    apply (findNextStop_Some table rid currentLat currentLng s) in Hfind
      as (_ & _ & Hfar).
    fold (dist s) in Hfar. lra.
Qed.
End Nearest.
End RouteMore.

(** ** Trips and the position log *)

Section TripsMore.
Local Open Scope R_scope.
Import TripLog.

End TripsMore.

Section AnalyticsMore.
Local Open Scope R_scope.
Import LocationHistory.





End AnalyticsMore.

(** ** The stops of a route stay numbered without gaps *)

Section StopsMore.
Local Open Scope Z_scope.
Import BusStop BusController.

#[local] Instance byStopOrder_transitive : Transitive byStopOrder.
Proof. unfold byStopOrder. intros x y z. lia. Qed.

#[local] Instance byStopOrder_connected : Total byStopOrder.
Proof. unfold byStopOrder. intros x y. lia. Qed.

Lemma NoDup_fmap_eq {A B : Type} (f : A -> B) (l : list A) (x y : A) :
  NoDup (f <$> l) -> x ∈ l -> y ∈ l -> f x = f y -> x = y.
Proof.
  induction l as [|a l IH]; intros Hnd Hx Hy Heq.
  - by apply elem_of_nil in Hx.
  - rewrite fmap_cons in Hnd. apply NoDup_cons in Hnd as [Ha Hnd].
    apply elem_of_cons in Hx as [->|Hx]; apply elem_of_cons in Hy as [->|Hy].
    + reflexivity.
    + exfalso. apply Ha. rewrite Heq. by apply list_elem_of_fmap_2.
    + exfalso. apply Ha. rewrite <- Heq. by apply list_elem_of_fmap_2.
    + by apply IH.
Qed.

Lemma elem_of_ordersOf (rid : UUID) (stops : list BusStop.t) (k : Z) :
  k ∈ ordersOf rid stops <->
  exists s, s ∈ stops /\ routeId s = rid /\ stopOrder s = k.
Proof.
  unfold ordersOf. rewrite list_elem_of_fmap. split.
  - intros (s & -> & Hs). apply list_elem_of_filter in Hs as [Hr Hs].
    by exists s.
  - intros (s & Hs & Hr & <-). exists s. split; [done|].
    by apply list_elem_of_filter.
Qed.

Lemma ordersOf_app (rid : UUID) (l1 l2 : list BusStop.t) :
  ordersOf rid (l1 ++ l2) = ordersOf rid l1 ++ ordersOf rid l2.
Proof. unfold ordersOf. by rewrite filter_app, fmap_app. Qed.

Lemma ordersOf_Permutation (rid : UUID) (l1 l2 : list BusStop.t) :
  l1 ≡ₚ l2 -> ordersOf rid l1 ≡ₚ ordersOf rid l2.
Proof. intros H. unfold ordersOf. by rewrite H. Qed.

(** Density of one route does not depend on the order of the rows. *)
Lemma numbered_Permutation (l1 l2 : list Z) :
  l1 ≡ₚ l2 ->
  NoDup l1 /\ Forall (fun k => 1 <= k <= Z.of_nat (length l1)) l1 ->
  NoDup l2 /\ Forall (fun k => 1 <= k <= Z.of_nat (length l2)) l2.
Proof.
  intros Hp [Hnd Hall]. split; [by rewrite <- Hp|].
  rewrite <- Hp. by rewrite <- (Permutation_length Hp).
Qed.

Lemma findAll_length (table : BusStop.Table) (rid : UUID)
    (l : list BusStop.t) :
  findAll table rid = Resolved l ->
  online table = true /\
  l ≡ₚ filter (fun s => routeId s = rid) (rows table) /\
  length l = length (ordersOf rid (rows table)).
Proof.
  unfold findAll. destruct (online table); [|done]. intros [= <-].
  split; [done|]. split; [apply merge_sort_Permutation|].
  unfold ordersOf. rewrite length_fmap.
  apply Permutation_length, merge_sort_Permutation.
Qed.

(** *** Adding a stop *)

Lemma dense_snoc (stops : list BusStop.t) (new : BusStop.t) :
  dense stops ->
  id new ∉ id <$> stops ->
  stopOrder new = Z.of_nat (length (ordersOf (routeId new) stops)) + 1 ->
  dense (stops ++ [new]).
Proof.
  intros [Hids Hroutes] Hfresh Horder. split.
  - rewrite fmap_app. apply NoDup_app. split; [done|]. split.
    + intros x Hx Hnew. apply list_elem_of_singleton in Hnew as ->. done.
    + apply NoDup_singleton.
  - intros rid. rewrite ordersOf_app. destruct (Hroutes rid) as [Hnd Hall].
    destruct (decide (routeId new = rid)) as [Hr|Hr].
    + assert (Hone : ordersOf rid [new] = [stopOrder new]).
      { unfold ordersOf. rewrite filter_cons_True by done. reflexivity. }
      rewrite Hone, Horder, Hr. rewrite Forall_forall in Hall. split.
      * apply NoDup_app. split; [done|]. split; [|apply NoDup_singleton].
        intros k Hk Hnew. apply list_elem_of_singleton in Hnew as ->.
        specialize (Hall _ Hk). cbv beta in Hall. lia.
      * rewrite length_app. apply Forall_app. split.
        -- apply Forall_forall. intros k Hk. specialize (Hall _ Hk).
           cbv beta in Hall. cbn. lia.
        -- apply Forall_singleton. cbn. lia.
    + assert (Hnone : ordersOf rid [new] = []).
      { unfold ordersOf. rewrite filter_cons_False by done. reflexivity. }
      rewrite Hnone, app_nil_r. done.
Qed.


(** *** Removing a stop *)

Lemma movedUp_id (rid : UUID) (k : Z) (bound : option Z) (s : BusStop.t) :
  id (movedUp rid k bound s) = id s.
Proof. unfold movedUp. by case_match. Qed.

Lemma movedUp_routeId (rid : UUID) (k : Z) (bound : option Z)
    (s : BusStop.t) :
  routeId (movedUp rid k bound s) = routeId s.
Proof. unfold movedUp. by case_match. Qed.

Lemma movedUp_widen (rid : UUID) (k j j' : Z) (stops : list BusStop.t) :
  j <= j' ->
  (forall s, s ∈ stops -> routeId s = rid -> k < stopOrder s ->
     j <= stopOrder s -> j' <= stopOrder s) ->
  movedUp rid k (Some j) <$> stops = movedUp rid k (Some j') <$> stops.
Proof.
  intros Hle Hgap. apply Forall_fmap_ext, Forall_forall. intros s Hs.
  unfold movedUp.
  destruct (decide (routeId s = rid)) as [Hr|Hr];
    [|by rewrite !(bool_decide_eq_false_2 (routeId s = rid))].
  destruct (decide (k < stopOrder s)) as [Hk|Hk];
    [|by rewrite !(bool_decide_eq_false_2 (k < stopOrder s)), !andb_false_r].
  specialize (Hgap s Hs Hr Hk).
  destruct (decide (stopOrder s < j)) as [Hj|Hj].
  - rewrite (bool_decide_eq_true_2 (stopOrder s < j)) by done.
    by rewrite (bool_decide_eq_true_2 (stopOrder s < j')) by lia.
  - rewrite (bool_decide_eq_false_2 (stopOrder s < j)) by done.
    by rewrite (bool_decide_eq_false_2 (stopOrder s < j')) by lia.
Qed.

Lemma movedUp_all (rid : UUID) (k j : Z) (stops : list BusStop.t) :
  (forall s, s ∈ stops -> routeId s = rid -> k < stopOrder s ->
     stopOrder s < j) ->
  movedUp rid k (Some j) <$> stops = movedUp rid k None <$> stops.
Proof.
  intros Hall. apply Forall_fmap_ext, Forall_forall. intros s Hs.
  unfold movedUp.
  destruct (decide (routeId s = rid)) as [Hr|Hr];
    [|by rewrite !(bool_decide_eq_false_2 (routeId s = rid))].
  destruct (decide (k < stopOrder s)) as [Hk|Hk];
    [|by rewrite !(bool_decide_eq_false_2 (k < stopOrder s)), !andb_false_r].
  by rewrite (bool_decide_eq_true_2 (stopOrder s < j))
    by (by apply Hall).
Qed.

Lemma movedUp_none (rid : UUID) (k j : Z) (stops : list BusStop.t) :
  j <= k + 1 ->
  movedUp rid k (Some j) <$> stops = stops.
Proof.
  intros Hj. rewrite <- (list_fmap_id stops) at 2.
  apply Forall_fmap_ext, Forall_forall. intros s Hs. unfold movedUp.
  destruct (decide (k < stopOrder s)) as [Hk|Hk].
  - rewrite (bool_decide_eq_false_2 (stopOrder s < j)) by lia.
    by rewrite andb_false_r.
  - rewrite (bool_decide_eq_false_2 (k < stopOrder s)) by done.
    by rewrite andb_false_r.
Qed.

(** The loop of [removeBusStop]: on a route whose orders are all
    different, with the removed order free, every save goes through and
    the stops after the removed one have moved one place up. *)
Lemma reorder_moves_up (rid : UUID) (k : Z) (stops : list BusStop.t) :
  NoDup (id <$> stops) ->
  NoDup (ordersOf rid stops) ->
  1 <= k ->
  k ∉ ordersOf rid stops ->
  forall (todo : list BusStop.t) (j : Z),
    StronglySorted byStopOrder todo ->
    NoDup todo ->
    (forall s, s ∈ todo -> s ∈ stops /\ routeId s = rid /\ j <= stopOrder s) ->
    (forall s, s ∈ stops -> routeId s = rid -> j <= stopOrder s -> s ∈ todo) ->
    reorder k todo {| rows := movedUp rid k (Some j) <$> stops;
                      online := true |} =
      ({| rows := movedUp rid k None <$> stops; online := true |}, None).
Proof.
  intros Hids Horders Hk Hfree todo.
  assert (Hsame : forall s s', s ∈ stops -> s' ∈ stops ->
            routeId s = rid -> routeId s' = rid ->
            stopOrder s = stopOrder s' -> s = s').
  { intros s s' Hs Hs' Hr Hr' Ho.
    apply (NoDup_fmap_eq stopOrder
             (filter (fun s => routeId s = rid) stops)); try done;
      by apply list_elem_of_filter. }
  induction todo as [|s rest IH]; intros j Hsorted Hnd Hin Hcover.
  - cbn. rewrite movedUp_all; [done|].
    intros s Hs Hr _. destruct (decide (stopOrder s < j)); [done|].
    exfalso. assert (H : s ∈ ([] : list BusStop.t))
      by (apply Hcover; [done|done|lia]).
    by apply elem_of_nil in H.
  - apply StronglySorted_cons in Hsorted as [Hafter Hsorted].
    rewrite Forall_forall in Hafter. unfold byStopOrder in Hafter.
    apply NoDup_cons in Hnd as [Hs_rest Hnd].
    destruct (Hin s) as (Hs & Hr & Hj); [left|].
    assert (Hrest : forall s', s' ∈ rest ->
              s' ∈ stops /\ routeId s' = rid /\
              stopOrder s + 1 <= stopOrder s').
    { intros s' Hs'. destruct (Hin s') as (H1 & H2 & _); [by right|].
      split; [done|]. split; [done|].
      specialize (Hafter s' Hs').
      destruct (decide (stopOrder s = stopOrder s')) as [Heq|Hne]; [|lia].
      exfalso. apply Hs_rest. by rewrite (Hsame s s'). }
    assert (Hcover' : forall s', s' ∈ stops -> routeId s' = rid ->
              stopOrder s + 1 <= stopOrder s' -> s' ∈ rest).
    { intros s' Hs' Hr' Ho.
      assert (H : s' ∈ s :: rest) by (apply Hcover; [done|done|lia]).
      apply elem_of_cons in H as [->|H]; [lia|done]. }
    assert (Hne : stopOrder s <> k).
    { intros Heq. apply Hfree. apply elem_of_ordersOf. by exists s. }
    rewrite (movedUp_widen rid k j (stopOrder s)); [|done|].
    2:{ intros s' Hs' Hr' _ Hj'.
        assert (H : s' ∈ s :: rest) by (by apply Hcover).
        apply elem_of_cons in H as [->|H]; [lia|].
        by apply Hafter. }
    cbn [reorder].
    destruct (decide (k < stopOrder s)) as [Hlt|Hge].
    + rewrite (bool_decide_eq_true_2 _ Hlt). unfold save.
      cbn [stopOrder set_stopOrder online rows id routeId].
      rewrite (bool_decide_eq_true_2 (1 <= stopOrder s - 1)) by lia.
      cbn [negb].
      rewrite bool_decide_eq_false_2.
      2:{ intros Hex. apply Exists_exists in Hex as (x & Hx & Hid & Hxr & Hxo).
          apply list_elem_of_fmap in Hx as (s0 & -> & Hs0).
          rewrite movedUp_id in Hid. rewrite movedUp_routeId in Hxr.
          unfold movedUp in Hxo. rewrite Hxr, Hr in Hxo.
          rewrite (bool_decide_eq_true_2 (rid = rid)) in Hxo by done.
          cbn [andb] in Hxo.
          destruct (decide (k < stopOrder s0)) as [H1|H1].
          - rewrite (bool_decide_eq_true_2 _ H1) in Hxo. cbn [andb] in Hxo.
            destruct (decide (stopOrder s0 < stopOrder s)) as [H2|H2].
            + rewrite (bool_decide_eq_true_2 _ H2) in Hxo. cbn in Hxo. lia.
            + rewrite (bool_decide_eq_false_2 _ H2) in Hxo. lia.
          - rewrite (bool_decide_eq_false_2 _ H1) in Hxo. cbn [andb] in Hxo.
            assert (Hs0k : stopOrder s0 = k) by lia.
            apply Hfree. apply elem_of_ordersOf. exists s0.
            split; [done|]. split; [congruence|done]. }
      replace ((fun x => if bool_decide (id x = id s)
                         then set_stopOrder (stopOrder s - 1) s else x)
               <$> (movedUp rid k (Some (stopOrder s)) <$> stops))
        with (movedUp rid k (Some (stopOrder s + 1)) <$> stops).
      * apply IH; try done.
      * rewrite <- list_fmap_compose.
        apply Forall_fmap_ext, Forall_forall. intros s0 Hs0. cbn.
        rewrite movedUp_id.
        destruct (decide (id s0 = id s)) as [Hid|Hid].
        -- rewrite (bool_decide_eq_true_2 _ Hid).
           assert (s0 = s) as -> by (by apply (NoDup_fmap_eq id stops)).
           unfold movedUp.
           rewrite (bool_decide_eq_true_2 _ Hr), (bool_decide_eq_true_2 _ Hlt).
           by rewrite bool_decide_eq_true_2 by lia.
        -- rewrite (bool_decide_eq_false_2 _ Hid). unfold movedUp.
           destruct (decide (routeId s0 = rid)) as [Hr0|Hr0];
             [|by rewrite !(bool_decide_eq_false_2 (routeId s0 = rid))].
           destruct (decide (stopOrder s0 = stopOrder s)) as [Ho|Ho].
           { exfalso. apply Hid. by rewrite (Hsame s0 s). }
           destruct (decide (stopOrder s0 < stopOrder s)) as [H2|H2].
           ++ rewrite (bool_decide_eq_true_2 (stopOrder s0 < stopOrder s))
                by done.
              by rewrite (bool_decide_eq_true_2 (stopOrder s0 < stopOrder s + 1))
                by lia.
           ++ rewrite (bool_decide_eq_false_2 (stopOrder s0 < stopOrder s))
                by done.
              by rewrite (bool_decide_eq_false_2
                            (stopOrder s0 < stopOrder s + 1)) by lia.
    + rewrite (bool_decide_eq_false_2 _ Hge).
      rewrite (movedUp_widen rid k (stopOrder s) (stopOrder s + 1));
        [by apply IH|lia|].
      intros s' Hs' Hr' Hk' Ho.
      destruct (decide (stopOrder s' = stopOrder s)); lia.
Qed.


Lemma filter_keeps_all {A : Type} (P : A -> Prop) `{forall x, Decision (P x)}
    (l : list A) :
  Forall P l -> filter P l = l.
Proof.
  induction 1 as [|x l Hx _ IH]; [done|].
  rewrite filter_cons_True by done. by rewrite IH.
Qed.

Lemma remove_Permutation (stops : list BusStop.t) (stop : BusStop.t) :
  NoDup (id <$> stops) -> stop ∈ stops ->
  stops ≡ₚ stop :: filter (fun s => id s <> id stop) stops.
Proof.
  induction stops as [|a l IH]; intros Hnd Hin.
  - by apply elem_of_nil in Hin.
  - rewrite fmap_cons in Hnd. apply NoDup_cons in Hnd as [Ha Hnd].
    destruct (decide (id a = id stop)) as [Hid|Hid].
    + assert (a = stop) as ->.
      { apply elem_of_cons in Hin as [->|Hin]; [done|].
        exfalso. apply Ha. rewrite Hid. by apply list_elem_of_fmap_2. }
      rewrite filter_cons_False by (intros H; by apply H).
      rewrite filter_keeps_all; [done|].
      apply Forall_forall. intros s Hs Heq. apply Ha. rewrite <- Heq.
      by apply list_elem_of_fmap_2.
    + apply elem_of_cons in Hin as [->|Hin]; [done|].
      rewrite filter_cons_True by done.
      rewrite (IH Hnd Hin) at 1. apply Permutation_swap.
Qed.

Lemma ordersOf_movedUp_other (rid rid' : UUID) (k : Z)
    (stops : list BusStop.t) :
  rid' <> rid ->
  ordersOf rid' (movedUp rid k None <$> stops) = ordersOf rid' stops.
Proof.
  intros Hne. unfold ordersOf. induction stops as [|s l IH]; [done|].
  rewrite fmap_cons.
  destruct (decide (routeId s = rid')) as [Hr|Hr].
  - rewrite !filter_cons_True by (by rewrite ?movedUp_routeId).
    rewrite !fmap_cons, IH. f_equal. unfold movedUp.
    rewrite (bool_decide_eq_false_2 (routeId s = rid)) by congruence.
    reflexivity.
  - rewrite !filter_cons_False by (by rewrite ?movedUp_routeId). exact IH.
Qed.

Lemma ordersOf_movedUp_same (rid : UUID) (k : Z) (stops : list BusStop.t) :
  ordersOf rid (movedUp rid k None <$> stops) =
    (fun o => if bool_decide (k < o) then o - 1 else o) <$> ordersOf rid stops.
Proof.
  unfold ordersOf. induction stops as [|s l IH]; [done|].
  rewrite fmap_cons.
  destruct (decide (routeId s = rid)) as [Hr|Hr].
  - rewrite !filter_cons_True by (by rewrite ?movedUp_routeId).
    rewrite !fmap_cons, IH. f_equal. unfold movedUp.
    rewrite (bool_decide_eq_true_2 (routeId s = rid)) by done.
    cbn [andb]. rewrite andb_true_r.
    by destruct (bool_decide (k < stopOrder s)).
  - rewrite !filter_cons_False by (by rewrite ?movedUp_routeId). exact IH.
Qed.

(** Once the stops after the removed one have moved up, the routes are
    numbered without gaps again. *)
Lemma dense_removed (stops : list BusStop.t) (stop : BusStop.t) :
  dense stops -> stop ∈ stops ->
  dense (movedUp (routeId stop) (stopOrder stop) None <$>
           filter (fun s => id s <> id stop) stops).
Proof.
  intros [Hids Hroutes] Hin.
  set (rest := filter (fun s => id s <> id stop) stops).
  pose proof (remove_Permutation stops stop Hids Hin) as Hperm.
  fold rest in Hperm.
  split.
  - rewrite <- list_fmap_compose.
    replace ((id ∘ movedUp (routeId stop) (stopOrder stop) None) <$> rest)
      with (id <$> rest)
      by (apply Forall_fmap_ext, Forall_forall; intros s _; cbn;
          by rewrite movedUp_id).
    rewrite Hperm, fmap_cons in Hids. by apply NoDup_cons in Hids as [_ ?].
  - intros rid. destruct (Hroutes rid) as [Hnd Hall].
    pose proof (ordersOf_Permutation rid _ _ Hperm) as Hp.
    destruct (decide (rid = routeId stop)) as [->|Hne].
    + set (k := stopOrder stop) in *.
      assert (Hcons : ordersOf (routeId stop) (stop :: rest)
                      = k :: ordersOf (routeId stop) rest).
      { unfold ordersOf. by rewrite filter_cons_True. }
      rewrite Hcons in Hp.
      destruct (numbered_Permutation _ _ Hp (conj Hnd Hall)) as [Hnd' Hall'].
      apply NoDup_cons in Hnd' as [Hk Hnd'].
      apply Forall_cons in Hall' as [Hkb Hall'].
      rewrite Forall_forall in Hall'. cbn [length] in Hkb, Hall'.
      rewrite ordersOf_movedUp_same. rewrite length_fmap. split.
      * apply NoDup_fmap_2_strong; [|done].
        intros x y Hx Hy Heq.
        assert (x <> k) by (by intros ->). assert (y <> k) by (by intros ->).
        destruct (decide (k < x)) as [H1|H1];
          [rewrite (bool_decide_eq_true_2 _ H1) in Heq
          |rewrite (bool_decide_eq_false_2 _ H1) in Heq];
          (destruct (decide (k < y)) as [H2|H2];
           [rewrite (bool_decide_eq_true_2 _ H2) in Heq
           |rewrite (bool_decide_eq_false_2 _ H2) in Heq]); lia.
      * apply Forall_forall. intros o Ho.
        apply list_elem_of_fmap in Ho as (x & -> & Hx).
        assert (x <> k) by (by intros ->).
        specialize (Hall' x Hx). cbv beta in Hall'.
        destruct (decide (k < x)) as [H1|H1];
          [rewrite (bool_decide_eq_true_2 _ H1)
          |rewrite (bool_decide_eq_false_2 _ H1)]; lia.
    + rewrite ordersOf_movedUp_other by done.
      assert (Hcons : ordersOf rid (stop :: rest) = ordersOf rid rest).
      { unfold ordersOf. by rewrite filter_cons_False by congruence. }
      rewrite Hcons in Hp.
      exact (numbered_Permutation _ _ Hp (conj Hnd Hall)).
Qed.

Lemma findByPk_Some (table : BusStop.Table) (sid : UUID) (stop : BusStop.t) :
  findByPk table sid = Resolved (Some stop) ->
  online table = true /\ stop ∈ rows table /\ id stop = sid.
Proof.
  unfold findByPk. destruct (online table); [|done]. intros [= Hhead].
  split; [done|]. apply head_Some_elem_of in Hhead.
  by apply list_elem_of_filter in Hhead as [? ?].
Qed.

(** The stops that remain after a delete, moved up by the loop. *)
Lemma removal_reorders (stops : list BusStop.t) (stop : BusStop.t) :
  dense stops -> stop ∈ stops ->
  let rest := filter (fun s => id s <> id stop) stops in
  exists remainingStops,
    findAll {| rows := rest; online := true |} (routeId stop)
      = Resolved remainingStops /\
    reorder (stopOrder stop) remainingStops {| rows := rest; online := true |} =
      ({| rows := movedUp (routeId stop) (stopOrder stop) None <$> rest;
          online := true |}, None).
Proof.
  intros Hdense Hin rest. destruct Hdense as [Hids Hroutes].
  pose proof (remove_Permutation stops stop Hids Hin) as Hperm.
  fold rest in Hperm.
  destruct (Hroutes (routeId stop)) as [Hnd Hall].
  pose proof (ordersOf_Permutation (routeId stop) _ _ Hperm) as Hp.
  assert (Hcons : ordersOf (routeId stop) (stop :: rest)
                  = stopOrder stop :: ordersOf (routeId stop) rest).
  { unfold ordersOf. by rewrite filter_cons_True. }
  rewrite Hcons in Hp.
  destruct (numbered_Permutation _ _ Hp (conj Hnd Hall)) as [Hnd' Hall'].
  apply NoDup_cons in Hnd' as [Hk Hnd'].
  apply Forall_cons in Hall' as [Hkb _].
  assert (Hids' : NoDup (id <$> rest)).
  { rewrite Hperm, fmap_cons in Hids. by apply NoDup_cons in Hids as [_ ?]. }
  eexists. split; [reflexivity|]. cbn [rows].
  rewrite <- (movedUp_none (routeId stop) (stopOrder stop) 1 rest) at 2 by lia.
  apply reorder_moves_up; try done; try lia.
  - apply StronglySorted_merge_sort; apply _.
  - rewrite merge_sort_Permutation. apply NoDup_filter.
    by apply NoDup_fmap_1 in Hids'.
  - intros s Hs. rewrite merge_sort_Permutation in Hs.
    apply list_elem_of_filter in Hs as [Hr Hs]. split; [done|]. split; [done|].
    assert (Ho : stopOrder s ∈ ordersOf (routeId stop) stops).
    { apply elem_of_ordersOf. exists s. split; [|done].
      rewrite Hperm. by right. }
    rewrite Forall_forall in Hall. specialize (Hall _ Ho). cbv beta in Hall.
    lia.
  - intros s Hs Hr _. rewrite merge_sort_Permutation.
    by apply list_elem_of_filter.
Qed.

Lemma byStopOrder_fmap (l : list BusStop.t) :
  StronglySorted byStopOrder l -> StronglySorted Z.le (stopOrder <$> l).
Proof.
  induction 1 as [|s l _ IH Hall]; [constructor|].
  rewrite fmap_cons. constructor; [done|].
  apply Forall_fmap. exact Hall.
Qed.

(** A list of integers that increases, without repeats, inside
    [a+1 .. a+n] for its length [n], is [a+1, ..., a+n]. *)
Lemma increasing_from (l : list Z) (a : Z) :
  StronglySorted Z.le l -> NoDup l ->
  Forall (fun k => a + 1 <= k <= a + Z.of_nat (length l)) l ->
  l = (fun i => a + Z.of_nat i) <$> seq 1 (length l).
Proof.
  revert a. induction l as [|x l IH]; intros a Hsorted Hnd Hall; [done|].
  apply StronglySorted_cons in Hsorted as [Hafter Hsorted].
  apply NoDup_cons in Hnd as [Hx Hnd].
  apply Forall_cons in Hall as [Hxb Hall].
  rewrite Forall_forall in Hafter, Hall. cbn [length] in Hxb, Hall.
  assert (Hgt : forall k, k ∈ l -> x < k).
  { intros k Hk. specialize (Hafter k Hk).
    destruct (decide (k = x)) as [->|]; [done|lia]. }
  specialize (IH (a + 1) Hsorted Hnd).
  assert (Hl : l = (fun i => a + 1 + Z.of_nat i) <$> seq 1 (length l)).
  { apply IH. apply Forall_forall. intros k Hk.
    specialize (Hall k Hk). specialize (Hgt k Hk). cbv beta in Hall. lia. }
  assert (Hxa : x = a + 1).
  { destruct l as [|y l']; [cbn in Hxb; lia|].
    assert (Hy : y = a + 1 + 1) by (cbn in Hl; by injection Hl as -> _).
    specialize (Hgt y (list_elem_of_here _ _)). lia. }
  cbn [length seq fmap list_fmap]. f_equal; [lia|].
  rewrite Hl at 1. rewrite <- (fmap_S_seq 1), <- list_fmap_compose.
  apply Forall_fmap_ext, Forall_forall. intros i _. cbn. lia.
Qed.

Lemma dense_listing (table : BusStop.Table) (rid : UUID)
    (stops : list BusStop.t) :
  dense (rows table) ->
  findAll table rid = Resolved stops ->
  stopOrder <$> stops = Z.of_nat <$> seq 1 (length stops).
Proof.
  intros [_ Hroutes] Hfind. pose proof Hfind as Hsorted.
  apply findAll_length in Hfind as (Hon & Hperm & Hlen).
  unfold findAll in Hsorted. rewrite Hon in Hsorted. injection Hsorted as <-.
  set (l := merge_sort byStopOrder _) in *.
  assert (Hp : stopOrder <$> l ≡ₚ ordersOf rid (rows table))
    by (unfold ordersOf; by rewrite Hperm).
  destruct (numbered_Permutation _ _ (symmetry Hp) (Hroutes rid))
    as [Hnd Hall].
  rewrite <- (length_fmap stopOrder l).
  rewrite (increasing_from (stopOrder <$> l) 0) at 1.
  - apply Forall_fmap_ext, Forall_forall. intros i _. lia.
  - apply byStopOrder_fmap, StronglySorted_merge_sort; apply _.
  - done.
  - eapply Forall_impl; [exact Hall|]. intros k Hk. cbv beta in Hk. lia.
Qed.

Lemma create_Resolved (table table' : BusStop.Table) (name : string)
    (new stop : BusStop.t) :
  create table name new = Resolved (table', stop) ->
  online table = true /\ ~ Exists (clashes new) (rows table) /\
  table' = {| rows := rows table ++ [new]; online := true |} /\ stop = new.
Proof.
  unfold create. destruct (valid name new); [|done]. cbn [negb].
  destruct (online table); [|done]. cbn [negb].
  destruct (decide (Exists (clashes new) (rows table))) as [Hex|Hex].
  - by rewrite (bool_decide_eq_true_2 _ Hex).
  - rewrite (bool_decide_eq_false_2 _ Hex). by intros [= <- <-].
Qed.

Lemma addBusStop_dense (newId : UUID) (req : AddRequest) (db : Db) :
  dense (rows (busStops db)) ->
  dense (rows (busStops (addBusStop newId req db).1)).
Proof.
  intros Hdense. unfold addBusStop.
  destruct (buses db !! add_busId req) as [bus|]; [|done].
  cbv zeta.
  destruct (Ids.not _); [done|].
  destruct (bool_decide _); [done|].
  match goal with |- context [findAll _ ?r] => set (route := r) end.
  destruct (findAll (busStops db) route) as [existing|e] eqn:Hfind; [|done].
  apply findAll_length in Hfind as (Hon & _ & Hlen).
  match goal with |- context [create _ _ ?x] => set (new := x) end.
  destruct (create (busStops db) (add_name req) new) as [[table stop]|e]
    eqn:Hcreate; [|by destruct e].
  apply create_Resolved in Hcreate as (_ & Hclash & -> & ->).
  cbn [fst busStops set_busStops rows].
  apply dense_snoc; [done| |by (cbn; rewrite Hlen)].
  intros Hid. apply Hclash. apply list_elem_of_fmap in Hid as (s & Hid & Hs).
  apply Exists_exists. exists s. split; [done|]. by left.
Qed.

Lemma removeBusStop_dense (busId stopId : string) (db : Db) :
  dense (rows (busStops db)) ->
  dense (rows (busStops (removeBusStop busId stopId db).1)).
Proof.
  intros Hdense. unfold removeBusStop.
  destruct (buses db !! busId) as [bus|]; [|done].
  destruct (findByPk (busStops db) stopId) as [[stop|]|e] eqn:Hpk;
    [|done|done].
  apply findByPk_Some in Hpk as (Hon & Hin & _).
  destruct (_ && _); [done|].
  unfold BusController.destroy.
  destruct (bool_decide (map_Exists _ _)); [done|].
  unfold BusStop.destroy. rewrite Hon.
  destruct (removal_reorders _ stop Hdense Hin) as (remaining & -> & ->).
  cbn [fst busStops set_busStops rows].
  by apply dense_removed.
Qed.


(** X29: whatever stops an administrator adds to and removes from the
    buses, a table whose routes are numbered without gaps stays so: the
    ids stay distinct, and the stops of every route, listed in order, are
    numbered 1, 2, ..., n.  A removal moves every later stop of the route
    one place up, a failed request changes nothing. *)
Theorem stop_orders_stay_numbered (db : Db) (ops : list Op) :
  dense (rows (busStops db)) ->
  dense (rows (busStops (run db ops))) /\
  forall rid stops,
    findAll (busStops (run db ops)) rid = Resolved stops ->
    stopOrder <$> stops = Z.of_nat <$> seq 1 (length stops).
Proof.
  intros Hdense.
  assert (Hrun : dense (rows (busStops (run db ops)))).
  { unfold run. revert db Hdense.
    induction ops as [|op ops IH]; intros db Hdense; [done|].
    cbn [foldl]. apply IH. destruct op as [newId req|busId stopId]; cbn.
    - by apply addBusStop_dense.
    - by apply removeBusStop_dense. }
  split; [done|]. intros rid stops. by apply dense_listing.
Qed.

(** X30: a removal that goes through deletes the stop and moves every
    later stop of its route one place up; the other stops, their order
    among themselves included, and the other routes are as before. *)
Theorem removeBusStop_moves_up (busId stopId : string) (db : Db)
    (bus : Bus.t) (stop : BusStop.t) :
  buses db !! busId = Some bus ->
  findByPk (busStops db) stopId = Resolved (Some stop) ->
  (Bus.currentRouteId bus = None \/
   Bus.currentRouteId bus = Some (routeId stop)) ->
  (forall b row, liveLocations db !! b = Some row ->
     LiveBusLocation.nextStopId row <> Some (id stop)) ->
  dense (rows (busStops db)) ->
  removeBusStop busId stopId db =
    (set_busStops
       {| rows := movedUp (routeId stop) (stopOrder stop) None <$>
                    filter (fun s => id s <> id stop) (rows (busStops db));
          online := true |} db,
     Removed).
Proof.
  intros Hbus Hpk Hroute Hlive Hdense. unfold removeBusStop.
  rewrite Hbus, Hpk.
  apply findByPk_Some in Hpk as (Hon & Hin & _).
  assert (Hguard : negb (Ids.not (Bus.currentRouteId bus)) &&
                   negb (bool_decide (Some (routeId stop)
                                      = Bus.currentRouteId bus)) = false).
  { destruct Hroute as [->| ->]; [done|].
    rewrite (bool_decide_eq_true_2 (Some (routeId stop) = Some (routeId stop)))
      by done.
    apply andb_false_r. }
  rewrite Hguard. unfold BusController.destroy.
  rewrite bool_decide_eq_false_2.
  2:{ intros (b & row & Hrow & Hnext). by apply (Hlive b row). }
  unfold BusStop.destroy. rewrite Hon.
  destruct (removal_reorders _ stop Hdense Hin) as (remaining & -> & ->).
  reflexivity.
Qed.
End StopsMore.
(** ** The properties above on the data of the scenario *)

Section MoreWitnesses.
Local Open Scope R_scope.
Import SocketService LocationController Scenario.

(** The start names the route and the handler saves it on the bus; the
    second start leaves the route to the bus. *)
Lemma start_twice_is_refused_witness :
  startLocationSharing hub0 500 startReq
    (startLocationSharing hub0 0 namedStart unrouted).1
  = ((startLocationSharing hub0 0 namedStart unrouted).1,
     Failure 400 "Already sharing").
Proof.
  refine (proj2 (start_twice_is_refused hub0 0 namedStart startReq 500
                   unrouted (started 0 busA true) _ _ _ _));
    try reflexivity; vm_compute; reflexivity.
Defined.


Lemma updateLocation_stores_report_witness :
  exists row,
    liveLocations (db (updateLocation hub0 1000 report1 afterStart.1).1)
      !! busA = Some row /\
    LiveBusLocation.latitude row = 0 /\
    LiveBusLocation.speedKmh row = Some 20.
Proof.
  assert (Hfind : LiveBusLocation.findByBusId
                    (liveLocations (db afterStart.1)) busA = Some row0)
    by (vm_compute; reflexivity).
  destruct (updateLocation_stores_report hub0 1000 report1 afterStart.1 row0
              report1_valid Hfind eq_refl)
    as (row & Hrow & _ & Hlat & _ & Hspeed & _).
  exists row. split; [exact Hrow|]. split; [exact Hlat|].
  rewrite Hspeed. cbn. rewrite bool_decide_eq_false_2 by lra. reflexivity.
Defined.


Lemma disconnects_empty_the_map_witness :
  busSubscribers
    (foldl handleDisconnect
       (run db0 new
          [connected {| id := "observer-1"; userId := driverA |};
           message {| id := "observer-1"; userId := driverA |}
             (subscribe busA)])
       [{| id := "observer-1"; userId := driverA |}]) = ∅.
Proof.
  apply (disconnects_empty_the_map db0).
  intros bus sid Hin. cbn [run foldl step handle] in Hin.
  apply subscribeToBus_interested in Hin; [|discriminate].
  destruct Hin as [(subs & Hsubs & _)|[_ ->]].
  - cbn in Hsubs. by rewrite lookup_empty in Hsubs.
  - cbn. apply list_elem_of_singleton. reflexivity.
Defined.

Lemma dense_gate : BusStop.dense [gate].
Proof.
  split.
  - apply NoDup_singleton.
  - intros rid. unfold BusStop.ordersOf.
    destruct (decide (BusStop.routeId gate = rid)) as [Hr|Hr].
    + rewrite filter_cons_True by done. cbn. split.
      * apply NoDup_singleton.
      * apply Forall_singleton. lia.
    + rewrite filter_cons_False by done. cbn. split.
      * apply NoDup_nil_2.
      * apply Forall_nil_2.
Qed.


Lemma stop_orders_stay_numbered_witness :
  BusStop.dense
    (BusStop.rows
       (busStops
          (BusController.run db0
             [BusController.add "55555555-5555-4555-8555-555555555555"
                {| BusController.add_busId := busA;
                   BusController.add_name := "Library";
                   BusController.add_latitude := 0;
                   BusController.add_longitude := 0.02;
                   BusController.add_routeId := None |};
              BusController.remove busA stopA]))).
Proof. exact (proj1 (stop_orders_stay_numbered db0 _ dense_gate)). Defined.

Lemma removeBusStop_moves_up_witness :
  (BusController.removeBusStop busA stopA db0).2 = BusController.Removed.
Proof.
  rewrite (removeBusStop_moves_up busA stopA db0
             {| Bus.isActive := true; Bus.driverId := Some driverA;
                Bus.currentRouteId := Some routeA |} gate).
  - reflexivity.
  - reflexivity.
  - reflexivity.
  - right. reflexivity.
  - intros b row Hrow. cbn in Hrow. by rewrite lookup_empty in Hrow.
  - exact dense_gate.
Defined.
End MoreWitnesses.
